(** * terraform-provider-clerk: the client registry, the two API facades
    and the resource adapters, embedded from the Go sources.

  Layout: Go runtime values (errors, strings.SplitN), the plugin
  framework's diagnostics and attribute values, the vendor SDK's
  parameter and result structs, package [client], package [provider],
  package [resources]; the theorems follow the definitions. *)

From Stdlib Require Import ZArith Ascii.
From stdpp Require Import gmap strings list pretty.

#[local] Open Scope Z_scope.

(** ** Go runtime values *)
Module Go.

(** Error values as the program builds and inspects them.
    [errorString] is what fmt.Errorf returns for a format without %w,
    [wrapError] what it returns with %w (the text and the wrapped error),
    [PlatformAPIError] is the struct of platform_api.go,
    [APIErrorResponse] the vendor SDK's error for a non-2xx answer,
    [externalError] an error of net/http, io or encoding/json. *)
Inductive error : Type :=
| errorString (s : string)
| wrapError (msg : string) (err : error)
| PlatformAPIError (StatusCode : Z) (Body : string)
| APIErrorResponse (HTTPStatusCode : Z) (text : string)
| externalError (text : string).

(** The Error() method. For PlatformAPIError it is
    Sprintf("clerk platform API error (status %d): %s", StatusCode, Body). *)
Definition Error (e : error) : string :=
  match e with
  | errorString s => s
  | wrapError msg _ => msg
  | PlatformAPIError StatusCode Body =>
      "clerk platform API error (status " +:+ pretty StatusCode +:+ "): " +:+ Body
  | APIErrorResponse _ text => text
  | externalError text => text
  end.

(** fmt.Errorf(prefix + "%w", err). *)
Definition Errorf_w (prefix : string) (err : error) : error :=
  wrapError (prefix +:+ Error err) err.

(** errors.Unwrap. *)
Definition Unwrap (e : error) : option error :=
  match e with
  | wrapError _ err => Some err
  | _ => None
  end.

(** A Go result pair (value, error): exactly one side is set on every
    path of the functions embedded here. *)
Inductive result (A : Type) : Type :=
| Ok (a : A)
| Err (e : error).
Arguments Ok {A} a.
Arguments Err {A} e.

(** strings.Cut at a one-byte separator: the text before the first
    occurrence and the text after it, or None when it does not occur. *)
Fixpoint cut (sep : ascii) (s : string) : option (string * string) :=
  match s with
  | EmptyString => None
  | String c rest =>
      if bool_decide (c = sep) then Some (EmptyString, rest)
      else match cut sep rest with
           | Some (before, after) => Some (String c before, after)
           | None => None
           end
  end.

(** strings.SplitN(s, sep, n) for a one-byte separator and n >= 0 (both
    call sites pass "/"): at most n substrings, the last one the unsplit
    remainder; n = 0 gives the empty slice. *)
Fixpoint SplitN (s : string) (sep : ascii) (n : nat) : list string :=
  match n with
  | O => []
  | S O => [s]
  | S n' =>
      match cut sep s with
      | Some (before, after) => before :: SplitN after sep n'
      | None => [s]
      end
  end.

End Go.

(** ** Plugin framework: diagnostics *)
Module Diag.

Inductive Severity : Type := SeverityError | SeverityWarning.

#[global] Instance Severity_eq_dec : EqDecision Severity.
Proof. solve_decision. Defined.

Record Diagnostic : Type := mkDiagnostic {
  severity : Severity;
  Summary : string;
  Detail : string;
}.

#[global] Instance Diagnostic_eq_dec : EqDecision Diagnostic.
Proof. solve_decision. Defined.

Definition Diagnostics : Type := list Diagnostic.

(** Diagnostics.Append: a diagnostic already present is skipped. *)
Definition Append1 (diags : Diagnostics) (d : Diagnostic) : Diagnostics :=
  if bool_decide (d ∈ diags) then diags else diags ++ [d].

Definition Append (diags : Diagnostics) (new : Diagnostics) : Diagnostics :=
  foldl Append1 diags new.

Definition AddError (diags : Diagnostics) (summary detail : string) : Diagnostics :=
  Append diags [mkDiagnostic SeverityError summary detail].

Definition AddWarning (diags : Diagnostics) (summary detail : string) : Diagnostics :=
  Append diags [mkDiagnostic SeverityWarning summary detail].

Definition HasError (diags : Diagnostics) : bool :=
  existsb (fun d => bool_decide (severity d = SeverityError)) diags.

End Diag.

(** ** Plugin framework: attribute values *)
Module Types.

(** types.Bool, types.String, types.Int64, types.List and types.Object
    are null, unknown or a known value. *)
Inductive attr (A : Type) : Type :=
| Null
| Unknown
| Value (a : A).
Arguments Null {A}.
Arguments Unknown {A}.
Arguments Value {A} a.

Definition IsNull {A} (v : attr A) : bool :=
  match v with Null => true | _ => false end.

Definition IsUnknown {A} (v : attr A) : bool :=
  match v with Unknown => true | _ => false end.

(** ValueBool, ValueString and ValueInt64 give the zero value for a
    null or unknown attribute. *)
Definition ValueBool (v : attr bool) : bool :=
  match v with Value b => b | _ => false end.

Definition ValueString (v : attr string) : string :=
  match v with Value s => s | _ => EmptyString end.

Definition ValueInt64 (v : attr Z) : Z :=
  match v with Value z => z | _ => 0 end.

End Types.

(** ** The vendor SDK's structs (clerk-sdk-go/v2), as far as the provider
       touches them. A pointer field is an option. *)
Module Clerk.

(** clerk.ClientConfig: the secret key and the optional endpoint override. *)
Record ClientConfig : Type := mkClientConfig {
  Key : option string;
  URL : option string;
}.

#[global] Instance ClientConfig_eq_dec : EqDecision ClientConfig.
Proof. solve_decision. Defined.

(** instancesettings.UpdateParams *)
Record UpdateParams : Type := mkUpdateParams {
  TestMode : option bool;
  HIBP : option bool;
  EnhancedEmailDeliverability : option bool;
  SupportEmail : option string;
  ClerkJSVersion : option string;
  URLBasedSessionSyncing : option bool;
  DevelopmentOrigin : option string;
}.

(** instancesettings.UpdateRestrictionsParams *)
Record UpdateRestrictionsParams : Type := mkUpdateRestrictionsParams {
  Allowlist : option bool;
  Blocklist : option bool;
  BlockEmailSubaddresses : option bool;
  BlockDisposableEmailDomains : option bool;
  IgnoreDotsForGmailAddresses : option bool;
}.

(** instancesettings.UpdateOrganizationSettingsParams *)
Record UpdateOrganizationSettingsParams : Type := mkUpdateOrganizationSettingsParams {
  Enabled : option bool;
  MaxAllowedMemberships : option Z;
  CreatorRoleID : option string;
  AdminDeleteEnabled : option bool;
  DomainsEnabled : option bool;
  DomainsEnrollmentModes : option (list string);
  DomainsDefaultRoleID : option string;
}.

(** clerk.InstanceRestrictions *)
Record InstanceRestrictions : Type := mkInstanceRestrictions {
  r_Allowlist : bool;
  r_Blocklist : bool;
  r_BlockEmailSubaddresses : bool;
  r_BlockDisposableEmailDomains : bool;
  r_IgnoreDotsForGmailAddresses : bool;
}.

(** clerk.OrganizationSettings; the slice is None when nil. *)
Record OrganizationSettings : Type := mkOrganizationSettings {
  s_Enabled : bool;
  s_MaxAllowedMemberships : Z;
  s_CreatorRole : string;
  s_AdminDeleteEnabled : bool;
  s_DomainsEnabled : bool;
  s_DomainsEnrollmentModes : option (list string);
  s_DomainsDefaultRole : string;
}.

(** clerk.Organization *)
Record Organization : Type := mkOrganization {
  o_ID : string;
  o_Name : string;
  o_Slug : string;
  o_MaxAllowedMemberships : Z;
  o_AdminDeleteEnabled : bool;
  o_CreatedAt : Z;
  o_UpdatedAt : Z;
}.

(** organization.CreateParams and organization.UpdateParams *)
Record OrganizationCreateParams : Type := mkOrganizationCreateParams {
  cp_Name : option string;
  cp_Slug : option string;
  cp_MaxAllowedMemberships : option Z;
}.

Record OrganizationUpdateParams : Type := mkOrganizationUpdateParams {
  up_Name : option string;
  up_Slug : option string;
  up_MaxAllowedMemberships : option Z;
  up_AdminDeleteEnabled : option bool;
}.

(** clerk.DeletedResource *)
Record DeletedResource : Type := mkDeletedResource {
  d_ID : string;
  d_Object : string;
  d_Deleted : bool;
}.

(** One call of an SDK client method; each is one request to the Backend
    API made with the configuration the client was built from. *)
Inductive BackendCall : Type :=
| InstanceUpdate (params : UpdateParams)
| InstanceUpdateRestrictions (params : UpdateRestrictionsParams)
| InstanceUpdateOrganizationSettings (params : UpdateOrganizationSettingsParams)
| OrganizationCreate (params : OrganizationCreateParams)
| OrganizationGet (idOrSlug : string)
| OrganizationUpdate (id : string) (params : OrganizationUpdateParams)
| OrganizationDelete (id : string).

End Clerk.

(** ** package client *)
Module Client.
Import Go Clerk.

(** *** platform_api.go: request and response structs *)

Record PlatformApplicationInstance : Type := mkPlatformApplicationInstance {
  InstanceID : string;
  EnvironmentType : string;
  PublishableKey : string;
  SecretKey : string;
}.

Record PlatformApplicationResponse : Type := mkPlatformApplicationResponse {
  ApplicationID : string;
  Instances : list PlatformApplicationInstance;
}.

Record PlatformCreateApplicationRequest : Type := mkPlatformCreateApplicationRequest {
  create_Name : string;
  create_Domain : string;
  create_ProxyPath : string;
  create_EnvironmentTypes : list string;
  create_Template : string;
}.

Record PlatformUpdateApplicationRequest : Type := mkPlatformUpdateApplicationRequest {
  update_Name : string;
}.

Record PlatformDeletedObjectResponse : Type := mkPlatformDeletedObjectResponse {
  Deleted : bool;
  Object : string;
  ID : string;
}.

(** *** net/http as platformRequest uses it *)

(** The request platformRequest hands to the HTTP client: the method, the
    URL string given to http.NewRequestWithContext, the headers set, the
    body (None for a nil body) and the query argument: [Some q] when the
    function overwrote the URL's query with the URL's own values
    overridden by q, [None] when it left the URL as parsed. *)
Record Request : Type := mkRequest {
  req_Method : string;
  req_URL : string;
  req_Header : gmap string string;
  req_Body : option string;
  req_Query : option (gmap string string);
}.

(** The response: the status code and what io.ReadAll gave for the body. *)
Record Response : Type := mkResponse {
  StatusCode : Z;
  resp_Body : result string;
}.

(** *** The outside world *)

(** What leaves the process: a request to the Platform API, or an SDK call
    against the Backend API with the client configuration it uses. *)
Inductive Event : Type :=
| PlatformHTTP (req : Request)
| BackendHTTP (config : ClientConfig) (call : BackendCall).

(** Everything the package takes from outside the repository: Go's
    standard library and the vendor SDK. The remote answers may depend on
    all earlier traffic, hence the [list Event] argument. *)
Class Runtime : Type := {
  (** the %q verb of fmt *)
  strconv_Quote : string -> string;
  (** http.NewRequestWithContext(ctx, method, url, body): its error, if any *)
  http_NewRequestWithContext : string -> string -> option error;
  (** the Do method of the HTTP client *)
  http_Do : list Event -> Request -> result Response;
  json_Marshal_Create : PlatformCreateApplicationRequest -> result string;
  json_Marshal_Update : PlatformUpdateApplicationRequest -> result string;
  json_Unmarshal_Application : string -> result PlatformApplicationResponse;
  json_Unmarshal_Applications : string -> result (list PlatformApplicationResponse);
  json_Unmarshal_Deleted : string -> result PlatformDeletedObjectResponse;
  (** the SDK's instancesettings.Client and organization.Client methods *)
  sdk_instancesettings_Update :
    list Event -> ClientConfig -> UpdateParams -> option error;
  sdk_instancesettings_UpdateRestrictions :
    list Event -> ClientConfig -> UpdateRestrictionsParams -> result InstanceRestrictions;
  sdk_instancesettings_UpdateOrganizationSettings :
    list Event -> ClientConfig -> UpdateOrganizationSettingsParams -> result OrganizationSettings;
  sdk_organization_Create :
    list Event -> ClientConfig -> OrganizationCreateParams -> result Organization;
  sdk_organization_Get :
    list Event -> ClientConfig -> string -> result Organization;
  sdk_organization_Update :
    list Event -> ClientConfig -> string -> OrganizationUpdateParams -> result Organization;
  sdk_organization_Delete :
    list Event -> ClientConfig -> string -> result DeletedResource;
}.

(** Effectful code threads the log of events sent so far. *)
Definition M (A : Type) : Type := list Event -> A * list Event.

#[global] Instance M_ret : MRet M := fun A a log => (a, log).

#[global] Instance M_bind : MBind M :=
  fun A B f m log => let '(a, log') := m log in f a log'.

(** The events an action adds to an empty log. *)
Definition trace {A} (m : M A) (log : list Event) : list Event := snd (m log).

Definition value {A} (m : M A) (log : list Event) : A := fst (m log).

(** *** client.go *)

(** ClerkClient: the platform key and the registry. The mutex is not
    modelled (calls are taken one at a time), and PlatformHTTPClient is the
    [http_Do] of the runtime. *)
Record ClerkClient : Type := mkClerkClient {
  PlatformAPIKey : string;
  backendClients : gmap string ClientConfig;
}.

Definition NewClerkClient (platformAPIKey : string) : ClerkClient :=
  {| PlatformAPIKey := platformAPIKey; backendClients := ∅ |}.

Definition backendClientKey (appID environment : string) : string :=
  appID +:+ "/" +:+ environment.

Definition RegisterBackendClient (c : ClerkClient) (appID environment secretKey : string)
  : ClerkClient :=
  let key := backendClientKey appID environment in
  let config := {| Key := Some secretKey; URL := None |} in
  {| PlatformAPIKey := PlatformAPIKey c;
     backendClients := <[key := config]> (backendClients c) |}.

Section WithRuntime.
Context `{Runtime}.

Definition GetBackendConfig (c : ClerkClient) (appID environment : string)
  : result ClientConfig :=
  let key := backendClientKey appID environment in
  match backendClients c !! key with
  | None =>
      Err (errorString ("no backend client registered for application "
                        +:+ strconv_Quote appID +:+ " environment "
                        +:+ strconv_Quote environment))
  | Some config => Ok config
  end.

(** *** backend_api.go *)

(** An SDK client is determined by the configuration it was built from
    (instancesettings.NewClient, organization.NewClient). *)
Definition NewClient (config : ClientConfig) : ClientConfig := config.

(** One SDK call: the event is logged and the runtime gives the answer. *)
Definition sdkCall {A} (answer : list Event -> ClientConfig -> A)
  (config : ClientConfig) (call : BackendCall) : M A :=
  fun log => (answer log config, log ++ [BackendHTTP config call]).

Definition resolveError (appID environment : string) (err : error) : error :=
  Errorf_w ("resolving backend client for " +:+ appID +:+ "/" +:+ environment +:+ ": ") err.

Definition GetInstanceSettingsClient (c : ClerkClient) (appID environment : string)
  : result ClientConfig :=
  match GetBackendConfig c appID environment with
  | Err err => Err (resolveError appID environment err)
  | Ok config => Ok (NewClient config)
  end.

Definition UpdateInstanceSettings (c : ClerkClient) (appID environment : string)
  (params : UpdateParams) : M (option error) :=
  match GetInstanceSettingsClient c appID environment with
  | Err err => mret (Some err)
  | Ok isClient =>
      sdkCall (fun log cfg => sdk_instancesettings_Update log cfg params)
              isClient (InstanceUpdate params)
  end.

Definition UpdateInstanceRestrictions (c : ClerkClient) (appID environment : string)
  (params : UpdateRestrictionsParams) : M (result InstanceRestrictions) :=
  match GetInstanceSettingsClient c appID environment with
  | Err err => mret (Err err)
  | Ok isClient =>
      sdkCall (fun log cfg => sdk_instancesettings_UpdateRestrictions log cfg params)
              isClient (InstanceUpdateRestrictions params)
  end.

Definition UpdateOrganizationSettings (c : ClerkClient) (appID environment : string)
  (params : UpdateOrganizationSettingsParams) : M (result OrganizationSettings) :=
  match GetInstanceSettingsClient c appID environment with
  | Err err => mret (Err err)
  | Ok isClient =>
      sdkCall (fun log cfg => sdk_instancesettings_UpdateOrganizationSettings log cfg params)
              isClient (InstanceUpdateOrganizationSettings params)
  end.

(** *** organization_api.go *)

Definition CreateOrganization (c : ClerkClient) (appID environment : string)
  (params : OrganizationCreateParams) : M (result Organization) :=
  match GetBackendConfig c appID environment with
  | Err err => mret (Err (resolveError appID environment err))
  | Ok config =>
      let orgClient := NewClient config in
      sdkCall (fun log cfg => sdk_organization_Create log cfg params)
              orgClient (OrganizationCreate params)
  end.

Definition GetOrganization (c : ClerkClient) (appID environment idOrSlug : string)
  : M (result Organization) :=
  match GetBackendConfig c appID environment with
  | Err err => mret (Err (resolveError appID environment err))
  | Ok config =>
      let orgClient := NewClient config in
      sdkCall (fun log cfg => sdk_organization_Get log cfg idOrSlug)
              orgClient (OrganizationGet idOrSlug)
  end.

Definition UpdateOrganization (c : ClerkClient) (appID environment id : string)
  (params : OrganizationUpdateParams) : M (result Organization) :=
  match GetBackendConfig c appID environment with
  | Err err => mret (Err (resolveError appID environment err))
  | Ok config =>
      let orgClient := NewClient config in
      sdkCall (fun log cfg => sdk_organization_Update log cfg id params)
              orgClient (OrganizationUpdate id params)
  end.

Definition DeleteOrganization (c : ClerkClient) (appID environment id : string)
  : M (result DeletedResource) :=
  match GetBackendConfig c appID environment with
  | Err err => mret (Err (resolveError appID environment err))
  | Ok config =>
      let orgClient := NewClient config in
      sdkCall (fun log cfg => sdk_organization_Delete log cfg id)
              orgClient (OrganizationDelete id)
  end.

(** *** platform_api.go *)

Definition platformAPIBaseURL : string := "https://api.clerk.com/v1".

Definition platformRequest (c : ClerkClient) (method path : string)
  (body : option string) (query : option (gmap string string)) : M (result string) :=
  let url := platformAPIBaseURL +:+ path in
  match http_NewRequestWithContext method url with
  | Some err => mret (Err (Errorf_w "creating request: " err))
  | None =>
      let header := <["Authorization" := "Bearer " +:+ PlatformAPIKey c]> (∅ : gmap string string) in
      let header :=
        match body with
        | Some _ => <["Content-Type" := "application/json"]> header
        | None => header
        end in
      let req := {| req_Method := method; req_URL := url; req_Header := header;
                    req_Body := body; req_Query := query |} in
      fun log =>
        let log' := log ++ [PlatformHTTP req] in
        match http_Do log req with
        | Err err => (Err (Errorf_w "executing request: " err), log')
        | Ok resp =>
            match resp_Body resp with
            | Err err => (Err (Errorf_w "reading response body: " err), log')
            | Ok respBody =>
                if (StatusCode resp <? 200) || (StatusCode resp >=? 300)
                then (Err (PlatformAPIError (StatusCode resp) respBody), log')
                else (Ok respBody, log')
            end
        end
  end.

Definition CreateApplication (c : ClerkClient) (req : PlatformCreateApplicationRequest)
  : M (result PlatformApplicationResponse) :=
  match json_Marshal_Create req with
  | Err err => mret (Err (Errorf_w "marshaling create request: " err))
  | Ok body =>
      resp ← platformRequest c "POST" "/platform/applications" (Some body) None;
      match resp with
      | Err err => mret (Err err)
      | Ok resp =>
          match json_Unmarshal_Application resp with
          | Err err => mret (Err (Errorf_w "unmarshaling create response: " err))
          | Ok result => mret (Ok result)
          end
      end
  end.

Definition GetApplication (c : ClerkClient) (applicationID : string)
  (includeSecretKeys : bool) : M (result PlatformApplicationResponse) :=
  let query : option (gmap string string) :=
    if includeSecretKeys then Some {["include_secret_keys" := "true"]} else None in
  resp ← platformRequest c "GET" ("/platform/applications/" +:+ applicationID) None query;
  match resp with
  | Err err => mret (Err err)
  | Ok resp =>
      match json_Unmarshal_Application resp with
      | Err err => mret (Err (Errorf_w "unmarshaling get response: " err))
      | Ok result => mret (Ok result)
      end
  end.

Definition UpdateApplication (c : ClerkClient) (applicationID : string)
  (req : PlatformUpdateApplicationRequest) : M (result PlatformApplicationResponse) :=
  match json_Marshal_Update req with
  | Err err => mret (Err (Errorf_w "marshaling update request: " err))
  | Ok body =>
      resp ← platformRequest c "PATCH" ("/platform/applications/" +:+ applicationID)
                             (Some body) None;
      match resp with
      | Err err => mret (Err err)
      | Ok resp =>
          match json_Unmarshal_Application resp with
          | Err err => mret (Err (Errorf_w "unmarshaling update response: " err))
          | Ok result => mret (Ok result)
          end
      end
  end.

Definition DeleteApplication (c : ClerkClient) (applicationID : string) : M (option error) :=
  resp ← platformRequest c "DELETE" ("/platform/applications/" +:+ applicationID) None None;
  match resp with
  | Err err => mret (Some err)
  | Ok resp =>
      match json_Unmarshal_Deleted resp with
      | Err err => mret (Some (Errorf_w "unmarshaling delete response: " err))
      | Ok result =>
          if negb (Deleted result)
          then mret (Some (errorString ("application " +:+ applicationID +:+ " was not deleted")))
          else mret None
      end
  end.

Definition ListApplications (c : ClerkClient) (includeSecretKeys : bool)
  : M (result (list PlatformApplicationResponse)) :=
  let query : option (gmap string string) :=
    if includeSecretKeys then Some {["include_secret_keys" := "true"]} else None in
  resp ← platformRequest c "GET" "/platform/applications" None query;
  match resp with
  | Err err => mret (Err err)
  | Ok resp =>
      match json_Unmarshal_Applications resp with
      | Err err => mret (Err (Errorf_w "unmarshaling list response: " err))
      | Ok result => mret (Ok result)
      end
  end.

End WithRuntime.

End Client.

(** ** package provider *)
Module Provider.
Import Go Diag Types Client.

Record ClerkProviderModel : Type := mkClerkProviderModel {
  m_PlatformAPIKey : attr string;
}.

(** The request: what req.Config.Get(ctx, &data) stores in data and the
    diagnostics it returns. *)
Record ConfigureRequest : Type := mkConfigureRequest {
  Config : ClerkProviderModel;
  Config_diags : Diagnostics;
}.

(** ResourceData and DataSourceData hold a pointer to a ClerkClient: a
    location of the heap of clients, None for nil. *)
Record ConfigureResponse : Type := mkConfigureResponse {
  resp_Diagnostics : Diagnostics;
  DataSourceData : option nat;
  ResourceData : option nat;
}.

(** os.Getenv over the process environment: empty for an unset name. *)
Definition Getenv (environ : gmap string string) (name : string) : string :=
  default EmptyString (environ !! name).

(** &T{...}: a fresh location holding the value. *)
Definition alloc (heap : gmap nat ClerkClient) (v : ClerkClient) : nat * gmap nat ClerkClient :=
  let l := fresh (dom heap) in (l, <[l := v]> heap).

Definition Configure (environ : gmap string string) (heap : gmap nat ClerkClient)
  (req : ConfigureRequest) (resp : ConfigureResponse)
  : ConfigureResponse * gmap nat ClerkClient :=
  let data := Config req in
  let diags := Append (resp_Diagnostics resp) (Config_diags req) in
  let resp := {| resp_Diagnostics := diags;
                 DataSourceData := DataSourceData resp;
                 ResourceData := ResourceData resp |} in
  if HasError diags then (resp, heap)
  else
    (* Resolve the Platform API key: config takes precedence over env var. *)
    let platformAPIKey := Getenv environ "CLERK_PLATFORM_API_KEY" in
    let platformAPIKey :=
      if negb (IsNull (m_PlatformAPIKey data)) && negb (IsUnknown (m_PlatformAPIKey data))
      then ValueString (m_PlatformAPIKey data)
      else platformAPIKey in
    if bool_decide (platformAPIKey = EmptyString)
    then
      ({| resp_Diagnostics :=
            AddError diags "Missing Platform API Key"
              ("The Clerk Platform API key must be set in the provider configuration "
               +:+ "block (platform_api_key) or via the CLERK_PLATFORM_API_KEY environment variable.");
          DataSourceData := DataSourceData resp;
          ResourceData := ResourceData resp |}, heap)
    else
      let '(clerkClient, heap) := alloc heap (NewClerkClient platformAPIKey) in
      ({| resp_Diagnostics := diags;
          DataSourceData := Some clerkClient;
          ResourceData := Some clerkClient |}, heap).

End Provider.

(** ** package resources: environment.go *)
Module Environment.
Import Go Diag Types Client.

(** RestrictionsModel maps the restrictions block. *)
Record RestrictionsModel : Type := mkRestrictionsModel {
  Allowlist : attr bool;
  Blocklist : attr bool;
  BlockEmailSubaddresses : attr bool;
  BlockDisposableEmailDomains : attr bool;
  IgnoreDotsForGmailAddresses : attr bool;
}.

(** OrganizationSettingsModel maps the organization_settings block. *)
Record OrganizationSettingsModel : Type := mkOrganizationSettingsModel {
  Enabled : attr bool;
  MaxAllowedMemberships : attr Z;
  CreatorRoleID : attr string;
  AdminDeleteEnabled : attr bool;
  DomainsEnabled : attr bool;
  DomainsEnrollmentModes : attr (list string);
  DomainsDefaultRoleID : attr string;
}.

(** EnvironmentResourceModel. The two nested blocks are types.Object
    values, held here already typed: converting them to and from their
    structs (As, ElementsAs, ListValueFrom, ObjectValueFrom) gives no
    diagnostics. *)
Record EnvironmentResourceModel : Type := mkEnvironmentResourceModel {
  ID : attr string;
  ApplicationID : attr string;
  Environment : attr string;
  TestMode : attr bool;
  HIBP : attr bool;
  EnhancedEmailDeliverability : attr bool;
  SupportEmail : attr string;
  ClerkJSVersion : attr string;
  URLBasedSessionSyncing : attr bool;
  DevelopmentOrigin : attr string;
  Restrictions : attr RestrictionsModel;
  OrganizationSettings : attr OrganizationSettingsModel;
}.

Definition set_ID (v : attr string) (m : EnvironmentResourceModel) : EnvironmentResourceModel :=
  {| ID := v; ApplicationID := ApplicationID m; Environment := Environment m;
     TestMode := TestMode m; HIBP := HIBP m;
     EnhancedEmailDeliverability := EnhancedEmailDeliverability m;
     SupportEmail := SupportEmail m; ClerkJSVersion := ClerkJSVersion m;
     URLBasedSessionSyncing := URLBasedSessionSyncing m;
     DevelopmentOrigin := DevelopmentOrigin m;
     Restrictions := Restrictions m; OrganizationSettings := OrganizationSettings m |}.

Definition set_Restrictions (v : attr RestrictionsModel) (m : EnvironmentResourceModel)
  : EnvironmentResourceModel :=
  {| ID := ID m; ApplicationID := ApplicationID m; Environment := Environment m;
     TestMode := TestMode m; HIBP := HIBP m;
     EnhancedEmailDeliverability := EnhancedEmailDeliverability m;
     SupportEmail := SupportEmail m; ClerkJSVersion := ClerkJSVersion m;
     URLBasedSessionSyncing := URLBasedSessionSyncing m;
     DevelopmentOrigin := DevelopmentOrigin m;
     Restrictions := v; OrganizationSettings := OrganizationSettings m |}.

Definition set_OrganizationSettings (v : attr OrganizationSettingsModel)
  (m : EnvironmentResourceModel) : EnvironmentResourceModel :=
  {| ID := ID m; ApplicationID := ApplicationID m; Environment := Environment m;
     TestMode := TestMode m; HIBP := HIBP m;
     EnhancedEmailDeliverability := EnhancedEmailDeliverability m;
     SupportEmail := SupportEmail m; ClerkJSVersion := ClerkJSVersion m;
     URLBasedSessionSyncing := URLBasedSessionSyncing m;
     DevelopmentOrigin := DevelopmentOrigin m;
     Restrictions := Restrictions m; OrganizationSettings := v |}.

(** EnvironmentResource: the client bound by Configure. *)
Record EnvironmentResource : Type := mkEnvironmentResource {
  client : ClerkClient;
}.

(** What req.Plan.Get or req.State.Get stores in the model struct, and
    the diagnostics it returns. *)
Record Decoded : Type := mkDecoded {
  got : EnvironmentResourceModel;
  got_diags : Diagnostics;
}.

(** Create, Read, Update and Delete responses: the diagnostics and the
    state ([Some m] once State.Set stored m). *)
Record Response : Type := mkResponse {
  resp_Diagnostics : Diagnostics;
  resp_State : option EnvironmentResourceModel;
}.

Definition with_Diagnostics (diags : Diagnostics) (resp : Response) : Response :=
  {| resp_Diagnostics := diags; resp_State := resp_State resp |}.

(** Import works attribute by attribute: the state is the map from
    root attribute name to the string set there. *)
Record ImportStateResponse : Type := mkImportStateResponse {
  import_Diagnostics : Diagnostics;
  import_State : gmap string string;
}.

Definition SetAttribute (resp : ImportStateResponse) (root value : string)
  : ImportStateResponse :=
  {| import_Diagnostics := import_Diagnostics resp;
     import_State := <[root := value]> (import_State resp) |}.

Definition import_AddError (resp : ImportStateResponse) (summary detail : string)
  : ImportStateResponse :=
  {| import_Diagnostics := AddError (import_Diagnostics resp) summary detail;
     import_State := import_State resp |}.

(** v := x.ValueBool(); p = &v under !x.IsNull() && !x.IsUnknown(). *)
Definition boolPtr (x : attr bool) : option bool :=
  if negb (IsNull x) && negb (IsUnknown x) then Some (ValueBool x) else None.

Definition stringPtr (x : attr string) : option string :=
  if negb (IsNull x) && negb (IsUnknown x) then Some (ValueString x) else None.

Definition int64Ptr (x : attr Z) : option Z :=
  if negb (IsNull x) && negb (IsUnknown x) then Some (ValueInt64 x) else None.

Definition isSet {A} (x : attr A) : bool := negb (IsNull x) && negb (IsUnknown x).

(** types.ListValueFrom on a Go slice: a nil slice gives a null list. *)
Definition ListValueFrom (l : option (list string)) : attr (list string) :=
  match l with
  | Some l => Value l
  | None => Null
  end.

Definition dquote : string := String "034"%char EmptyString.

Section WithRuntime.
Context `{Runtime}.

Definition applyInstanceSettings (r : EnvironmentResource) (appID env : string)
  (plan : EnvironmentResourceModel) (diags : Diagnostics) : M Diagnostics :=
  let params :=
    {| Clerk.TestMode := boolPtr (TestMode plan);
       Clerk.HIBP := boolPtr (HIBP plan);
       Clerk.EnhancedEmailDeliverability := boolPtr (EnhancedEmailDeliverability plan);
       Clerk.SupportEmail := stringPtr (SupportEmail plan);
       Clerk.ClerkJSVersion := stringPtr (ClerkJSVersion plan);
       Clerk.URLBasedSessionSyncing := boolPtr (URLBasedSessionSyncing plan);
       Clerk.DevelopmentOrigin := stringPtr (DevelopmentOrigin plan) |} in
  let hasChanges :=
    isSet (TestMode plan) || isSet (HIBP plan) || isSet (EnhancedEmailDeliverability plan)
    || isSet (SupportEmail plan) || isSet (ClerkJSVersion plan)
    || isSet (URLBasedSessionSyncing plan) || isSet (DevelopmentOrigin plan) in
  if negb hasChanges then mret diags
  else
    err ← UpdateInstanceSettings (client r) appID env params;
    match err with
    | Some err => mret (AddError diags "Error updating instance settings" (Error err))
    | None => mret diags
    end.

Definition applyRestrictions (r : EnvironmentResource) (appID env : string)
  (plan : EnvironmentResourceModel) (diags : Diagnostics)
  : M (EnvironmentResourceModel * Diagnostics) :=
  match Restrictions plan with
  | Null | Unknown => mret (plan, diags)
  | Value restrictions =>
      if HasError diags then mret (plan, diags)
      else
        let params :=
          {| Clerk.Allowlist := boolPtr (Allowlist restrictions);
             Clerk.Blocklist := boolPtr (Blocklist restrictions);
             Clerk.BlockEmailSubaddresses := boolPtr (BlockEmailSubaddresses restrictions);
             Clerk.BlockDisposableEmailDomains :=
               boolPtr (BlockDisposableEmailDomains restrictions);
             Clerk.IgnoreDotsForGmailAddresses :=
               boolPtr (IgnoreDotsForGmailAddresses restrictions) |} in
        res ← UpdateInstanceRestrictions (client r) appID env params;
        match res with
        | Err err =>
            mret (plan, AddError diags "Error updating instance restrictions" (Error err))
        | Ok result =>
            (* Update state from the API response. *)
            let restrictionsObj :=
              Value {| Allowlist := Value (Clerk.r_Allowlist result);
                       Blocklist := Value (Clerk.r_Blocklist result);
                       BlockEmailSubaddresses := Value (Clerk.r_BlockEmailSubaddresses result);
                       BlockDisposableEmailDomains :=
                         Value (Clerk.r_BlockDisposableEmailDomains result);
                       IgnoreDotsForGmailAddresses :=
                         Value (Clerk.r_IgnoreDotsForGmailAddresses result) |} in
            mret (set_Restrictions restrictionsObj plan, diags)
        end
  end.

Definition applyOrganizationSettings (r : EnvironmentResource) (appID env : string)
  (plan : EnvironmentResourceModel) (diags : Diagnostics)
  : M (EnvironmentResourceModel * Diagnostics) :=
  match OrganizationSettings plan with
  | Null | Unknown => mret (plan, diags)
  | Value orgSettings =>
      if HasError diags then mret (plan, diags)
      else if isSet (DomainsEnrollmentModes orgSettings) && HasError diags
      then mret (plan, diags)
      else
        let params :=
          {| Clerk.Enabled := boolPtr (Enabled orgSettings);
             Clerk.MaxAllowedMemberships := int64Ptr (MaxAllowedMemberships orgSettings);
             Clerk.CreatorRoleID := stringPtr (CreatorRoleID orgSettings);
             Clerk.AdminDeleteEnabled := boolPtr (AdminDeleteEnabled orgSettings);
             Clerk.DomainsEnabled := boolPtr (DomainsEnabled orgSettings);
             Clerk.DomainsEnrollmentModes :=
               match DomainsEnrollmentModes orgSettings with
               | Value modes => Some modes
               | _ => None
               end;
             Clerk.DomainsDefaultRoleID := stringPtr (DomainsDefaultRoleID orgSettings) |} in
        res ← UpdateOrganizationSettings (client r) appID env params;
        match res with
        | Err err =>
            mret (plan, AddError diags "Error updating organization settings" (Error err))
        | Ok result =>
            (* Update state from the API response. *)
            let enrollmentModes := ListValueFrom (Clerk.s_DomainsEnrollmentModes result) in
            if HasError diags then mret (plan, diags)
            else
              (* The configured role ids are kept, not the role keys of the answer. *)
              let creatorRoleID := CreatorRoleID orgSettings in
              let domainsDefaultRoleID := DomainsDefaultRoleID orgSettings in
              let orgObj :=
                Value {| Enabled := Value (Clerk.s_Enabled result);
                         MaxAllowedMemberships := Value (Clerk.s_MaxAllowedMemberships result);
                         CreatorRoleID := creatorRoleID;
                         AdminDeleteEnabled := Value (Clerk.s_AdminDeleteEnabled result);
                         DomainsEnabled := Value (Clerk.s_DomainsEnabled result);
                         DomainsEnrollmentModes := enrollmentModes;
                         DomainsDefaultRoleID := domainsDefaultRoleID |} in
              mret (set_OrganizationSettings orgObj plan, diags)
        end
  end.

(** applySettings pushes all configured settings to the Clerk Backend API. *)
Definition applySettings (r : EnvironmentResource) (plan : EnvironmentResourceModel)
  (diags : Diagnostics) : M (EnvironmentResourceModel * Diagnostics) :=
  let appID := ValueString (ApplicationID plan) in
  let env := ValueString (Environment plan) in
  (* 1. Apply instance settings. *)
  diags ← applyInstanceSettings r appID env plan diags;
  if HasError diags then mret (plan, diags)
  else
    (* 2. Apply restrictions. *)
    '(plan, diags) ← applyRestrictions r appID env plan diags;
    if HasError diags then mret (plan, diags)
    else
      (* 3. Apply organization settings. *)
      applyOrganizationSettings r appID env plan diags.

Definition Create (r : EnvironmentResource) (req_Plan : Decoded) (resp : Response)
  : M Response :=
  let plan := got req_Plan in
  let resp := with_Diagnostics (Append (resp_Diagnostics resp) (got_diags req_Plan)) resp in
  if HasError (resp_Diagnostics resp) then mret resp
  else
    let appID := ValueString (ApplicationID plan) in
    let env := ValueString (Environment plan) in
    let plan := set_ID (Value (appID +:+ "/" +:+ env)) plan in
    (* Apply all settings to the instance. *)
    '(plan, diags) ← applySettings r plan (resp_Diagnostics resp);
    let resp := with_Diagnostics diags resp in
    if HasError (resp_Diagnostics resp) then mret resp
    else mret {| resp_Diagnostics := resp_Diagnostics resp; resp_State := Some plan |}.

(** Read keeps the state as it is: the Backend API has no GET endpoint
    for instance settings. *)
Definition Read (r : EnvironmentResource) (req_State : Decoded) (resp : Response)
  : M Response :=
  let state := got req_State in
  let resp := with_Diagnostics (Append (resp_Diagnostics resp) (got_diags req_State)) resp in
  if HasError (resp_Diagnostics resp) then mret resp
  else mret {| resp_Diagnostics := resp_Diagnostics resp; resp_State := Some state |}.

Definition Update (r : EnvironmentResource) (req_Plan : Decoded) (resp : Response)
  : M Response :=
  let plan := got req_Plan in
  let resp := with_Diagnostics (Append (resp_Diagnostics resp) (got_diags req_Plan)) resp in
  if HasError (resp_Diagnostics resp) then mret resp
  else
    '(plan, diags) ← applySettings r plan (resp_Diagnostics resp);
    let resp := with_Diagnostics diags resp in
    if HasError (resp_Diagnostics resp) then mret resp
    else mret {| resp_Diagnostics := resp_Diagnostics resp; resp_State := Some plan |}.

(** The hard-coded defaults Delete resets to. *)
Definition resetInstanceSettings : Clerk.UpdateParams :=
  let defaultTrue := true in
  let defaultFalse := false in
  let emptyStr := EmptyString in
  {| Clerk.TestMode := Some defaultFalse;
     Clerk.HIBP := Some defaultTrue;
     Clerk.EnhancedEmailDeliverability := Some defaultTrue;
     Clerk.SupportEmail := Some emptyStr;
     Clerk.ClerkJSVersion := Some emptyStr;
     Clerk.URLBasedSessionSyncing := Some defaultFalse;
     Clerk.DevelopmentOrigin := Some emptyStr |}.

Definition resetRestrictions : Clerk.UpdateRestrictionsParams :=
  let defaultFalse := false in
  {| Clerk.Allowlist := Some defaultFalse;
     Clerk.Blocklist := Some defaultFalse;
     Clerk.BlockEmailSubaddresses := Some defaultFalse;
     Clerk.BlockDisposableEmailDomains := Some defaultFalse;
     Clerk.IgnoreDotsForGmailAddresses := Some defaultFalse |}.

Definition resetOrganizationSettings : Clerk.UpdateOrganizationSettingsParams :=
  let defaultFalse := false in
  {| Clerk.Enabled := Some defaultFalse;
     Clerk.MaxAllowedMemberships := None;
     Clerk.CreatorRoleID := None;
     Clerk.AdminDeleteEnabled := Some defaultFalse;
     Clerk.DomainsEnabled := Some defaultFalse;
     Clerk.DomainsEnrollmentModes := None;
     Clerk.DomainsDefaultRoleID := None |}.

(** The three warnings of Delete; each is
    Sprintf("Could not reset ... for %s/%s: %s. The instance still exists in Clerk.",
    appID, env, err.Error()). *)
Definition resetWarning (summary what appID env : string) (err : error) : Diagnostic :=
  mkDiagnostic SeverityWarning summary
    ("Could not reset " +:+ what +:+ " for " +:+ appID +:+ "/" +:+ env +:+ ": "
     +:+ Error err +:+ ". The instance still exists in Clerk.").

Definition warnInstanceSettings (appID env : string) (err : error) : Diagnostic :=
  resetWarning "Failed to reset instance settings" "instance settings" appID env err.

Definition warnRestrictions (appID env : string) (err : error) : Diagnostic :=
  resetWarning "Failed to reset instance restrictions" "restrictions" appID env err.

Definition warnOrganizationSettings (appID env : string) (err : error) : Diagnostic :=
  resetWarning "Failed to reset organization settings" "organization settings" appID env err.

Definition Delete (r : EnvironmentResource) (req_State : Decoded) (resp : Response)
  : M Response :=
  let state := got req_State in
  let resp := with_Diagnostics (Append (resp_Diagnostics resp) (got_diags req_State)) resp in
  if HasError (resp_Diagnostics resp) then mret resp
  else
    let appID := ValueString (ApplicationID state) in
    let env := ValueString (Environment state) in
    (* Reset instance settings to defaults. *)
    err ← UpdateInstanceSettings (client r) appID env resetInstanceSettings;
    let resp :=
      match err with
      | Some err =>
          with_Diagnostics (Append (resp_Diagnostics resp) [warnInstanceSettings appID env err]) resp
      | None => resp
      end in
    (* Reset restrictions to defaults. *)
    res ← UpdateInstanceRestrictions (client r) appID env resetRestrictions;
    let resp :=
      match res with
      | Err err =>
          with_Diagnostics (Append (resp_Diagnostics resp) [warnRestrictions appID env err]) resp
      | Ok _ => resp
      end in
    (* Reset organization settings to defaults. *)
    res ← UpdateOrganizationSettings (client r) appID env resetOrganizationSettings;
    let resp :=
      match res with
      | Err err =>
          with_Diagnostics
            (Append (resp_Diagnostics resp) [warnOrganizationSettings appID env err]) resp
      | Ok _ => resp
      end in
    mret resp.

Definition validEnvironment (e : string) : bool :=
  bool_decide (e = "development") || bool_decide (e = "production").

Definition ImportState (r : EnvironmentResource) (req_ID : string)
  (resp : ImportStateResponse) : ImportStateResponse :=
  let parts := SplitN req_ID "/"%char 2 in
  match parts with
  | [p0; p1] =>
      if bool_decide (p0 = EmptyString) || bool_decide (p1 = EmptyString)
      then import_AddError resp "Invalid Import ID"
             ("Expected format: {application_id}/{environment}, got: " +:+ strconv_Quote req_ID)
      else if negb (validEnvironment p1)
      then import_AddError resp "Invalid Environment"
             ("Environment must be " +:+ dquote +:+ "development" +:+ dquote +:+ " or "
              +:+ dquote +:+ "production" +:+ dquote +:+ ", got: " +:+ strconv_Quote p1)
      else
        let resp := SetAttribute resp "id" req_ID in
        let resp := SetAttribute resp "application_id" p0 in
        SetAttribute resp "environment" p1
  | _ =>
      import_AddError resp "Invalid Import ID"
        ("Expected format: {application_id}/{environment}, got: " +:+ strconv_Quote req_ID)
  end.

End WithRuntime.

End Environment.

(** ** package resources: application.go

    The file is not among the sources; its two operations that the
    specification describes are modelled on top of the client functions
    above, which are from the sources. *)
Module Application.
Import Go Diag Types Client.

(** The attributes the two operations read. *)
Record ApplicationResourceModel : Type := mkApplicationResourceModel {
  ID : attr string;
  Name : attr string;
  DeletionProtection : attr bool;
}.

Record Response : Type := mkResponse {
  resp_Diagnostics : Diagnostics;
  resp_State : option ApplicationResourceModel;
}.

Section WithRuntime.
Context `{Runtime}.

(** How a successful read is written back into the state. *)
Variable reconcile :
  ApplicationResourceModel -> PlatformApplicationResponse -> ApplicationResourceModel.

(** Modelled from the spec: ApplicationResource.Delete of
    resources/application.go, which is not under src/. "Deletion
    protection is enforced client-side before issuing a delete call; if
    enabled, delete fails without contacting the API." *)
Definition Delete (c : ClerkClient) (state : ApplicationResourceModel) (resp : Response)
  : M Response :=
  if ValueBool (DeletionProtection state)
  then
    mret {| resp_Diagnostics :=
              AddError (resp_Diagnostics resp) "Deletion Protection Enabled"
                "Set deletion_protection to false before destroying the application.";
            resp_State := resp_State resp |}
  else
    err ← DeleteApplication c (ValueString (ID state));
    match err with
    | Some err =>
        mret {| resp_Diagnostics :=
                  AddError (resp_Diagnostics resp) "Error deleting Clerk application" (Error err);
                resp_State := resp_State resp |}
    | None => mret resp
    end.

(** Modelled from the spec: ApplicationResource.Read of
    resources/application.go, which is not under src/. "All surface as
    user-visible diagnostics attached to the failing operation; 404 on
    read is treated specially (remove from state rather than error)."
    The opt-in flag for secret keys is left to the caller. *)
Definition Read (c : ClerkClient) (includeSecretKeys : bool)
  (state : ApplicationResourceModel) (resp : Response) : M Response :=
  res ← GetApplication c (ValueString (ID state)) includeSecretKeys;
  match res with
  | Err err =>
      match err with
      | PlatformAPIError StatusCode _ =>
          if bool_decide (StatusCode = 404)
          then mret {| resp_Diagnostics := resp_Diagnostics resp; resp_State := None |}
          else mret {| resp_Diagnostics :=
                         AddError (resp_Diagnostics resp) "Error reading Clerk application"
                                  (Error err);
                       resp_State := resp_State resp |}
      | _ =>
          mret {| resp_Diagnostics :=
                    AddError (resp_Diagnostics resp) "Error reading Clerk application"
                             (Error err);
                  resp_State := resp_State resp |}
      end
  | Ok application =>
      mret {| resp_Diagnostics := resp_Diagnostics resp;
              resp_State := Some (reconcile state application) |}
  end.

End WithRuntime.

End Application.

(** ** package resources: organization.go

    Not among the sources either; Read and ImportState are modelled from
    the specification, on top of GetOrganization and strings.SplitN. *)
Module Organization.
Import Go Diag Types Client.

Record OrganizationResourceModel : Type := mkOrganizationResourceModel {
  ID : attr string;
  ApplicationID : attr string;
  Environment : attr string;
  Name : attr string;
}.

Record Response : Type := mkResponse {
  resp_Diagnostics : Diagnostics;
  resp_State : option OrganizationResourceModel;
}.

Section WithRuntime.
Context `{Runtime}.

Variable reconcile :
  OrganizationResourceModel -> Clerk.Organization -> OrganizationResourceModel.

(** Modelled from the spec: OrganizationResource.Read of
    resources/organization.go, which is not under src/. "404 on read is
    treated specially (remove from state rather than error)"; the SDK
    reports a non-2xx answer as an APIErrorResponse with its status. *)
Definition Read (c : ClerkClient) (state : OrganizationResourceModel) (resp : Response)
  : M Response :=
  res ← GetOrganization c (ValueString (ApplicationID state))
          (ValueString (Environment state)) (ValueString (ID state));
  match res with
  | Err err =>
      match err with
      | APIErrorResponse HTTPStatusCode _ =>
          if bool_decide (HTTPStatusCode = 404)
          then mret {| resp_Diagnostics := resp_Diagnostics resp; resp_State := None |}
          else mret {| resp_Diagnostics :=
                         AddError (resp_Diagnostics resp) "Error reading Clerk organization"
                                  (Error err);
                       resp_State := resp_State resp |}
      | _ =>
          mret {| resp_Diagnostics :=
                    AddError (resp_Diagnostics resp) "Error reading Clerk organization"
                             (Error err);
                  resp_State := resp_State resp |}
      end
  | Ok org =>
      mret {| resp_Diagnostics := resp_Diagnostics resp;
              resp_State := Some (reconcile state org) |}
  end.

(** Modelled from the spec: OrganizationResource.ImportState of
    resources/organization.go, which is not under src/. "Import parses a
    slash-delimited composite identifier and validates an enumerated
    environment value", the identifier being
    {application_id}/{environment}/{organization_id}; written after the
    environment resource's ImportState. *)
Definition ImportState (req_ID : string) (resp : Environment.ImportStateResponse)
  : Environment.ImportStateResponse :=
  let parts := SplitN req_ID "/"%char 3 in
  match parts with
  | [p0; p1; p2] =>
      if bool_decide (p0 = EmptyString) || bool_decide (p1 = EmptyString)
         || bool_decide (p2 = EmptyString)
      then Environment.import_AddError resp "Invalid Import ID"
             ("Expected format: {application_id}/{environment}/{organization_id}, got: "
              +:+ strconv_Quote req_ID)
      else if negb (Environment.validEnvironment p1)
      then Environment.import_AddError resp "Invalid Environment"
             ("Environment must be " +:+ Environment.dquote +:+ "development"
              +:+ Environment.dquote +:+ " or " +:+ Environment.dquote +:+ "production"
              +:+ Environment.dquote +:+ ", got: " +:+ strconv_Quote p1)
      else
        let resp := Environment.SetAttribute resp "application_id" p0 in
        let resp := Environment.SetAttribute resp "environment" p1 in
        Environment.SetAttribute resp "id" p2
  | _ =>
      Environment.import_AddError resp "Invalid Import ID"
        ("Expected format: {application_id}/{environment}/{organization_id}, got: "
         +:+ strconv_Quote req_ID)
  end.

End WithRuntime.

End Organization.

(** ** Notions used to state the properties *)
Module Spec.
Import Go Diag Types Clerk Client.

(** The text contains a slash. *)
Fixpoint hasSlash (s : string) : bool :=
  match s with
  | EmptyString => false
  | String c rest => bool_decide (c = "/"%char) || hasSlash rest
  end.

(** A history of registrations (application id, environment, secret key),
    oldest first, replayed on a client. *)
Definition registerAll (c : ClerkClient) (regs : list (string * string * string))
  : ClerkClient :=
  foldl (fun c reg => RegisterBackendClient c reg.1.1 reg.1.2 reg.2) c regs.

(** The pair was never registered in the history. *)
Definition neverRegistered (regs : list (string * string * string))
  (appID environment : string) : Prop :=
  Forall (fun reg => (reg.1.1, reg.1.2) <> (appID, environment)) regs.

(** Every environment name of the history is free of slashes. *)
Definition plainEnvironments (regs : list (string * string * string)) : Prop :=
  Forall (fun reg => hasSlash reg.1.2 = false) regs.

(** The error GetBackendConfig builds for a missing pair. *)
Definition registryMiss `{Runtime} (appID environment : string) : error :=
  errorString ("no backend client registered for application "
               +:+ strconv_Quote appID +:+ " environment " +:+ strconv_Quote environment).

(** A well-formed import identifier of the environment resource:
    application id, slash, environment, with a non-empty slash-free
    application id and one of the two environment names. *)
Definition validEnvironmentID (id : string) : Prop :=
  exists a e : string,
    id = a +:+ "/" +:+ e /\ a <> EmptyString /\ hasSlash a = false
    /\ (e = "development" \/ e = "production").

(** A well-formed import identifier of the organization resource. *)
Definition validOrganizationID (id : string) : Prop :=
  exists a e o : string,
    id = a +:+ "/" +:+ e +:+ "/" +:+ o /\ a <> EmptyString /\ hasSlash a = false
    /\ (e = "development" \/ e = "production") /\ o <> EmptyString.

(** The status is a 2xx one. *)
Definition success (status : Z) : Prop := 200 <= status < 300.

(** The request platformRequest sends for its arguments. *)
Definition platformRequestOf (c : ClerkClient) (method path : string)
  (body : option string) (query : option (gmap string string)) : Request :=
  {| req_Method := method;
     req_URL := "https://api.clerk.com/v1" +:+ path;
     req_Header :=
       match body with
       | Some _ =>
           <["Content-Type" := "application/json"]>
             (<["Authorization" := "Bearer " +:+ PlatformAPIKey c]> ∅)
       | None => <["Authorization" := "Bearer " +:+ PlatformAPIKey c]> ∅
       end;
     req_Body := body;
     req_Query := query |}.

(** The provider key Configure resolves: the configuration value when it
    is known, the environment variable otherwise. *)
Definition resolvedKey (environ : gmap string string) (configured : attr string) : string :=
  match configured with
  | Value s => s
  | _ => default EmptyString (environ !! "CLERK_PLATFORM_API_KEY")
  end.

End Spec.

(** ** A concrete outside world, to run the model on examples *)
Module Demo.
Import Go Clerk Client.

(** Every Platform API request is answered with the given status and
    body, the SDK calls answer accordingly, and JSON decoding succeeds. *)
Definition runtime (status : Z) (body : string) : Runtime :=
  {| strconv_Quote := fun s => Environment.dquote +:+ s +:+ Environment.dquote;
     http_NewRequestWithContext := fun _ _ => None;
     http_Do := fun _ _ => Ok {| StatusCode := status; resp_Body := Ok body |};
     json_Marshal_Create := fun _ => Ok "{}";
     json_Marshal_Update := fun _ => Ok "{}";
     json_Unmarshal_Application := fun _ =>
       Ok {| ApplicationID := "app_1"; Instances := [] |};
     json_Unmarshal_Applications := fun _ => Ok [];
     json_Unmarshal_Deleted := fun _ =>
       Ok {| Deleted := true; Object := "application"; ID := "app_1" |};
     sdk_instancesettings_Update := fun _ _ _ =>
       if (status <? 200) || (status >=? 300) then Some (APIErrorResponse status body)
       else None;
     sdk_instancesettings_UpdateRestrictions := fun _ _ _ =>
       if (status <? 200) || (status >=? 300) then Err (APIErrorResponse status body)
       else Ok (mkInstanceRestrictions false false false false false);
     sdk_instancesettings_UpdateOrganizationSettings := fun _ _ _ =>
       if (status <? 200) || (status >=? 300) then Err (APIErrorResponse status body)
       else Ok (mkOrganizationSettings true 10 "org:admin" true false (Some []) "org:member");
     sdk_organization_Create := fun _ _ _ => Err (APIErrorResponse status body);
     sdk_organization_Get := fun _ _ _ => Err (APIErrorResponse status body);
     sdk_organization_Update := fun _ _ _ _ => Err (APIErrorResponse status body);
     sdk_organization_Delete := fun _ _ _ => Err (APIErrorResponse status body) |}.

(** A client with one registered instance, and a resource state for it
    configuring organizations with enabled = true and a membership cap
    of 10. *)
Definition client : ClerkClient :=
  RegisterBackendClient (NewClerkClient "platform-key") "app_1" "development" "sk_test_dev".

Definition organizationSettings : Environment.OrganizationSettingsModel :=
  Environment.mkOrganizationSettingsModel
    (Types.Value true) (Types.Value 10) Types.Null Types.Null Types.Null Types.Null Types.Null.

Definition state : Environment.EnvironmentResourceModel :=
  Environment.mkEnvironmentResourceModel
    (Types.Value "app_1/development") (Types.Value "app_1") (Types.Value "development")
    Types.Null Types.Null Types.Null Types.Null Types.Null Types.Null Types.Null
    Types.Null (Types.Value organizationSettings).

End Demo.

(** ** Binding the shared client: the Configure methods of the
       environment resource and of the two data sources *)
Module Binding.
Import Go Diag Types Client.

(** What req.ProviderData holds when it is not nil: a pointer to a
    ClerkClient (a heap location), or a value of another type, of which
    only the type name that %T prints matters. *)
Inductive ProviderData : Type :=
| ClerkClientPtr (l : nat)
| OtherValue (typeName : string).

(** EnvironmentResource.Configure: the resource's client field (None for
    nil) and the diagnostics, before and after. *)
Definition EnvironmentResource_Configure (r_client : option nat)
  (req_ProviderData : option ProviderData) (diags : Diagnostics)
  : option nat * Diagnostics :=
  match req_ProviderData with
  | None => (r_client, diags)
  | Some (ClerkClientPtr clerkClient) => (Some clerkClient, diags)
  | Some (OtherValue typeName) =>
      (r_client,
       AddError diags "Unexpected Resource Configure Type"
         ("Expected *client.ClerkClient, got: " +:+ typeName))
  end.

(** OrganizationDataSource.Configure *)
Definition OrganizationDataSource_Configure (d_client : option nat)
  (req_ProviderData : option ProviderData) (diags : Diagnostics)
  : option nat * Diagnostics :=
  match req_ProviderData with
  | None => (d_client, diags)
  | Some (ClerkClientPtr clerkClient) => (Some clerkClient, diags)
  | Some (OtherValue typeName) =>
      (d_client,
       AddError diags "Unexpected Data Source Configure Type"
         ("Expected *client.ClerkClient, got: " +:+ typeName))
  end.

(** ApplicationDataSource.Configure *)
Definition ApplicationDataSource_Configure (d_client : option nat)
  (req_ProviderData : option ProviderData) (diags : Diagnostics)
  : option nat * Diagnostics :=
  match req_ProviderData with
  | None => (d_client, diags)
  | Some (ClerkClientPtr clerkClient) => (Some clerkClient, diags)
  | Some (OtherValue typeName) =>
      (d_client,
       AddError diags "Unexpected Data Source Configure Type"
         ("Expected *client.ClerkClient, got: " +:+ typeName))
  end.

End Binding.

(** ** package datasources: organization.go *)
Module OrganizationDataSource.
Import Go Diag Types Client.

Record OrganizationDataSourceModel : Type := mkOrganizationDataSourceModel {
  ApplicationID : attr string;
  Environment : attr string;
  ID : attr string;
  Slug : attr string;
  Name : attr string;
  MaxAllowedMemberships : attr Z;
  AdminDeleteEnabled : attr bool;
  CreatedAt : attr Z;
}.

(** What req.Config.Get stores in the model struct, and its diagnostics. *)
Record Decoded : Type := mkDecoded {
  got : OrganizationDataSourceModel;
  got_diags : Diagnostics;
}.

Record Response : Type := mkResponse {
  resp_Diagnostics : Diagnostics;
  resp_State : option OrganizationDataSourceModel;
}.

Section WithRuntime.
Context `{Runtime}.

Definition Read (d_client : ClerkClient) (req_Config : Decoded) (resp : Response)
  : M Response :=
  let data := got req_Config in
  let resp := {| resp_Diagnostics := Append (resp_Diagnostics resp) (got_diags req_Config);
                 resp_State := resp_State resp |} in
  if HasError (resp_Diagnostics resp) then mret resp
  else
    let appID := ValueString (ApplicationID data) in
    let env := ValueString (Environment data) in
    (* The Clerk SDK Get method accepts either an ID or slug. *)
    let lookupKey := ValueString (ID data) in
    let lookupKey :=
      if bool_decide (lookupKey = EmptyString) then ValueString (Slug data) else lookupKey in
    res ← GetOrganization d_client appID env lookupKey;
    match res with
    | Err err =>
        mret {| resp_Diagnostics :=
                  AddError (resp_Diagnostics resp) "Error reading Clerk organization" (Error err);
                resp_State := resp_State resp |}
    | Ok org =>
        let data :=
          {| ApplicationID := ApplicationID data;
             Environment := Environment data;
             ID := Value (Clerk.o_ID org);
             Slug := Value (Clerk.o_Slug org);
             Name := Value (Clerk.o_Name org);
             MaxAllowedMemberships := Value (Clerk.o_MaxAllowedMemberships org);
             AdminDeleteEnabled := Value (Clerk.o_AdminDeleteEnabled org);
             CreatedAt := Value (Clerk.o_CreatedAt org) |} in
        mret {| resp_Diagnostics := resp_Diagnostics resp; resp_State := Some data |}
    end.

End WithRuntime.

End OrganizationDataSource.

(** ** package datasources: application.go *)
Module ApplicationDataSource.
Import Go Diag Types Client.

Record ApplicationDataSourceModel : Type := mkApplicationDataSourceModel {
  ID : attr string;
  DevInstanceID : attr string;
  DevSecretKey : attr string;
  DevPublishableKey : attr string;
  ProdInstanceID : attr string;
  ProdSecretKey : attr string;
  ProdPublishableKey : attr string;
}.

Record Decoded : Type := mkDecoded {
  got : ApplicationDataSourceModel;
  got_diags : Diagnostics;
}.

Record Response : Type := mkResponse {
  resp_Diagnostics : Diagnostics;
  resp_State : option ApplicationDataSourceModel;
}.

(** The body of the loop over application.Instances: the switch on the
    environment type. *)
Definition setInstance (data : ApplicationDataSourceModel)
  (inst : PlatformApplicationInstance) : ApplicationDataSourceModel :=
  if bool_decide (EnvironmentType inst = "development") then
    {| ID := ID data;
       DevInstanceID := Value (InstanceID inst);
       DevSecretKey :=
         if negb (bool_decide (SecretKey inst = EmptyString))
         then Value (SecretKey inst) else DevSecretKey data;
       DevPublishableKey := Value (PublishableKey inst);
       ProdInstanceID := ProdInstanceID data;
       ProdSecretKey := ProdSecretKey data;
       ProdPublishableKey := ProdPublishableKey data |}
  else if bool_decide (EnvironmentType inst = "production") then
    {| ID := ID data;
       DevInstanceID := DevInstanceID data;
       DevSecretKey := DevSecretKey data;
       DevPublishableKey := DevPublishableKey data;
       ProdInstanceID := Value (InstanceID inst);
       ProdSecretKey :=
         if negb (bool_decide (SecretKey inst = EmptyString))
         then Value (SecretKey inst) else ProdSecretKey data;
       ProdPublishableKey := Value (PublishableKey inst) |}
  else data.

Section WithRuntime.
Context `{Runtime}.

Definition Read (d_client : ClerkClient) (req_Config : Decoded) (resp : Response)
  : M Response :=
  let data := got req_Config in
  let resp := {| resp_Diagnostics := Append (resp_Diagnostics resp) (got_diags req_Config);
                 resp_State := resp_State resp |} in
  if HasError (resp_Diagnostics resp) then mret resp
  else
    res ← GetApplication d_client (ValueString (ID data)) true;
    match res with
    | Err err =>
        mret {| resp_Diagnostics :=
                  AddError (resp_Diagnostics resp) "Error reading Clerk application" (Error err);
                resp_State := resp_State resp |}
    | Ok application =>
        let data := foldl setInstance data (Instances application) in
        mret {| resp_Diagnostics := resp_Diagnostics resp; resp_State := Some data |}
    end.

End WithRuntime.

End ApplicationDataSource.

(** ** Further notions used to state properties *)
Module History.
Import Go Clerk Client.

(** The secret key of the last registration of the history stored under
    the given registry key, if there is one. *)
Definition lastSecret (regs : list (string * string * string)) (key : string)
  : option string :=
  foldl (fun found reg =>
           if bool_decide (backendClientKey reg.1.1 reg.1.2 = key) then Some reg.2 else found)
        None regs.

(** An instance-settings attribute is set in the plan. *)
Definition configuresInstance (plan : Environment.EnvironmentResourceModel) : bool :=
  Environment.isSet (Environment.TestMode plan)
  || Environment.isSet (Environment.HIBP plan)
  || Environment.isSet (Environment.EnhancedEmailDeliverability plan)
  || Environment.isSet (Environment.SupportEmail plan)
  || Environment.isSet (Environment.ClerkJSVersion plan)
  || Environment.isSet (Environment.URLBasedSessionSyncing plan)
  || Environment.isSet (Environment.DevelopmentOrigin plan).

(** The plan configures nothing at all: no instance setting and neither
    nested block. *)
Definition configuresNothing (plan : Environment.EnvironmentResourceModel) : Prop :=
  configuresInstance plan = false
  /\ (forall m, Environment.Restrictions plan <> Types.Value m)
  /\ (forall m, Environment.OrganizationSettings plan <> Types.Value m).

(** A pointer option as an attribute option: the known value, or nothing. *)
Definition known {A} (x : Types.attr A) : option A :=
  match x with
  | Types.Value a => Some a
  | _ => None
  end.

(** A runtime whose Platform API answers every request with a transport
    error, and whose SDK calls fail alike. *)
Definition offline : Runtime :=
  {| strconv_Quote := fun s => Environment.dquote +:+ s +:+ Environment.dquote;
     http_NewRequestWithContext := fun _ _ => None;
     http_Do := fun _ _ => Err (externalError "connection refused");
     json_Marshal_Create := fun _ => Ok "{}";
     json_Marshal_Update := fun _ => Ok "{}";
     json_Unmarshal_Application := fun _ => Err (externalError "unexpected end of JSON input");
     json_Unmarshal_Applications := fun _ => Err (externalError "unexpected end of JSON input");
     json_Unmarshal_Deleted := fun _ => Err (externalError "unexpected end of JSON input");
     sdk_instancesettings_Update := fun _ _ _ => Some (externalError "connection refused");
     sdk_instancesettings_UpdateRestrictions := fun _ _ _ =>
       Err (externalError "connection refused");
     sdk_instancesettings_UpdateOrganizationSettings := fun _ _ _ =>
       Err (externalError "connection refused");
     sdk_organization_Create := fun _ _ _ => Err (externalError "connection refused");
     sdk_organization_Get := fun _ _ _ => Err (externalError "connection refused");
     sdk_organization_Update := fun _ _ _ _ => Err (externalError "connection refused");
     sdk_organization_Delete := fun _ _ _ => Err (externalError "connection refused") |}.

(** What one step of applySettings may add to the log: nothing, or one
    Backend API call made with the registered configuration of the
    instance. *)
Definition oneCall `{Runtime} (r : Environment.EnvironmentResource) (appID env : string)
  (evs : list Event) : Prop :=
  evs = []
  \/ exists config call,
       evs = [BackendHTTP config call]
       /\ GetBackendConfig (Environment.client r) appID env = Ok config.

(** The two models agree on every attribute outside the two nested
    blocks. *)
Definition sameScalars (a b : Environment.EnvironmentResourceModel) : Prop :=
  Environment.ID a = Environment.ID b
  /\ Environment.ApplicationID a = Environment.ApplicationID b
  /\ Environment.Environment a = Environment.Environment b
  /\ Environment.TestMode a = Environment.TestMode b
  /\ Environment.HIBP a = Environment.HIBP b
  /\ Environment.EnhancedEmailDeliverability a = Environment.EnhancedEmailDeliverability b
  /\ Environment.SupportEmail a = Environment.SupportEmail b
  /\ Environment.ClerkJSVersion a = Environment.ClerkJSVersion b
  /\ Environment.URLBasedSessionSyncing a = Environment.URLBasedSessionSyncing b
  /\ Environment.DevelopmentOrigin a = Environment.DevelopmentOrigin b.

(** Every attribute of the restrictions block is a known value. *)
Definition restrictionsKnown (m : Environment.RestrictionsModel) : bool :=
  Environment.isSet (Environment.Allowlist m)
  && Environment.isSet (Environment.Blocklist m)
  && Environment.isSet (Environment.BlockEmailSubaddresses m)
  && Environment.isSet (Environment.BlockDisposableEmailDomains m)
  && Environment.isSet (Environment.IgnoreDotsForGmailAddresses m).

(** A plan for the instance app_1/development that sets test_mode and
    the allowlist restriction and leaves everything else unknown. *)
Definition testModePlan : Environment.EnvironmentResourceModel :=
  Environment.mkEnvironmentResourceModel
    Types.Unknown (Types.Value "app_1") (Types.Value "development")
    (Types.Value true) Types.Unknown Types.Unknown Types.Unknown Types.Unknown
    Types.Unknown Types.Unknown
    (Types.Value
       (Environment.mkRestrictionsModel (Types.Value true) Types.Unknown Types.Unknown
          Types.Unknown Types.Unknown))
    Types.Unknown.

(** A plan for the same instance that configures nothing. *)
Definition emptyPlan : Environment.EnvironmentResourceModel :=
  Environment.mkEnvironmentResourceModel
    Types.Unknown (Types.Value "app_1") (Types.Value "development")
    Types.Unknown Types.Unknown Types.Unknown Types.Unknown Types.Unknown
    Types.Unknown Types.Unknown Types.Unknown Types.Unknown.

End History.

(** * Properties *)

Import Go Diag Types Clerk Client Spec.

(** ** Diagnostics *)

Lemma HasError_app (ds1 ds2 : Diagnostics) :
  HasError (ds1 ++ ds2) = HasError ds1 || HasError ds2.
Proof. unfold HasError. apply existsb_app. Qed.

Lemma HasError_Append1 (diags : Diagnostics) (d : Diagnostic) :
  HasError (Append1 diags d) = HasError diags || bool_decide (severity d = SeverityError).
Proof.
  unfold Append1. case_bool_decide as Hin.
  - destruct (bool_decide (severity d = SeverityError)) eqn:Hd.
    + rewrite orb_true_r. unfold HasError. apply existsb_exists.
      exists d. split; [by apply list_elem_of_In | done].
    + by rewrite orb_false_r.
  - rewrite HasError_app. simpl. by rewrite orb_false_r.
Qed.

Lemma HasError_Append (news diags : Diagnostics) :
  HasError (Append diags news) = HasError diags || HasError news.
Proof.
  revert diags. induction news as [|d news IH]; intros diags; simpl.
  - by rewrite orb_false_r.
  - unfold Append in *. simpl. rewrite IH, HasError_Append1. by rewrite orb_assoc.
Qed.

Lemma HasError_AddError (diags : Diagnostics) (summary detail : string) :
  HasError (AddError diags summary detail) = true.
Proof. unfold AddError. rewrite HasError_Append. simpl. by rewrite orb_true_r. Qed.

Lemma elem_of_Append1 (diags : Diagnostics) (d : Diagnostic) : d ∈ Append1 diags d.
Proof. unfold Append1. case_bool_decide; [done | set_solver]. Qed.

Lemma elem_of_AddError (diags : Diagnostics) (summary detail : string) :
  mkDiagnostic SeverityError summary detail ∈ AddError diags summary detail.
Proof. apply elem_of_Append1. Qed.

Lemma Append_nil (diags : Diagnostics) : Append diags [] = diags.
Proof. reflexivity. Qed.

Lemma Append_Append (diags ds1 ds2 : Diagnostics) :
  Append (Append diags ds1) ds2 = Append diags (ds1 ++ ds2).
Proof. unfold Append. by rewrite foldl_app. Qed.

Lemma elem_of_Append (news diags : Diagnostics) (d : Diagnostic) :
  d ∈ Append diags news <-> d ∈ diags \/ d ∈ news.
Proof.
  revert diags. induction news as [|d' news IH]; intros diags.
  - rewrite Append_nil, elem_of_nil. tauto.
  - change (Append diags (d' :: news)) with (Append (Append1 diags d') news).
    rewrite IH, elem_of_cons. unfold Append1. case_bool_decide as Hin.
    + split; [tauto|]. intros [Hd|[->|Hd]]; tauto.
    + rewrite elem_of_app, list_elem_of_singleton. tauto.
Qed.

(** Appending diagnostics that are new and pairwise different adds them
    all, in order. *)
Lemma Append_fresh (news diags : Diagnostics) :
  NoDup news -> (forall d, d ∈ news -> d ∉ diags) -> Append diags news = diags ++ news.
Proof.
  revert diags. induction news as [|d news IH]; intros diags Hnodup Hfresh.
  - by rewrite Append_nil, app_nil_r.
  - apply NoDup_cons in Hnodup as [Hd Hnodup].
    change (Append diags (d :: news)) with (Append (Append1 diags d) news).
    unfold Append1. rewrite bool_decide_eq_false_2 by (apply Hfresh; left).
    rewrite IH; [by rewrite <- app_assoc|exact Hnodup|].
    intros d' Hd' [Hin| ->%list_elem_of_singleton]%elem_of_app.
    + by apply (Hfresh d'); [right|].
    + done.
Qed.

(** ** The client registry *)

Section Registry.
Context `{Runtime}.

Lemma GetBackendConfig_hit (c : ClerkClient) (appID environment : string)
  (config : ClientConfig) :
  backendClients c !! backendClientKey appID environment = Some config ->
  GetBackendConfig c appID environment = Ok config.
Proof. intros Hc. unfold GetBackendConfig. by rewrite Hc. Qed.

Lemma GetBackendConfig_miss (c : ClerkClient) (appID environment : string) :
  backendClients c !! backendClientKey appID environment = None ->
  GetBackendConfig c appID environment = Err (registryMiss appID environment).
Proof. intros Hc. unfold GetBackendConfig. by rewrite Hc. Qed.

Lemma GetBackendConfig_after_register (c : ClerkClient) (appID environment secretKey : string) :
  GetBackendConfig (RegisterBackendClient c appID environment secretKey) appID environment
  = Ok {| Key := Some secretKey; URL := None |}.
Proof. apply GetBackendConfig_hit. simpl. apply lookup_insert_eq. Qed.

End Registry.

Lemma append_EmptyString (s : string) : EmptyString +:+ s = s.
Proof. reflexivity. Qed.

Lemma append_String (c : ascii) (a s : string) : String c a +:+ s = String c (a +:+ s).
Proof. reflexivity. Qed.

Lemma hasSlash_append_slash (a e : string) :
  hasSlash (a +:+ String "/"%char e) = true.
Proof.
  induction a as [|c a IH].
  - reflexivity.
  - rewrite append_String. simpl. rewrite IH. apply orb_true_r.
Qed.

(** Two pairs with slash-free environment names share a key only when
    they are the same pair. *)
Lemma backendClientKey_inj (a e a' e' : string) :
  hasSlash e = false -> hasSlash e' = false ->
  backendClientKey a e = backendClientKey a' e' -> a = a' /\ e = e'.
Proof.
  unfold backendClientKey. intros He He'. revert a'.
  induction a as [|c a IH]; intros [|c' a'] Heq;
    rewrite ?append_String, ?append_EmptyString in Heq.
  - by injection Heq as ->.
  - injection Heq as _ Heq. rewrite Heq, hasSlash_append_slash in He. discriminate.
  - injection Heq as _ Heq. rewrite <- Heq, hasSlash_append_slash in He'. discriminate.
  - injection Heq as -> Heq. destruct (IH a') as [-> ->]; [|done].
    by rewrite ?append_String, ?append_EmptyString.
Qed.

Lemma registerAll_lookup_None (regs : list (string * string * string))
  (c : ClerkClient) (key : string) :
  backendClients c !! key = None ->
  Forall (fun reg => backendClientKey reg.1.1 reg.1.2 <> key) regs ->
  backendClients (registerAll c regs) !! key = None.
Proof.
  revert c. induction regs as [|reg regs IH]; intros c Hc Hregs; simpl.
  - exact Hc.
  - inversion Hregs as [|? ? Hreg Hrest]; subst.
    apply IH; [|exact Hrest]. simpl. by rewrite lookup_insert_ne.
Qed.

(** C1: on any registry reached by registrations, whether or not the
    pair is already in it, registering (appID, environment, secretKey) and
    looking the pair up gives, without error, the stored configuration
    whose Key is secretKey, so that registering the pair again replaces
    the key. Looking up a pair that was never registered gives no
    configuration and the error whose text names the quoted application
    id and environment; this half is over the environment names the
    callers pass, which contain no slash (the schema admits development
    and production only, and import checks the same). *)
Theorem register_then_lookup `{Runtime} (platformAPIKey : string)
  (regs : list (string * string * string)) (appID environment secretKey : string) :
  let c := registerAll (NewClerkClient platformAPIKey) regs in
  GetBackendConfig (RegisterBackendClient c appID environment secretKey) appID environment
    = Ok {| Key := Some secretKey; URL := None |}
  /\ (forall secretKey' : string,
        GetBackendConfig
          (RegisterBackendClient (RegisterBackendClient c appID environment secretKey)
             appID environment secretKey') appID environment
        = Ok {| Key := Some secretKey'; URL := None |})
  /\ (neverRegistered regs appID environment ->
      plainEnvironments regs ->
      hasSlash environment = false ->
      GetBackendConfig c appID environment = Err (registryMiss appID environment)
      /\ Error (registryMiss appID environment)
         = "no backend client registered for application " +:+ strconv_Quote appID
           +:+ " environment " +:+ strconv_Quote environment).
Proof.
  intros c. split; [apply GetBackendConfig_after_register|].
  split; [intros secretKey'; apply GetBackendConfig_after_register|].
  intros Hnever Hplain Henv. split; [|reflexivity].
  apply GetBackendConfig_miss. apply registerAll_lookup_None; [apply lookup_empty|].
  unfold neverRegistered, plainEnvironments in *.
  rewrite Forall_forall in *. intros reg Hreg Hkey.
  apply backendClientKey_inj in Hkey as [Ha He]; [|by apply Hplain|exact Henv].
  apply (Hnever reg Hreg). by rewrite Ha, He.
Qed.

Lemma register_then_lookup_witness :
  let R := Demo.runtime 200 "{}" in
  let regs := [("app_1", "development", "sk_old"); ("app_2", "production", "sk_live")] in
  let c := registerAll (NewClerkClient "platform-key") regs in
  GetBackendConfig (RegisterBackendClient c "app_1" "development" "sk_test_dev")
                   "app_1" "development"
    = Ok {| Key := Some "sk_test_dev"; URL := None |}
  /\ GetBackendConfig c "app_1" "production" = Err (registryMiss "app_1" "production")
  /\ Error (registryMiss "app_1" "production")
     = "no backend client registered for application " +:+ strconv_Quote "app_1"
       +:+ " environment " +:+ strconv_Quote "production".
Proof.
  intros R regs c. split.
  - exact (proj1 (@register_then_lookup R "platform-key" regs
                    "app_1" "development" "sk_test_dev")).
  - apply (proj2 (proj2 (@register_then_lookup R "platform-key" regs
                           "app_1" "production" "sk_live_2"))).
    + repeat constructor; simpl; intros Heq; discriminate Heq.
    + repeat constructor.
    + reflexivity.
Defined.

(** Why the second half speaks of slash-free environment names: the
    registry key is appID/environment, so with a slash inside an
    environment name two pairs can share a key. After registering
    ("a/b", "c") the lookup of ("a", "b/c") succeeds, both having the key
    "a/b/c". No caller passes such a name. *)
Lemma lookup_unregistered_collision :
  let R := Demo.runtime 200 "{}" in
  let regs := [("a/b", "c", "sk_other")] in
  neverRegistered regs "a" "b/c"
  /\ GetBackendConfig (registerAll (NewClerkClient "platform-key") regs) "a" "b/c"
     = Ok {| Key := Some "sk_other"; URL := None |}.
Proof.
  split.
  - repeat constructor. simpl. intros Heq. discriminate Heq.
  - vm_compute. reflexivity.
Qed.

(** ** Per-instance operations without a registry entry *)

Lemma Unwrap_resolveError (appID environment : string) (err : error) :
  Unwrap (resolveError appID environment err) = Some err.
Proof. reflexivity. Qed.

Lemma GetInstanceSettingsClient_miss `{Runtime} (c : ClerkClient) (appID environment : string) :
  backendClients c !! backendClientKey appID environment = None ->
  GetInstanceSettingsClient c appID environment
  = Err (resolveError appID environment (registryMiss appID environment)).
Proof.
  intros Hc. unfold GetInstanceSettingsClient. by rewrite (GetBackendConfig_miss _ _ _ Hc).
Qed.

(** C2: with no registry entry for (appID, environment), each per-instance
    operation returns, at once and whatever the Backend API would answer,
    the error that wraps the registry miss, and sends nothing: the log of
    requests is the one it started with. *)
Theorem unregistered_instance_is_hard_error `{Runtime} (c : ClerkClient)
  (appID environment : string) (log : list Event)
  (Hmiss : backendClients c !! backendClientKey appID environment = None) :
  let miss := registryMiss appID environment in
  let err := resolveError appID environment miss in
  Unwrap err = Some miss
  /\ GetBackendConfig c appID environment = Err miss
  /\ (forall params, UpdateInstanceSettings c appID environment params log = (Some err, log))
  /\ (forall params, UpdateInstanceRestrictions c appID environment params log = (Err err, log))
  /\ (forall params, UpdateOrganizationSettings c appID environment params log = (Err err, log))
  /\ (forall params, CreateOrganization c appID environment params log = (Err err, log))
  /\ (forall idOrSlug, GetOrganization c appID environment idOrSlug log = (Err err, log))
  /\ (forall id params, UpdateOrganization c appID environment id params log = (Err err, log))
  /\ (forall id, DeleteOrganization c appID environment id log = (Err err, log)).
Proof.
  intros miss err.
  pose proof (GetBackendConfig_miss c appID environment Hmiss) as Hget.
  pose proof (GetInstanceSettingsClient_miss c appID environment Hmiss) as Hclient.
  split; [reflexivity|]. split; [exact Hget|].
  unfold UpdateInstanceSettings, UpdateInstanceRestrictions, UpdateOrganizationSettings,
    CreateOrganization, GetOrganization, UpdateOrganization, DeleteOrganization.
  rewrite Hget, Hclient. repeat split.
Qed.

Lemma unregistered_instance_is_hard_error_witness :
  let R := Demo.runtime 200 "{}" in
  let c := NewClerkClient "platform-key" in
  let miss := registryMiss "app_unknown" "development" in
  let err := resolveError "app_unknown" "development" miss in
  Unwrap err = Some miss
  /\ GetBackendConfig c "app_unknown" "development" = Err miss
  /\ (forall params,
        UpdateInstanceSettings c "app_unknown" "development" params [] = (Some err, []))
  /\ (forall params,
        UpdateInstanceRestrictions c "app_unknown" "development" params [] = (Err err, []))
  /\ (forall params,
        UpdateOrganizationSettings c "app_unknown" "development" params [] = (Err err, []))
  /\ (forall params,
        CreateOrganization c "app_unknown" "development" params [] = (Err err, []))
  /\ (forall idOrSlug,
        GetOrganization c "app_unknown" "development" idOrSlug [] = (Err err, []))
  /\ (forall id params,
        UpdateOrganization c "app_unknown" "development" id params [] = (Err err, []))
  /\ (forall id, DeleteOrganization c "app_unknown" "development" id [] = (Err err, [])).
Proof.
  apply (@unregistered_instance_is_hard_error (Demo.runtime 200 "{}")
           (NewClerkClient "platform-key") "app_unknown" "development" []).
  reflexivity.
Defined.

(** ** The Platform API facade *)

Section Platform.
Context `{Runtime}.

Lemma platformRequest_unbuilt (c : ClerkClient) (method path : string)
  (body : option string) (query : option (gmap string string)) (log : list Event)
  (err : error) :
  http_NewRequestWithContext method (platformAPIBaseURL +:+ path) = Some err ->
  platformRequest c method path body query log
  = (Err (Errorf_w "creating request: " err), log).
Proof. intros Hnew. unfold platformRequest. by rewrite Hnew. Qed.

(** platformRequest once the request could be built: the request is
    logged, and the result follows the answer. *)
Lemma platformRequest_built (c : ClerkClient) (method path : string)
  (body : option string) (query : option (gmap string string)) (log : list Event) :
  http_NewRequestWithContext method (platformAPIBaseURL +:+ path) = None ->
  platformRequest c method path body query log
  = (match http_Do log (platformRequestOf c method path body query) with
     | Err err => Err (Errorf_w "executing request: " err)
     | Ok resp =>
         match resp_Body resp with
         | Err err => Err (Errorf_w "reading response body: " err)
         | Ok respBody =>
             if (StatusCode resp <? 200) || (StatusCode resp >=? 300)
             then Err (PlatformAPIError (StatusCode resp) respBody)
             else Ok respBody
         end
     end,
     log ++ [PlatformHTTP (platformRequestOf c method path body query)]).
Proof.
  intros Hnew. unfold platformRequest. rewrite Hnew.
  change (platformAPIBaseURL +:+ path) with ("https://api.clerk.com/v1" +:+ path).
  destruct body as [b|]; cbv zeta.
  - change (mkRequest method ("https://api.clerk.com/v1" +:+ path) _ (Some b) query)
      with (platformRequestOf c method path (Some b) query).
    destruct (http_Do log _) as [resp|err]; [|reflexivity].
    destruct (resp_Body resp); [|reflexivity].
    destruct ((StatusCode resp <? 200) || (StatusCode resp >=? 300)); reflexivity.
  - change (mkRequest method ("https://api.clerk.com/v1" +:+ path) _ None query)
      with (platformRequestOf c method path None query).
    destruct (http_Do log _) as [resp|err]; [|reflexivity].
    destruct (resp_Body resp); [|reflexivity].
    destruct ((StatusCode resp <? 200) || (StatusCode resp >=? 300)); reflexivity.
Qed.

Lemma platformRequest_trace (c : ClerkClient) (method path : string)
  (body : option string) (query : option (gmap string string)) (log : list Event) :
  http_NewRequestWithContext method (platformAPIBaseURL +:+ path) = None ->
  trace (platformRequest c method path body query) log
  = log ++ [PlatformHTTP (platformRequestOf c method path body query)].
Proof. intros Hnew. unfold trace. by rewrite (platformRequest_built _ _ _ _ _ _ Hnew). Qed.

Lemma platformRequest_answer (c : ClerkClient) (method path : string)
  (body : option string) (query : option (gmap string string)) (log : list Event)
  (status : Z) (respBody : string) :
  http_NewRequestWithContext method (platformAPIBaseURL +:+ path) = None ->
  http_Do log (platformRequestOf c method path body query)
  = Ok {| StatusCode := status; resp_Body := Ok respBody |} ->
  value (platformRequest c method path body query) log
  = if (status <? 200) || (status >=? 300)
    then Err (PlatformAPIError status respBody) else Ok respBody.
Proof.
  intros Hnew Hdo. unfold value.
  by rewrite (platformRequest_built _ _ _ _ _ _ Hnew), Hdo.
Qed.

(** Each operation hands an error of platformRequest back unchanged. *)
Lemma GetApplication_passes_error (c : ClerkClient) (applicationID : string)
  (includeSecretKeys : bool) (log log' : list Event) (err : error) :
  platformRequest c "GET" ("/platform/applications/" +:+ applicationID) None
    (if includeSecretKeys then Some {["include_secret_keys" := "true"]} else None) log
  = (Err err, log') ->
  GetApplication c applicationID includeSecretKeys log = (Err err, log').
Proof. intros Hreq. unfold GetApplication, mbind, M_bind. by rewrite Hreq. Qed.

Lemma ListApplications_passes_error (c : ClerkClient) (includeSecretKeys : bool)
  (log log' : list Event) (err : error) :
  platformRequest c "GET" "/platform/applications" None
    (if includeSecretKeys then Some {["include_secret_keys" := "true"]} else None) log
  = (Err err, log') ->
  ListApplications c includeSecretKeys log = (Err err, log').
Proof. intros Hreq. unfold ListApplications, mbind, M_bind. by rewrite Hreq. Qed.

Lemma DeleteApplication_passes_error (c : ClerkClient) (applicationID : string)
  (log log' : list Event) (err : error) :
  platformRequest c "DELETE" ("/platform/applications/" +:+ applicationID) None None log
  = (Err err, log') ->
  DeleteApplication c applicationID log = (Some err, log').
Proof. intros Hreq. unfold DeleteApplication, mbind, M_bind. by rewrite Hreq. Qed.

Lemma CreateApplication_passes_error (c : ClerkClient)
  (req : PlatformCreateApplicationRequest) (body : string)
  (log log' : list Event) (err : error) :
  json_Marshal_Create req = Ok body ->
  platformRequest c "POST" "/platform/applications" (Some body) None log = (Err err, log') ->
  CreateApplication c req log = (Err err, log').
Proof.
  intros Hbody Hreq. unfold CreateApplication, mbind, M_bind. by rewrite Hbody, Hreq.
Qed.

Lemma UpdateApplication_passes_error (c : ClerkClient) (applicationID : string)
  (req : PlatformUpdateApplicationRequest) (body : string)
  (log log' : list Event) (err : error) :
  json_Marshal_Update req = Ok body ->
  platformRequest c "PATCH" ("/platform/applications/" +:+ applicationID) (Some body) None log
  = (Err err, log') ->
  UpdateApplication c applicationID req log = (Err err, log').
Proof.
  intros Hbody Hreq. unfold UpdateApplication, mbind, M_bind. by rewrite Hbody, Hreq.
Qed.

Lemma GetApplication_trace (c : ClerkClient) (applicationID : string)
  (includeSecretKeys : bool) (log : list Event) :
  trace (GetApplication c applicationID includeSecretKeys) log
  = trace (platformRequest c "GET" ("/platform/applications/" +:+ applicationID) None
             (if includeSecretKeys then Some {["include_secret_keys" := "true"]} else None))
          log.
Proof.
  unfold trace, GetApplication, mbind, M_bind.
  destruct (platformRequest _ _ _ _ _ log) as [[resp|err] log']; simpl; [|reflexivity].
  destruct (json_Unmarshal_Application resp); reflexivity.
Qed.

Lemma ListApplications_trace (c : ClerkClient) (includeSecretKeys : bool)
  (log : list Event) :
  trace (ListApplications c includeSecretKeys) log
  = trace (platformRequest c "GET" "/platform/applications" None
             (if includeSecretKeys then Some {["include_secret_keys" := "true"]} else None))
          log.
Proof.
  unfold trace, ListApplications, mbind, M_bind.
  destruct (platformRequest _ _ _ _ _ log) as [[resp|err] log']; simpl; [|reflexivity].
  destruct (json_Unmarshal_Applications resp); reflexivity.
Qed.

Lemma DeleteApplication_trace (c : ClerkClient) (applicationID : string)
  (log : list Event) :
  trace (DeleteApplication c applicationID) log
  = trace (platformRequest c "DELETE" ("/platform/applications/" +:+ applicationID)
             None None) log.
Proof.
  unfold trace, DeleteApplication, mbind, M_bind.
  destruct (platformRequest _ _ _ _ _ log) as [[resp|err] log']; simpl; [|reflexivity].
  destruct (json_Unmarshal_Deleted resp) as [result|]; [|reflexivity].
  destruct (negb (Deleted result)); reflexivity.
Qed.

End Platform.

(** C3: once the Platform API has answered a request with a status and a
    readable body, platformRequest returns the body and no error for a
    status in [200, 300), and for any other status no data and the
    PlatformAPIError holding exactly that status and that body; one
    request was sent. The five operations (create, read, update, delete,
    list) all go through platformRequest and return its error as it is. *)
Theorem platform_status_to_error `{Runtime} (c : ClerkClient) (method path : string)
  (body : option string) (query : option (gmap string string)) (log : list Event)
  (status : Z) (respBody : string)
  (Hnew : http_NewRequestWithContext method (platformAPIBaseURL +:+ path) = None)
  (Hdo : http_Do log (platformRequestOf c method path body query)
         = Ok {| StatusCode := status; resp_Body := Ok respBody |}) :
  (~ success status ->
     platformRequest c method path body query log
     = (Err (PlatformAPIError status respBody),
        log ++ [PlatformHTTP (platformRequestOf c method path body query)]))
  /\ (success status ->
        platformRequest c method path body query log
        = (Ok respBody, log ++ [PlatformHTTP (platformRequestOf c method path body query)]))
  /\ (forall req reqBody log0 log' err,
        json_Marshal_Create req = Ok reqBody ->
        platformRequest c "POST" "/platform/applications" (Some reqBody) None log0
        = (Err err, log') ->
        CreateApplication c req log0 = (Err err, log'))
  /\ (forall applicationID (includeSecretKeys : bool) log0 log' err,
        platformRequest c "GET" ("/platform/applications/" +:+ applicationID) None
          (if includeSecretKeys then Some {["include_secret_keys" := "true"]} else None) log0
        = (Err err, log') ->
        GetApplication c applicationID includeSecretKeys log0 = (Err err, log'))
  /\ (forall applicationID req reqBody log0 log' err,
        json_Marshal_Update req = Ok reqBody ->
        platformRequest c "PATCH" ("/platform/applications/" +:+ applicationID)
          (Some reqBody) None log0
        = (Err err, log') ->
        UpdateApplication c applicationID req log0 = (Err err, log'))
  /\ (forall applicationID log0 log' err,
        platformRequest c "DELETE" ("/platform/applications/" +:+ applicationID)
          None None log0
        = (Err err, log') ->
        DeleteApplication c applicationID log0 = (Some err, log'))
  /\ (forall (includeSecretKeys : bool) log0 log' err,
        platformRequest c "GET" "/platform/applications" None
          (if includeSecretKeys then Some {["include_secret_keys" := "true"]} else None) log0
        = (Err err, log') ->
        ListApplications c includeSecretKeys log0 = (Err err, log')).
Proof.
  rewrite (platformRequest_built _ _ _ _ _ _ Hnew), Hdo. cbn [StatusCode resp_Body].
  unfold success. repeat split.
  - intros Hout. destruct ((status <? 200) || (status >=? 300)) eqn:Hs; [reflexivity|].
    exfalso. apply Hout. apply orb_false_iff in Hs as [H1 H2]. lia.
  - intros [Hlo Hhi]. destruct ((status <? 200) || (status >=? 300)) eqn:Hs; [|reflexivity].
    exfalso. apply orb_true_iff in Hs as [Hs|Hs]; lia.
  - intros. by eapply CreateApplication_passes_error.
  - intros. by apply GetApplication_passes_error.
  - intros. by eapply UpdateApplication_passes_error.
  - intros. by apply DeleteApplication_passes_error.
  - intros. by apply ListApplications_passes_error.
Qed.

Lemma platform_status_to_error_witness :
  let R := Demo.runtime 404 "not found" in
  let c := NewClerkClient "test-key" in
  ~ success 404
  /\ platformRequest c "GET" "/platform/applications/app_missing" None None []
     = (Err (PlatformAPIError 404 "not found"),
        [PlatformHTTP (platformRequestOf c "GET" "/platform/applications/app_missing"
                         None None)]).
Proof.
  intros R c.
  assert (Hout : ~ success 404) by (unfold success; lia).
  split; [exact Hout|].
  exact (proj1 (@platform_status_to_error R c "GET" "/platform/applications/app_missing"
                  None None [] 404 "not found" eq_refl eq_refl) Hout).
Defined.

(** C9: GetApplication and ListApplications send one GET request each, to
    the base URL followed by the path; the request is given the query
    parameter include_secret_keys=true, and only that one, when
    includeSecretKeys is true, and is given no query parameters when it is
    false. *)
Theorem include_secret_keys_on_opt_in `{Runtime} (c : ClerkClient)
  (applicationID : string) (includeSecretKeys : bool) (log : list Event)
  (Hget : http_NewRequestWithContext "GET"
            (platformAPIBaseURL +:+ "/platform/applications/" +:+ applicationID) = None)
  (Hlist : http_NewRequestWithContext "GET"
             (platformAPIBaseURL +:+ "/platform/applications") = None) :
  exists getReq listReq : Request,
    trace (GetApplication c applicationID includeSecretKeys) log
    = log ++ [PlatformHTTP getReq]
    /\ trace (ListApplications c includeSecretKeys) log = log ++ [PlatformHTTP listReq]
    /\ req_Method getReq = "GET" /\ req_Method listReq = "GET"
    /\ req_URL getReq
       = "https://api.clerk.com/v1" +:+ "/platform/applications/" +:+ applicationID
    /\ req_URL listReq = "https://api.clerk.com/v1/platform/applications"
    /\ (includeSecretKeys = true ->
          req_Query getReq = Some {["include_secret_keys" := "true"]}
          /\ req_Query listReq = Some {["include_secret_keys" := "true"]})
    /\ (includeSecretKeys = false ->
          req_Query getReq = None /\ req_Query listReq = None).
Proof.
  exists (platformRequestOf c "GET" ("/platform/applications/" +:+ applicationID) None
            (if includeSecretKeys then Some {["include_secret_keys" := "true"]} else None)),
         (platformRequestOf c "GET" "/platform/applications" None
            (if includeSecretKeys then Some {["include_secret_keys" := "true"]} else None)).
  rewrite GetApplication_trace, ListApplications_trace.
  rewrite (platformRequest_trace _ _ _ _ _ _ Hget), (platformRequest_trace _ _ _ _ _ _ Hlist).
  destruct includeSecretKeys; repeat split; done.
Qed.

Lemma include_secret_keys_on_opt_in_witness :
  let R := Demo.runtime 200 "{}" in
  let c := NewClerkClient "test-key" in
  exists getReq listReq : Request,
    trace (GetApplication c "app_123" false) [] = [] ++ [PlatformHTTP getReq]
    /\ trace (ListApplications c false) [] = [] ++ [PlatformHTTP listReq]
    /\ req_Method getReq = "GET" /\ req_Method listReq = "GET"
    /\ req_URL getReq = "https://api.clerk.com/v1" +:+ "/platform/applications/" +:+ "app_123"
    /\ req_URL listReq = "https://api.clerk.com/v1/platform/applications"
    /\ (false = true ->
          req_Query getReq = Some {["include_secret_keys" := "true"]}
          /\ req_Query listReq = Some {["include_secret_keys" := "true"]})
    /\ (false = false -> req_Query getReq = None /\ req_Query listReq = None).
Proof.
  exact (@include_secret_keys_on_opt_in (Demo.runtime 200 "{}") (NewClerkClient "test-key")
           "app_123" false [] eq_refl eq_refl).
Defined.

(** ** Provider configuration *)

Lemma alloc_fresh (heap : gmap nat ClerkClient) (v : ClerkClient) :
  heap !! (Provider.alloc heap v).1 = None
  /\ (Provider.alloc heap v).2 = <[(Provider.alloc heap v).1 := v]> heap.
Proof.
  unfold Provider.alloc. simpl. split; [|reflexivity].
  apply not_elem_of_dom. apply is_fresh.
Qed.

(** C10: when the configuration decodes without error, the key Configure
    uses is the platform_api_key value if that is neither null nor unknown
    and the CLERK_PLATFORM_API_KEY variable otherwise. If it is empty, the
    "Missing Platform API Key" error is reported, no client is created and
    the two data fields stay as they were; otherwise one new ClerkClient
    holding exactly that key (and an empty registry) is created, and
    ResourceData and DataSourceData both point to it. *)
Theorem configure_resolves_key (environ : gmap string string)
  (heap : gmap nat ClerkClient) (req : Provider.ConfigureRequest)
  (resp : Provider.ConfigureResponse)
  (Hdecoded : HasError (Append (Provider.resp_Diagnostics resp) (Provider.Config_diags req))
              = false) :
  let key := resolvedKey environ (Provider.m_PlatformAPIKey (Provider.Config req)) in
  let diags := Append (Provider.resp_Diagnostics resp) (Provider.Config_diags req) in
  let resp' := (Provider.Configure environ heap req resp).1 in
  let heap' := (Provider.Configure environ heap req resp).2 in
  (key = EmptyString ->
     heap' = heap
     /\ Provider.ResourceData resp' = Provider.ResourceData resp
     /\ Provider.DataSourceData resp' = Provider.DataSourceData resp
     /\ HasError (Provider.resp_Diagnostics resp') = true
     /\ Summary <$> last (Provider.resp_Diagnostics resp') = Some "Missing Platform API Key")
  /\ (key <> EmptyString ->
        exists l : nat,
          heap !! l = None
          /\ heap' = <[l := NewClerkClient key]> heap
          /\ PlatformAPIKey (NewClerkClient key) = key
          /\ backendClients (NewClerkClient key) = ∅
          /\ Provider.ResourceData resp' = Some l
          /\ Provider.DataSourceData resp' = Some l
          /\ Provider.resp_Diagnostics resp' = diags).
Proof.
  intros key diags resp' heap'. subst resp' heap' diags. unfold Provider.Configure.
  cbv zeta. rewrite Hdecoded.
  assert (Hkey :
    (if negb (IsNull (Provider.m_PlatformAPIKey (Provider.Config req)))
        && negb (IsUnknown (Provider.m_PlatformAPIKey (Provider.Config req)))
     then ValueString (Provider.m_PlatformAPIKey (Provider.Config req))
     else Provider.Getenv environ "CLERK_PLATFORM_API_KEY") = key).
  { subst key. unfold resolvedKey, Provider.Getenv.
    destruct (Provider.m_PlatformAPIKey (Provider.Config req)); reflexivity. }
  rewrite Hkey. split.
  - intros Hempty. rewrite bool_decide_eq_true_2 by exact Hempty. simpl.
    repeat split; [apply HasError_AddError|].
    unfold AddError, Append. simpl. unfold Append1. case_bool_decide as Hin.
    + exfalso. apply not_true_iff_false in Hdecoded. apply Hdecoded.
      unfold HasError. apply existsb_exists. eexists. split; [by apply list_elem_of_In|done].
    + by rewrite last_snoc.
  - intros Hfull. rewrite bool_decide_eq_false_2 by exact Hfull.
    destruct (alloc_fresh heap (NewClerkClient key)) as [Hfresh Hheap].
    destruct (Provider.alloc heap (NewClerkClient key)) as [l heap1] eqn:Halloc.
    simpl in *. exists l. subst heap1. repeat split; done.
Qed.

Lemma configure_resolves_key_witness :
  let environ : gmap string string := {["CLERK_PLATFORM_API_KEY" := "from-env"]} in
  let req := Provider.mkConfigureRequest (Provider.mkClerkProviderModel (Value "from-config")) [] in
  let resp := Provider.mkConfigureResponse [] None None in
  resolvedKey environ (Value "from-config") = "from-config"
  /\ exists l : nat,
       (∅ : gmap nat ClerkClient) !! l = None
       /\ (Provider.Configure environ ∅ req resp).2 = <[l := NewClerkClient "from-config"]> ∅
       /\ Provider.ResourceData (Provider.Configure environ ∅ req resp).1 = Some l
       /\ Provider.DataSourceData (Provider.Configure environ ∅ req resp).1 = Some l.
Proof.
  intros environ req resp. split; [reflexivity|].
  destruct (proj2 (configure_resolves_key environ ∅ req resp eq_refl))
    as (l & Hfresh & Hheap & _ & _ & Hres & Hdata & _).
  - discriminate.
  - exists l. repeat split; assumption.
Defined.

(** ** The environment resource *)

Section EnvironmentResource.
Context `{Runtime}.

Lemma GetInstanceSettingsClient_hit (c : ClerkClient) (appID environment : string)
  (config : ClientConfig) :
  GetBackendConfig c appID environment = Ok config ->
  GetInstanceSettingsClient c appID environment = Ok config.
Proof. intros Hget. unfold GetInstanceSettingsClient. by rewrite Hget. Qed.

Lemma UpdateInstanceSettings_registered (c : ClerkClient) (appID environment : string)
  (config : ClientConfig) (params : UpdateParams) (log : list Event) :
  GetBackendConfig c appID environment = Ok config ->
  UpdateInstanceSettings c appID environment params log
  = (sdk_instancesettings_Update log config params,
     log ++ [BackendHTTP config (InstanceUpdate params)]).
Proof.
  intros Hget. unfold UpdateInstanceSettings.
  by rewrite (GetInstanceSettingsClient_hit _ _ _ _ Hget).
Qed.

Lemma UpdateInstanceRestrictions_registered (c : ClerkClient) (appID environment : string)
  (config : ClientConfig) (params : UpdateRestrictionsParams) (log : list Event) :
  GetBackendConfig c appID environment = Ok config ->
  UpdateInstanceRestrictions c appID environment params log
  = (sdk_instancesettings_UpdateRestrictions log config params,
     log ++ [BackendHTTP config (InstanceUpdateRestrictions params)]).
Proof.
  intros Hget. unfold UpdateInstanceRestrictions.
  by rewrite (GetInstanceSettingsClient_hit _ _ _ _ Hget).
Qed.

Lemma UpdateOrganizationSettings_registered (c : ClerkClient) (appID environment : string)
  (config : ClientConfig) (params : UpdateOrganizationSettingsParams) (log : list Event) :
  GetBackendConfig c appID environment = Ok config ->
  UpdateOrganizationSettings c appID environment params log
  = (sdk_instancesettings_UpdateOrganizationSettings log config params,
     log ++ [BackendHTTP config (InstanceUpdateOrganizationSettings params)]).
Proof.
  intros Hget. unfold UpdateOrganizationSettings.
  by rewrite (GetInstanceSettingsClient_hit _ _ _ _ Hget).
Qed.

End EnvironmentResource.

(** C7: when the state decodes without error, Delete makes exactly the
    three reset calls, in order and whatever the earlier ones returned,
    with the hard-coded defaults. Each failing call adds its warning, with
    its own summary and the detail "Could not reset ... for
    <application>/<environment>: <error>. The instance still exists in
    Clerk."; the diagnostics of the response are the earlier ones with
    those warnings appended (a diagnostic already present is not repeated),
    so three failing resets on diagnostics that hold none of the warnings
    add exactly three. Nothing ever adds an error and the state is not
    touched. With a registry entry the three calls are the three PATCH
    requests and nothing else is sent (no delete); without one nothing is
    sent and all three warn with the registry error. *)
Theorem delete_resets_and_warns `{Runtime} (r : Environment.EnvironmentResource)
  (req_State : Environment.Decoded) (resp : Environment.Response) (log : list Event)
  (Hdecoded : HasError (Append (Environment.resp_Diagnostics resp)
                               (Environment.got_diags req_State)) = false) :
  let appID := ValueString (Environment.ApplicationID (Environment.got req_State)) in
  let env := ValueString (Environment.Environment (Environment.got req_State)) in
  let diags := Append (Environment.resp_Diagnostics resp) (Environment.got_diags req_State) in
  let settings :=
    {| TestMode := Some false; HIBP := Some true; EnhancedEmailDeliverability := Some true;
       SupportEmail := Some EmptyString; ClerkJSVersion := Some EmptyString;
       URLBasedSessionSyncing := Some false; DevelopmentOrigin := Some EmptyString |} in
  let restrictions :=
    {| Allowlist := Some false; Blocklist := Some false;
       BlockEmailSubaddresses := Some false; BlockDisposableEmailDomains := Some false;
       IgnoreDotsForGmailAddresses := Some false |} in
  let orgSettings :=
    {| Enabled := Some false; MaxAllowedMemberships := None; CreatorRoleID := None;
       AdminDeleteEnabled := Some false; DomainsEnabled := Some false;
       DomainsEnrollmentModes := None; DomainsDefaultRoleID := None |} in
  let c := Environment.client r in
  let r1 := UpdateInstanceSettings c appID env settings log in
  let r2 := UpdateInstanceRestrictions c appID env restrictions r1.2 in
  let r3 := UpdateOrganizationSettings c appID env orgSettings r2.2 in
  let warning (summary what : string) (err : error) :=
    {| severity := SeverityWarning;
       Summary := summary;
       Detail := "Could not reset " +:+ what +:+ " for " +:+ appID +:+ "/" +:+ env +:+ ": "
                 +:+ Error err +:+ ". The instance still exists in Clerk." |} in
  let warnings :=
    match r1.1 with
    | Some err => [warning "Failed to reset instance settings" "instance settings" err]
    | None => []
    end
    ++ match r2.1 with
       | Err err => [warning "Failed to reset instance restrictions" "restrictions" err]
       | Ok _ => []
       end
    ++ match r3.1 with
       | Err err =>
           [warning "Failed to reset organization settings" "organization settings" err]
       | Ok _ => []
       end in
  let resp' := (Environment.Delete r req_State resp log).1 in
  let log' := (Environment.Delete r req_State resp log).2 in
  log' = r3.2
  /\ Environment.resp_Diagnostics resp' = Append diags warnings
  /\ Forall (fun d => severity d = SeverityWarning) warnings
  /\ HasError (Environment.resp_Diagnostics resp') = false
  /\ Environment.resp_State resp' = Environment.resp_State resp
  /\ (forall config, GetBackendConfig c appID env = Ok config ->
        log' = log ++ [BackendHTTP config (InstanceUpdate settings);
                       BackendHTTP config (InstanceUpdateRestrictions restrictions);
                       BackendHTTP config (InstanceUpdateOrganizationSettings orgSettings)])
  /\ (backendClients c !! backendClientKey appID env = None ->
        let miss := resolveError appID env (registryMiss appID env) in
        log' = log
        /\ warnings
           = [warning "Failed to reset instance settings" "instance settings" miss;
              warning "Failed to reset instance restrictions" "restrictions" miss;
              warning "Failed to reset organization settings" "organization settings" miss])
  /\ (forall d, d ∈ Environment.resp_Diagnostics resp' <-> d ∈ diags \/ d ∈ warnings)
  /\ ((forall d, d ∈ warnings -> d ∉ diags) ->
      Environment.resp_Diagnostics resp' = diags ++ warnings
      /\ length (Environment.resp_Diagnostics resp')
         = (length diags
            + (match r1.1 with Some _ => 1 | None => 0 end)
            + (match r2.1 with Err _ => 1 | Ok _ => 0 end)
            + (match r3.1 with Err _ => 1 | Ok _ => 0 end))%nat).
Proof.
  intros appID env diags settings restrictions orgSettings c r1 r2 r3 warning warnings
    resp' log'.
  assert (Hrun : Environment.Delete r req_State resp log
                 = (Environment.with_Diagnostics (Append diags warnings) resp, r3.2)).
  { unfold Environment.Delete. cbv zeta. cbn [Environment.resp_Diagnostics
      Environment.with_Diagnostics]. rewrite Hdecoded.
    unfold mbind, M_bind, mret, M_ret.
    change Environment.resetInstanceSettings with settings.
    change Environment.resetRestrictions with restrictions.
    change Environment.resetOrganizationSettings with orgSettings.
    fold appID env c. subst warnings. fold r1.
    destruct r1 as [e1 log1] eqn:E1. cbn [fst snd] in *. fold r2.
    destruct r2 as [e2 log2] eqn:E2. cbn [fst snd] in *. fold r3.
    destruct r3 as [e3 log3] eqn:E3. cbn [fst snd] in *.
    fold diags.
    destruct e1, e2, e3; cbn [Environment.resp_Diagnostics Environment.with_Diagnostics
      Environment.resp_State app]; rewrite ?Append_Append; cbn [app]; reflexivity. }
  assert (Hwarn : Forall (fun d => severity d = SeverityWarning) warnings).
  { subst warnings. destruct r1.1, r2.1, r3.1; repeat constructor. }
  assert (Hnodup : NoDup warnings).
  { subst warnings warning.
    destruct r1.1, r2.1, r3.1; cbn [app];
      repeat (apply NoDup_cons; split;
              [rewrite ?elem_of_cons, elem_of_nil; intros Hin;
               repeat (destruct Hin as [Hin|Hin]; [discriminate Hin|]); exact Hin|]);
      apply NoDup_nil_2. }
  subst resp' log'. rewrite Hrun. cbn [fst snd Environment.resp_Diagnostics
    Environment.with_Diagnostics Environment.resp_State].
  split; [reflexivity|]. split; [reflexivity|]. split; [exact Hwarn|].
  split.
  { rewrite HasError_Append. fold diags in Hdecoded. rewrite Hdecoded. simpl.
    unfold HasError. apply not_true_iff_false. intros Hex.
    apply existsb_exists in Hex as (d & Hd & Hsev).
    rewrite Forall_forall in Hwarn. apply list_elem_of_In in Hd.
    rewrite (Hwarn d Hd) in Hsev. discriminate. }
  split; [reflexivity|]. split; [|split; [|split; [|]]].
  - intros config Hget. subst r3 r2 r1.
    rewrite (UpdateOrganizationSettings_registered _ _ _ _ _ _ Hget).
    rewrite (UpdateInstanceRestrictions_registered _ _ _ _ _ _ Hget).
    rewrite (UpdateInstanceSettings_registered _ _ _ _ _ _ Hget).
    cbn [fst snd]. by rewrite <- !app_assoc.
  - intros Hmiss.
    pose proof (GetInstanceSettingsClient_miss c appID env Hmiss) as Hclient.
    subst warnings r3 r2 r1.
    unfold UpdateInstanceSettings, UpdateInstanceRestrictions, UpdateOrganizationSettings.
    rewrite Hclient. split; reflexivity.
  - intros d. apply elem_of_Append.
  - intros Hfresh. rewrite (Append_fresh _ _ Hnodup Hfresh). split; [reflexivity|].
    rewrite length_app. subst warnings.
    destruct r1.1, r2.1, r3.1; cbn [app length]; lia.
Qed.

Lemma delete_resets_and_warns_witness :
  let R := Demo.runtime 422 "invalid value" in
  let r := Environment.mkEnvironmentResource Demo.client in
  let req_State := Environment.mkDecoded Demo.state [] in
  let resp := Environment.mkResponse [] (Some Demo.state) in
  let config := {| Key := Some "sk_test_dev"; URL := None |} in
  HasError (Append [] []) = false
  /\ HasError (Environment.resp_Diagnostics (Environment.Delete r req_State resp []).1) = false
  /\ (Environment.Delete r req_State resp []).2
     = [] ++ [BackendHTTP config
                (InstanceUpdate
                   (mkUpdateParams (Some false) (Some true) (Some true) (Some EmptyString)
                      (Some EmptyString) (Some false) (Some EmptyString)));
              BackendHTTP config
                (InstanceUpdateRestrictions
                   (mkUpdateRestrictionsParams (Some false) (Some false) (Some false)
                      (Some false) (Some false)));
              BackendHTTP config
                (InstanceUpdateOrganizationSettings
                   (mkUpdateOrganizationSettingsParams (Some false) None None (Some false)
                      (Some false) None None))]
  /\ Environment.resp_Diagnostics (Environment.Delete r req_State resp []).1
     = [mkDiagnostic SeverityWarning "Failed to reset instance settings"
          ("Could not reset instance settings for app_1/development: invalid value."
           +:+ " The instance still exists in Clerk.");
        mkDiagnostic SeverityWarning "Failed to reset instance restrictions"
          ("Could not reset restrictions for app_1/development: invalid value."
           +:+ " The instance still exists in Clerk.");
        mkDiagnostic SeverityWarning "Failed to reset organization settings"
          ("Could not reset organization settings for app_1/development: invalid value."
           +:+ " The instance still exists in Clerk.")].
Proof.
  intros R r req_State resp config.
  pose proof (@delete_resets_and_warns R r req_State resp [] eq_refl) as Hdelete.
  cbv zeta in Hdelete.
  destruct Hdelete as (_ & _ & _ & Hnoerror & _ & Hsent & _ & _ & Hadded).
  split; [reflexivity|]. split; [exact Hnoerror|].
  split; [apply (Hsent config); reflexivity|].
  destruct Hadded as [Hdiags _].
  - intros d _ Hin. by apply elem_of_nil in Hin.
  - rewrite Hdiags. vm_compute. reflexivity.
Defined.

(** C8: applying a known organization_settings block on a registered
    instance sends one update whose Enabled and MaxAllowedMemberships are
    the configured values; when the API answers, the Enabled and
    MaxAllowedMemberships of the answer are what is written into the
    state, so a configuration of enabled = true and a cap of 10 that the
    API echoes is stored as configured. Read then returns the decoded
    state as it is and sends nothing. *)
Theorem organization_settings_round_trip `{Runtime} (r : Environment.EnvironmentResource)
  (appID env : string) (plan : Environment.EnvironmentResourceModel)
  (diags : Diagnostics) (log : list Event)
  (orgSettings : Environment.OrganizationSettingsModel) (config : ClientConfig)
  (Hplan : Environment.OrganizationSettings plan = Value orgSettings)
  (Hclean : HasError diags = false)
  (Hreg : GetBackendConfig (Environment.client r) appID env = Ok config) :
  exists params : UpdateOrganizationSettingsParams,
    trace (Environment.applyOrganizationSettings r appID env plan diags) log
    = log ++ [BackendHTTP config (InstanceUpdateOrganizationSettings params)]
    /\ Enabled params
       = match Environment.Enabled orgSettings with Value b => Some b | _ => None end
    /\ MaxAllowedMemberships params
       = match Environment.MaxAllowedMemberships orgSettings with
         | Value n => Some n
         | _ => None
         end
    /\ (forall result,
          sdk_instancesettings_UpdateOrganizationSettings log config params = Ok result ->
          exists stored : Environment.OrganizationSettingsModel,
            value (Environment.applyOrganizationSettings r appID env plan diags) log
            = (Environment.set_OrganizationSettings (Value stored) plan, diags)
            /\ Environment.OrganizationSettings
                 (value (Environment.applyOrganizationSettings r appID env plan diags) log).1
               = Value stored
            /\ (value (Environment.applyOrganizationSettings r appID env plan diags) log).2
               = diags
            /\ Environment.Enabled stored = Value (s_Enabled result)
            /\ Environment.MaxAllowedMemberships stored = Value (s_MaxAllowedMemberships result)
            /\ (Environment.Enabled orgSettings = Value true ->
                Environment.MaxAllowedMemberships orgSettings = Value 10 ->
                s_Enabled result = true -> s_MaxAllowedMemberships result = 10 ->
                Environment.Enabled stored = Environment.Enabled orgSettings
                /\ Environment.MaxAllowedMemberships stored
                   = Environment.MaxAllowedMemberships orgSettings))
    /\ (forall (req_State : Environment.Decoded) (resp : Environment.Response) log0,
          HasError (Append (Environment.resp_Diagnostics resp)
                           (Environment.got_diags req_State)) = false ->
          Environment.Read r req_State resp log0
          = ({| Environment.resp_Diagnostics :=
                  Append (Environment.resp_Diagnostics resp) (Environment.got_diags req_State);
                Environment.resp_State := Some (Environment.got req_State) |}, log0)).
Proof.
  unfold trace, value, Environment.applyOrganizationSettings.
  rewrite Hplan, Hclean. rewrite andb_false_r. unfold mbind, M_bind.
  rewrite (UpdateOrganizationSettings_registered _ _ _ _ _ _ Hreg).
  match goal with
  | |- context [sdk_instancesettings_UpdateOrganizationSettings log config ?p] =>
      exists p; set (params := p)
  end.
  split.
  { destruct (sdk_instancesettings_UpdateOrganizationSettings log config params);
      reflexivity. }
  split; [by destruct (Environment.Enabled orgSettings)|].
  split; [by destruct (Environment.MaxAllowedMemberships orgSettings)|].
  split.
  - intros result Hanswer. rewrite Hanswer. cbn [fst snd].
    eexists. split; [reflexivity|]. cbn.
    split; [reflexivity|]. split; [reflexivity|].
    split; [reflexivity|]. split; [reflexivity|].
    intros -> -> -> ->. split; reflexivity.
  - intros req_State resp log0 Hdecoded. unfold Environment.Read. cbv zeta.
    cbn [Environment.resp_Diagnostics Environment.with_Diagnostics]. by rewrite Hdecoded.
Qed.

Lemma organization_settings_round_trip_witness :
  let R := Demo.runtime 200 "{}" in
  let r := Environment.mkEnvironmentResource Demo.client in
  let config := {| Key := Some "sk_test_dev"; URL := None |} in
  exists params : UpdateOrganizationSettingsParams,
    trace (Environment.applyOrganizationSettings r "app_1" "development" Demo.state []) []
    = [] ++ [BackendHTTP config (InstanceUpdateOrganizationSettings params)]
    /\ Enabled params = Some true
    /\ MaxAllowedMemberships params = Some 10
    /\ exists stored : Environment.OrganizationSettingsModel,
         value (Environment.applyOrganizationSettings r "app_1" "development" Demo.state []) []
         = (Environment.set_OrganizationSettings (Value stored) Demo.state, [])
         /\ Environment.OrganizationSettings
              (value (Environment.applyOrganizationSettings r "app_1" "development"
                        Demo.state []) []).1
            = Value stored
         /\ Environment.Enabled stored = Value true
         /\ Environment.MaxAllowedMemberships stored = Value 10.
Proof.
  intros R r config.
  destruct (@organization_settings_round_trip R r "app_1" "development" Demo.state [] []
              Demo.organizationSettings config eq_refl eq_refl eq_refl)
    as (params & Htrace & Henabled & Hmax & Hstored & _).
  exists params. split; [exact Htrace|]. split; [exact Henabled|]. split; [exact Hmax|].
  destruct (Hstored (mkOrganizationSettings true 10 "org:admin" true false (Some [])
                       "org:member") eq_refl)
    as (stored & Hvalue & Hstate & _ & Hen & Hm & _).
  exists stored. repeat split; assumption.
Defined.

(** ** Import identifiers *)

Lemma cut_None (s : string) : cut "/"%char s = None <-> hasSlash s = false.
Proof.
  induction s as [|c s IH]; simpl; [done|].
  case_bool_decide; simpl; [done|].
  destruct (cut "/"%char s) as [[before after]|]; [|done].
  split; [done|]. intros Hs. by apply IH in Hs.
Qed.

Lemma cut_Some (s before after : string) :
  cut "/"%char s = Some (before, after) ->
  s = before +:+ String "/"%char after /\ hasSlash before = false.
Proof.
  revert before. induction s as [|c s IH]; intros before; simpl; [done|].
  case_bool_decide as Hc; simpl.
  - intros [= <- <-]. by subst c.
  - destruct (cut "/"%char s) as [[b a]|]; [|done].
    intros [= <- <-]. destruct (IH b eq_refl) as [-> Hb].
    split; [reflexivity|]. simpl. by rewrite bool_decide_eq_false_2.
Qed.

Lemma cut_append (a e : string) :
  hasSlash a = false -> cut "/"%char (a +:+ String "/"%char e) = Some (a, e).
Proof.
  induction a as [|c a IH]; intros Ha.
  - reflexivity.
  - rewrite append_String. simpl in *. apply orb_false_iff in Ha as [Hc Ha].
    rewrite Hc. by rewrite (IH Ha).
Qed.

Lemma validEnvironment_spec (e : string) :
  Environment.validEnvironment e = true <-> e = "development" \/ e = "production".
Proof.
  unfold Environment.validEnvironment. rewrite orb_true_iff.
  by rewrite !bool_decide_eq_true.
Qed.

Lemma hasSlash_environment (e : string) :
  e = "development" \/ e = "production" -> hasSlash e = false /\ e <> EmptyString.
Proof. by intros [-> | ->]. Qed.

Lemma import_AddError_rejects (resp : Environment.ImportStateResponse)
  (summary detail : string) :
  Environment.import_State (Environment.import_AddError resp summary detail)
  = Environment.import_State resp
  /\ HasError (Environment.import_Diagnostics
                 (Environment.import_AddError resp summary detail)) = true.
Proof. split; [reflexivity|]. apply HasError_AddError. Qed.

Lemma validEnvironmentID_cut (id : string) :
  validEnvironmentID id ->
  exists a e : string,
    cut "/"%char id = Some (a, e) /\ a <> EmptyString
    /\ Environment.validEnvironment e = true /\ e <> EmptyString.
Proof.
  intros (a & e & -> & Ha & Hslash & He). exists a, e.
  split; [exact (cut_append a e Hslash)|]. split; [exact Ha|].
  split; [by apply validEnvironment_spec|]. by apply hasSlash_environment.
Qed.

Lemma validOrganizationID_cut (id : string) :
  validOrganizationID id ->
  exists a e o : string,
    cut "/"%char id = Some (a, e +:+ String "/"%char o)
    /\ cut "/"%char (e +:+ String "/"%char o) = Some (e, o)
    /\ a <> EmptyString /\ Environment.validEnvironment e = true
    /\ e <> EmptyString /\ o <> EmptyString.
Proof.
  intros (a & e & o & -> & Ha & Hslash & He & Ho). exists a, e, o.
  destruct (hasSlash_environment e He) as [Hse Hne].
  split; [exact (cut_append a _ Hslash)|]. split; [exact (cut_append e o Hse)|].
  repeat split; try done. by apply validEnvironment_spec.
Qed.

(** The rejecting branch of a case analysis: the identifier is not well
    formed, and the response is the one AddError gives. *)
Ltac rejects := right; split; [|apply import_AddError_rejects].

Section ImportIdentifiers.
Context `{Runtime}.

(** The environment resource's ImportState either accepts a well-formed
    identifier and sets the three attributes, or rejects an ill-formed one
    with an error and an untouched state. *)
Lemma Environment_ImportState_cases (r : Environment.EnvironmentResource) (id : string)
  (resp : Environment.ImportStateResponse) :
  (exists a e : string,
     cut "/"%char id = Some (a, e) /\ validEnvironmentID id
     /\ Environment.ImportState r id resp
        = Environment.SetAttribute
            (Environment.SetAttribute (Environment.SetAttribute resp "id" id)
               "application_id" a) "environment" e)
  \/ (~ validEnvironmentID id
      /\ Environment.import_State (Environment.ImportState r id resp)
         = Environment.import_State resp
      /\ HasError (Environment.import_Diagnostics (Environment.ImportState r id resp)) = true).
Proof.
  unfold Environment.ImportState. cbn [SplitN].
  destruct (cut "/"%char id) as [[p0 p1]|] eqn:Hcut.
  - destruct (cut_Some _ _ _ Hcut) as [Hid Hslash].
    case_bool_decide as Hp0; [|case_bool_decide as Hp1]; cbn [orb].
    + rejects.
      intros (a & e & Hcut' & Ha & _)%validEnvironmentID_cut. congruence.
    + rejects.
      intros (a & e & Hcut' & _ & _ & He)%validEnvironmentID_cut. congruence.
    + destruct (Environment.validEnvironment p1) eqn:Hvalid; cbn [negb].
      * left. exists p0, p1. split; [reflexivity|]. split; [|reflexivity].
        exists p0, p1. split; [exact Hid|]. split; [exact Hp0|]. split; [exact Hslash|].
        by apply validEnvironment_spec.
      * rejects.
        intros (a & e & Hcut' & _ & He & _)%validEnvironmentID_cut. congruence.
  - rejects.
    intros (a & e & Hcut' & _)%validEnvironmentID_cut. congruence.
Qed.

Lemma Organization_ImportState_cases (id : string)
  (resp : Environment.ImportStateResponse) :
  (exists a e o : string,
     SplitN id "/"%char 3 = [a; e; o] /\ validOrganizationID id
     /\ Organization.ImportState id resp
        = Environment.SetAttribute
            (Environment.SetAttribute (Environment.SetAttribute resp "application_id" a)
               "environment" e) "id" o)
  \/ (~ validOrganizationID id
      /\ Environment.import_State (Organization.ImportState id resp)
         = Environment.import_State resp
      /\ HasError (Environment.import_Diagnostics (Organization.ImportState id resp)) = true).
Proof.
  unfold Organization.ImportState. cbn [SplitN].
  destruct (cut "/"%char id) as [[p0 rest]|] eqn:Hcut.
  - destruct (cut_Some _ _ _ Hcut) as [Hid Hslash].
    destruct (cut "/"%char rest) as [[p1 p2]|] eqn:Hcut2.
    + destruct (cut_Some _ _ _ Hcut2) as [Hrest Hslash1].
      case_bool_decide as Hp0; [|case_bool_decide as Hp1; [|case_bool_decide as Hp2]];
        cbn [orb].
      * rejects.
        intros (a & e & o & Hc1 & Hc2 & Ha & _)%validOrganizationID_cut. congruence.
      * rejects.
        intros (a & e & o & Hc1 & Hc2 & _ & _ & He & _)%validOrganizationID_cut.
        rewrite Hcut in Hc1. injection Hc1 as -> ->. congruence.
      * rejects.
        intros (a & e & o & Hc1 & Hc2 & _ & _ & _ & Ho)%validOrganizationID_cut.
        rewrite Hcut in Hc1. injection Hc1 as -> ->. congruence.
      * destruct (Environment.validEnvironment p1) eqn:Hvalid; cbn [negb].
        -- left. exists p0, p1, p2. split; [reflexivity|]. split; [|reflexivity].
           exists p0, p1, p2. rewrite Hid, Hrest.
           split; [reflexivity|]. split; [exact Hp0|]. split; [exact Hslash|].
           split; [by apply validEnvironment_spec|exact Hp2].
        -- rejects.
           intros (a & e & o & Hc1 & Hc2 & _ & He & _)%validOrganizationID_cut.
           rewrite Hcut in Hc1. injection Hc1 as -> ->. congruence.
    + rejects.
      intros (a & e & o & Hc1 & Hc2 & _)%validOrganizationID_cut.
      rewrite Hcut in Hc1. injection Hc1 as -> ->. congruence.
  - rejects.
    intros (a & e & o & Hc1 & _)%validOrganizationID_cut. congruence.
Qed.

End ImportIdentifiers.

(** C6: import splits the identifier at its slashes and checks the
    environment name.
    - The organization identifier app_1/development/org_1 splits into
      app_1, development, org_1, and these become application_id,
      environment and id.
    - For both resources an identifier that is not well formed (a part
      missing or empty, or an environment other than development or
      production) gets an error diagnostic and no attribute is set; in
      particular so does every identifier whose environment part is
      outside the two names.
    - For the environment resource a well-formed a/e sets id to the whole
      identifier, application_id to a and environment to e, and adds no
      diagnostic. *)
Theorem import_parses_composite_id `{Runtime} (r : Environment.EnvironmentResource)
  (req_ID : string) (resp : Environment.ImportStateResponse) :
  let rejected (resp' : Environment.ImportStateResponse) :=
    Environment.import_State resp' = Environment.import_State resp
    /\ HasError (Environment.import_Diagnostics resp') = true in
  SplitN "app_1/development/org_1" "/"%char 3 = ["app_1"; "development"; "org_1"]
  /\ Environment.import_State (Organization.ImportState "app_1/development/org_1" resp)
     = <["id" := "org_1"]>
         (<["environment" := "development"]>
            (<["application_id" := "app_1"]> (Environment.import_State resp)))
  /\ (~ validEnvironmentID req_ID -> rejected (Environment.ImportState r req_ID resp))
  /\ (~ validOrganizationID req_ID -> rejected (Organization.ImportState req_ID resp))
  /\ (forall a e : string,
        hasSlash a = false -> e <> "development" -> e <> "production" ->
        rejected (Environment.ImportState r (a +:+ "/" +:+ e) resp))
  /\ (forall a e o : string,
        hasSlash a = false -> hasSlash e = false ->
        e <> "development" -> e <> "production" ->
        rejected (Organization.ImportState (a +:+ "/" +:+ e +:+ "/" +:+ o) resp))
  /\ (forall a e : string,
        req_ID = a +:+ "/" +:+ e -> a <> EmptyString -> hasSlash a = false ->
        e = "development" \/ e = "production" ->
        Environment.import_State (Environment.ImportState r req_ID resp)
        = <["environment" := e]>
            (<["application_id" := a]>
               (<["id" := req_ID]> (Environment.import_State resp)))
        /\ Environment.import_Diagnostics (Environment.ImportState r req_ID resp)
           = Environment.import_Diagnostics resp).
Proof.
  intros rejected. subst rejected. cbv beta.
  split; [reflexivity|]. split; [reflexivity|]. split; [|split; [|split; [|split]]].
  - intros Hinvalid.
    destruct (Environment_ImportState_cases r req_ID resp)
      as [(a & e & _ & Hvalid & _)|(_ & Hrejected)]; [by destruct Hinvalid|exact Hrejected].
  - intros Hinvalid.
    destruct (Organization_ImportState_cases req_ID resp)
      as [(a & e & o & _ & Hvalid & _)|(_ & Hrejected)];
      [by destruct Hinvalid|exact Hrejected].
  - intros a e Ha Hdev Hprod.
    destruct (Environment_ImportState_cases r (a +:+ "/" +:+ e) resp)
      as [(a' & e' & _ & Hvalid & _)|(_ & Hrejected)]; [|exact Hrejected].
    apply validEnvironmentID_cut in Hvalid as (a1 & e1 & Hcut & _ & He1 & _).
    change (a +:+ "/" +:+ e) with (a +:+ String "/"%char e) in Hcut.
    rewrite (cut_append a e Ha) in Hcut. injection Hcut as <- <-.
    apply validEnvironment_spec in He1. by destruct He1.
  - intros a e o Ha He Hdev Hprod.
    destruct (Organization_ImportState_cases (a +:+ "/" +:+ e +:+ "/" +:+ o) resp)
      as [(a' & e' & o' & _ & Hvalid & _)|(_ & Hrejected)]; [|exact Hrejected].
    apply validOrganizationID_cut in Hvalid as (a1 & e1 & o1 & Hcut & Hcut2 & _ & He1 & _).
    change (a +:+ "/" +:+ e +:+ "/" +:+ o)
      with (a +:+ String "/"%char (e +:+ String "/"%char o)) in Hcut.
    rewrite (cut_append a _ Ha) in Hcut. injection Hcut as <- Hrest.
    rewrite <- Hrest, (cut_append e o He) in Hcut2. injection Hcut2 as <- <-.
    apply validEnvironment_spec in He1. by destruct He1.
  - intros a e -> Ha Hslash He.
    destruct (Environment_ImportState_cases r (a +:+ "/" +:+ e) resp)
      as [(a' & e' & Hcut & _ & Hrun)|(Hinvalid & _)].
    + change (a +:+ "/" +:+ e) with (a +:+ String "/"%char e) in Hcut.
      rewrite (cut_append a e Hslash) in Hcut. injection Hcut as <- <-.
      rewrite Hrun. split; reflexivity.
    + destruct Hinvalid. by exists a, e.
Qed.

Lemma import_parses_composite_id_witness :
  let R := Demo.runtime 200 "{}" in
  let r := Environment.mkEnvironmentResource Demo.client in
  let resp := Environment.mkImportStateResponse [] ∅ in
  Environment.import_State (Environment.ImportState r "app_1/development" resp)
  = <["environment" := "development"]>
      (<["application_id" := "app_1"]> (<["id" := "app_1/development"]> ∅))
  /\ Environment.import_Diagnostics (Environment.ImportState r "app_1/development" resp) = [].
Proof.
  intros R r resp.
  destruct (@import_parses_composite_id R r "app_1/development" resp)
    as (_ & _ & _ & _ & _ & _ & Haccept).
  apply (Haccept "app_1" "development"); [reflexivity|discriminate|reflexivity|by left].
Defined.

(** ** The application and organization resources (modelled) *)

(** C4: with deletion_protection true, Delete reports an error and sends
    nothing; with deletion_protection false it goes on to DeleteApplication,
    which sends the DELETE request for the application id (whenever that
    request can be built). *)
Theorem deletion_protection_blocks_delete `{Runtime} (c : ClerkClient)
  (state : Application.ApplicationResourceModel) (resp : Application.Response)
  (log : list Event) :
  let id := ValueString (Application.ID state) in
  (Application.DeletionProtection state = Value true ->
     trace (Application.Delete c state resp) log = log
     /\ HasError (Application.resp_Diagnostics (value (Application.Delete c state resp) log))
        = true)
  /\ (Application.DeletionProtection state = Value false ->
        trace (Application.Delete c state resp) log = trace (DeleteApplication c id) log
        /\ (http_NewRequestWithContext "DELETE"
              (platformAPIBaseURL +:+ "/platform/applications/" +:+ id) = None ->
            trace (Application.Delete c state resp) log
            = log ++ [PlatformHTTP
                        (platformRequestOf c "DELETE" ("/platform/applications/" +:+ id)
                           None None)])).
Proof.
  intros id. unfold trace, value, Application.Delete. split; intros ->; cbn [ValueBool].
  - split; [reflexivity|]. cbn. apply HasError_AddError.
  - unfold mbind, M_bind. fold id. split.
    + destruct (DeleteApplication c id log) as [[err|] log']; reflexivity.
    + intros Hnew.
      pose proof (DeleteApplication_trace c id log) as Htrace.
      rewrite (platformRequest_trace _ _ _ _ _ _ Hnew) in Htrace. unfold trace in Htrace.
      destruct (DeleteApplication c id log) as [[err|] log']; exact Htrace.
Qed.

Lemma deletion_protection_blocks_delete_witness :
  let R := Demo.runtime 200 "{}" in
  let c := NewClerkClient "test-key" in
  let state := Application.mkApplicationResourceModel (Value "app_123") Null (Value true) in
  let resp := Application.mkResponse [] (Some state) in
  trace (Application.Delete c state resp) [] = []
  /\ HasError (Application.resp_Diagnostics (value (Application.Delete c state resp) []))
     = true.
Proof.
  intros R c state resp.
  exact (proj1 (@deletion_protection_blocks_delete R c state resp []) eq_refl).
Defined.

(** C5: a read whose API call is answered 404 removes the resource from
    the state and adds no diagnostic; any other non-2xx answer leaves the
    state alone and adds an error diagnostic carrying the error's text.
    This holds for the application resource (Platform API) and for the
    organization resource (Backend API, through the SDK). *)
Theorem read_not_found_removes_resource `{Runtime}
  (reconcileApplication :
     Application.ApplicationResourceModel -> PlatformApplicationResponse ->
     Application.ApplicationResourceModel)
  (reconcileOrganization :
     Organization.OrganizationResourceModel -> Clerk.Organization ->
     Organization.OrganizationResourceModel)
  (c : ClerkClient) (includeSecretKeys : bool)
  (state : Application.ApplicationResourceModel) (resp : Application.Response)
  (log : list Event) (status : Z) (respBody : string)
  (Hnew : http_NewRequestWithContext "GET"
            (platformAPIBaseURL +:+ "/platform/applications/"
             +:+ ValueString (Application.ID state)) = None)
  (Hdo : http_Do log
           (platformRequestOf c "GET"
              ("/platform/applications/" +:+ ValueString (Application.ID state)) None
              (if includeSecretKeys then Some {["include_secret_keys" := "true"]} else None))
         = Ok {| StatusCode := status; resp_Body := Ok respBody |}) :
  let resp' :=
    value (Application.Read reconcileApplication c includeSecretKeys state resp) log in
  (status = 404 ->
     Application.resp_State resp' = None
     /\ Application.resp_Diagnostics resp' = Application.resp_Diagnostics resp)
  /\ (~ success status -> status <> 404 ->
        Application.resp_State resp' = Application.resp_State resp
        /\ HasError (Application.resp_Diagnostics resp') = true
        /\ mkDiagnostic SeverityError "Error reading Clerk application"
             (Error (PlatformAPIError status respBody))
           ∈ Application.resp_Diagnostics resp')
  /\ (forall (ostate : Organization.OrganizationResourceModel)
             (oresp : Organization.Response) (config : ClientConfig)
             (ostatus : Z) (text : string),
        let appID := ValueString (Organization.ApplicationID ostate) in
        let env := ValueString (Organization.Environment ostate) in
        let oresp' := value (Organization.Read reconcileOrganization c ostate oresp) log in
        GetBackendConfig c appID env = Ok config ->
        sdk_organization_Get log config (ValueString (Organization.ID ostate))
        = Err (APIErrorResponse ostatus text) ->
        (ostatus = 404 ->
           Organization.resp_State oresp' = None
           /\ Organization.resp_Diagnostics oresp' = Organization.resp_Diagnostics oresp)
        /\ (ostatus <> 404 ->
              Organization.resp_State oresp' = Organization.resp_State oresp
              /\ HasError (Organization.resp_Diagnostics oresp') = true)).
Proof.
  intros resp'. subst resp'. unfold value, Application.Read, mbind, M_bind.
  pose proof (platformRequest_answer _ _ _ _ _ _ _ _ Hnew Hdo) as Hanswer.
  unfold value in Hanswer. unfold GetApplication, mbind, M_bind.
  destruct (platformRequest c "GET" _ None _ log) as [res log'] eqn:Hreq.
  cbn [fst] in Hanswer. subst res. split; [|split].
  - intros ->. cbn. split; reflexivity.
  - intros Hout Hnot. unfold success in Hout.
    destruct ((status <? 200) || (status >=? 300)) eqn:Hs.
    + cbn [mret M_ret fst]. rewrite bool_decide_eq_false_2 by exact Hnot. cbn.
      split; [reflexivity|]. split; [apply HasError_AddError|apply elem_of_AddError].
    + exfalso. apply Hout. apply orb_false_iff in Hs as [H1 H2]. lia.
  - intros ostate oresp config ostatus text Hget Hsdk.
    unfold Organization.Read, mbind, M_bind, GetOrganization.
    rewrite Hget. unfold sdkCall, NewClient. rewrite Hsdk.
    split.
    + intros ->. cbn. split; reflexivity.
    + intros Hnot. rewrite bool_decide_eq_false_2 by exact Hnot. cbn.
      split; [reflexivity|apply HasError_AddError].
Qed.

Lemma read_not_found_removes_resource_witness :
  let R := Demo.runtime 404 "not found" in
  let c := NewClerkClient "test-key" in
  let state := Application.mkApplicationResourceModel (Value "app_missing") Null (Value true) in
  let resp := Application.mkResponse [] (Some state) in
  let resp' := value (Application.Read (fun st _ => st) c true state resp) [] in
  Application.resp_State resp' = None /\ Application.resp_Diagnostics resp' = [].
Proof.
  intros R c state resp.
  exact (proj1 (@read_not_found_removes_resource R (fun st _ => st) (fun st _ => st) c true
                  state resp [] 404 "not found" eq_refl eq_refl) eq_refl).
Defined.

(** * Further properties of the code *)

Import History.

(** ** The registry over a history of registrations *)

Lemma registerAll_snoc (c : ClerkClient) (regs : list (string * string * string))
  (reg : string * string * string) :
  registerAll c (regs ++ [reg])
  = RegisterBackendClient (registerAll c regs) reg.1.1 reg.1.2 reg.2.
Proof. unfold registerAll. by rewrite foldl_app. Qed.

Lemma lastSecret_snoc (regs : list (string * string * string))
  (reg : string * string * string) (key : string) :
  lastSecret (regs ++ [reg]) key
  = if bool_decide (backendClientKey reg.1.1 reg.1.2 = key) then Some reg.2
    else lastSecret regs key.
Proof. unfold lastSecret. by rewrite foldl_app. Qed.

Lemma registerAll_lookup (c : ClerkClient) (regs : list (string * string * string))
  (key : string) :
  backendClients (registerAll c regs) !! key
  = match lastSecret regs key with
    | Some secretKey => Some {| Key := Some secretKey; URL := None |}
    | None => backendClients c !! key
    end.
Proof.
  induction regs as [|reg regs IH] using rev_ind; [reflexivity|].
  rewrite registerAll_snoc, lastSecret_snoc. cbn [RegisterBackendClient backendClients].
  case_bool_decide as Hkey.
  - subst key. apply lookup_insert_eq.
  - by rewrite lookup_insert_ne.
Qed.

Lemma registerAll_PlatformAPIKey (c : ClerkClient) (regs : list (string * string * string)) :
  PlatformAPIKey (registerAll c regs) = PlatformAPIKey c.
Proof.
  induction regs as [|reg regs IH] using rev_ind; [reflexivity|].
  by rewrite registerAll_snoc.
Qed.

(** X1: after any history of registrations on a new client, a lookup
    gives the configuration holding the secret key of the last
    registration made under the pair's registry key (a later registration
    replaces an earlier one), and the registry-miss error when there was
    none; the platform key is never changed by registering. *)
Theorem lookup_follows_last_registration `{Runtime} (platformAPIKey : string)
  (regs : list (string * string * string)) (appID environment : string) :
  let c := registerAll (NewClerkClient platformAPIKey) regs in
  GetBackendConfig c appID environment
  = match lastSecret regs (backendClientKey appID environment) with
    | Some secretKey => Ok {| Key := Some secretKey; URL := None |}
    | None => Err (registryMiss appID environment)
    end
  /\ PlatformAPIKey c = platformAPIKey.
Proof.
  intros c. subst c. split; [|apply registerAll_PlatformAPIKey].
  unfold GetBackendConfig. cbv zeta. rewrite registerAll_lookup.
  destruct (lastSecret regs _); [reflexivity|].
  unfold NewClerkClient. cbn [backendClients]. by rewrite lookup_empty.
Qed.

(** X2: registering one pair leaves the lookup of every other pair as it
    was, as long as the two environment names contain no slash. *)
Theorem registration_leaves_other_pairs `{Runtime} (c : ClerkClient)
  (appID environment secretKey appID' environment' : string)
  (Hother : (appID', environment') <> (appID, environment))
  (Henv : hasSlash environment = false)
  (Henv' : hasSlash environment' = false) :
  GetBackendConfig (RegisterBackendClient c appID environment secretKey) appID' environment'
  = GetBackendConfig c appID' environment'.
Proof.
  unfold GetBackendConfig. cbn [RegisterBackendClient backendClients]. cbv zeta.
  rewrite lookup_insert_ne; [reflexivity|].
  intros Hkey. apply backendClientKey_inj in Hkey as [-> ->]; done.
Qed.

Lemma registration_leaves_other_pairs_witness :
  let R := Demo.runtime 200 "{}" in
  GetBackendConfig (RegisterBackendClient Demo.client "app_1" "production" "sk_live")
                   "app_1" "development"
  = GetBackendConfig Demo.client "app_1" "development".
Proof.
  apply (@registration_leaves_other_pairs (Demo.runtime 200 "{}") Demo.client
           "app_1" "production" "sk_live" "app_1" "development");
    [discriminate|reflexivity|reflexivity].
Defined.

(** X3: once a pair is registered with a secret key, each per-instance
    operation on that pair makes exactly one Backend API call, with the
    configuration holding that secret key and with the caller's
    parameters, and returns what the call returned. *)
Theorem registered_key_routes_calls `{Runtime} (c : ClerkClient)
  (appID environment secretKey : string) (log : list Event) :
  let c' := RegisterBackendClient c appID environment secretKey in
  let config := {| Key := Some secretKey; URL := None |} in
  (forall params,
     UpdateInstanceSettings c' appID environment params log
     = (sdk_instancesettings_Update log config params,
        log ++ [BackendHTTP config (InstanceUpdate params)]))
  /\ (forall params,
        UpdateInstanceRestrictions c' appID environment params log
        = (sdk_instancesettings_UpdateRestrictions log config params,
           log ++ [BackendHTTP config (InstanceUpdateRestrictions params)]))
  /\ (forall params,
        UpdateOrganizationSettings c' appID environment params log
        = (sdk_instancesettings_UpdateOrganizationSettings log config params,
           log ++ [BackendHTTP config (InstanceUpdateOrganizationSettings params)]))
  /\ (forall params,
        CreateOrganization c' appID environment params log
        = (sdk_organization_Create log config params,
           log ++ [BackendHTTP config (OrganizationCreate params)]))
  /\ (forall idOrSlug,
        GetOrganization c' appID environment idOrSlug log
        = (sdk_organization_Get log config idOrSlug,
           log ++ [BackendHTTP config (OrganizationGet idOrSlug)]))
  /\ (forall id params,
        UpdateOrganization c' appID environment id params log
        = (sdk_organization_Update log config id params,
           log ++ [BackendHTTP config (OrganizationUpdate id params)]))
  /\ (forall id,
        DeleteOrganization c' appID environment id log
        = (sdk_organization_Delete log config id,
           log ++ [BackendHTTP config (OrganizationDelete id)])).
Proof.
  intros c' config.
  pose proof (GetBackendConfig_after_register c appID environment secretKey) as Hget.
  fold c' config in Hget.
  unfold UpdateInstanceSettings, UpdateInstanceRestrictions, UpdateOrganizationSettings,
    CreateOrganization, GetOrganization, UpdateOrganization, DeleteOrganization,
    GetInstanceSettingsClient.
  rewrite Hget. repeat split.
Qed.

(** ** The Platform API facade: failures and the shape of a request *)

(** X4: the three ways platformRequest fails before looking at the status.
    A request that cannot be built is not sent and gives the error wrapped
    as "creating request"; a transport failure and an unreadable body are
    reported after the request was sent, wrapped as "executing request"
    and "reading response body", the latter whatever the status was, a 2xx
    one included. Each wrapper unwraps to the underlying error. *)
Theorem platformRequest_failure_modes `{Runtime} (c : ClerkClient) (method path : string)
  (body : option string) (query : option (gmap string string)) (log : list Event) :
  let req := platformRequestOf c method path body query in
  let built := http_NewRequestWithContext method (platformAPIBaseURL +:+ path) in
  (forall err, built = Some err ->
     platformRequest c method path body query log
     = (Err (wrapError ("creating request: " +:+ Error err) err), log))
  /\ (forall err, built = None -> http_Do log req = Err err ->
        platformRequest c method path body query log
        = (Err (wrapError ("executing request: " +:+ Error err) err),
           log ++ [PlatformHTTP req]))
  /\ (forall status err, built = None ->
        http_Do log req = Ok {| StatusCode := status; resp_Body := Err err |} ->
        platformRequest c method path body query log
        = (Err (wrapError ("reading response body: " +:+ Error err) err),
           log ++ [PlatformHTTP req])).
Proof.
  intros req built. subst req built. split; [|split].
  - intros err Hnew. by apply platformRequest_unbuilt.
  - intros err Hnew Hdo. by rewrite (platformRequest_built _ _ _ _ _ _ Hnew), Hdo.
  - intros status err Hnew Hdo.
    by rewrite (platformRequest_built _ _ _ _ _ _ Hnew), Hdo.
Qed.

(** X5: platformRequest sends at most one request. The request it sends
    has the caller's method, the base URL followed by the path, the
    caller's body and query, the header Authorization: Bearer followed by
    the platform key, the header Content-Type: application/json exactly
    when there is a body, and no other header. *)
Theorem platformRequest_request_shape `{Runtime} (c : ClerkClient) (method path : string)
  (body : option string) (query : option (gmap string string)) (log : list Event) :
  (http_NewRequestWithContext method (platformAPIBaseURL +:+ path) <> None
   /\ trace (platformRequest c method path body query) log = log)
  \/ (exists req : Request,
        trace (platformRequest c method path body query) log = log ++ [PlatformHTTP req]
        /\ req_Method req = method
        /\ req_URL req = "https://api.clerk.com/v1" +:+ path
        /\ req_Body req = body /\ req_Query req = query
        /\ req_Header req !! "Authorization" = Some ("Bearer " +:+ PlatformAPIKey c)
        /\ req_Header req !! "Content-Type"
           = match body with Some _ => Some "application/json" | None => None end
        /\ dom (req_Header req) ⊆ {["Authorization"; "Content-Type"]}).
Proof.
  destruct (http_NewRequestWithContext method (platformAPIBaseURL +:+ path)) as [err|] eqn:Hnew.
  - left. split; [done|]. unfold trace. by rewrite (platformRequest_unbuilt _ _ _ _ _ _ _ Hnew).
  - right. exists (platformRequestOf c method path body query).
    split; [by apply platformRequest_trace|].
    unfold platformRequestOf. cbn [req_Method req_URL req_Body req_Query req_Header].
    repeat split.
    + destruct body; [rewrite lookup_insert_ne by done|]; apply lookup_insert_eq.
    + destruct body; [apply lookup_insert_eq|]. by rewrite lookup_insert_ne.
    + destruct body; rewrite ?dom_insert_L, dom_empty_L; set_unfold; tauto.
Qed.

(** X6: a 2xx answer is not enough for DeleteApplication to succeed. It
    returns no error only when the body decodes to an object whose deleted
    field is true; a decoded deleted = false gives the error naming the
    application that was not deleted, and an undecodable body the wrapped
    decoding error. *)
Theorem DeleteApplication_needs_deleted_flag `{Runtime} (c : ClerkClient)
  (applicationID : string) (log : list Event) (status : Z) (respBody : string)
  (Hnew : http_NewRequestWithContext "DELETE"
            (platformAPIBaseURL +:+ "/platform/applications/" +:+ applicationID) = None)
  (Hdo : http_Do log
           (platformRequestOf c "DELETE" ("/platform/applications/" +:+ applicationID)
              None None)
         = Ok {| StatusCode := status; resp_Body := Ok respBody |})
  (Hok : success status) :
  value (DeleteApplication c applicationID) log
  = match json_Unmarshal_Deleted respBody with
    | Err err => Some (wrapError ("unmarshaling delete response: " +:+ Error err) err)
    | Ok result =>
        if Deleted result then None
        else Some (errorString ("application " +:+ applicationID +:+ " was not deleted"))
    end.
Proof.
  unfold value, DeleteApplication, mbind, M_bind.
  rewrite (platformRequest_built _ _ _ _ _ _ Hnew), Hdo. cbn [StatusCode resp_Body].
  unfold success in Hok.
  replace ((status <? 200) || (status >=? 300)) with false
    by (symmetry; apply orb_false_iff; lia).
  destruct (json_Unmarshal_Deleted respBody) as [result|err]; [|reflexivity].
  by destruct (Deleted result).
Qed.

Lemma DeleteApplication_needs_deleted_flag_witness :
  let R := Demo.runtime 200 "{}" in
  value (DeleteApplication (NewClerkClient "test-key") "app_1") [] = None.
Proof.
  assert (Hok : success 200) by (unfold success; lia).
  exact (@DeleteApplication_needs_deleted_flag (Demo.runtime 200 "{}")
           (NewClerkClient "test-key") "app_1" [] 200 "{}" eq_refl eq_refl Hok).
Defined.





(** ** The provider's client and its consumers *)

(** X9: the client the provider creates is the one every consumer binds.
    After a Configure of the provider that resolved a non-empty key, the
    Configure of the environment resource (given ResourceData) and the
    Configure of the two data sources (given DataSourceData) all store
    the same pointer, whatever they held before and without a diagnostic:
    the pointer to the new client with that key. *)
Theorem consumers_bind_the_provider_client (environ : gmap string string)
  (heap : gmap nat ClerkClient) (req : Provider.ConfigureRequest)
  (resp : Provider.ConfigureResponse) (r_client o_client a_client : option nat)
  (diags : Diagnostics)
  (Hdecoded : HasError (Append (Provider.resp_Diagnostics resp) (Provider.Config_diags req))
              = false)
  (Hkey : resolvedKey environ (Provider.m_PlatformAPIKey (Provider.Config req))
          <> EmptyString) :
  let key := resolvedKey environ (Provider.m_PlatformAPIKey (Provider.Config req)) in
  let resp' := (Provider.Configure environ heap req resp).1 in
  let heap' := (Provider.Configure environ heap req resp).2 in
  exists l : nat,
    heap !! l = None
    /\ heap' !! l = Some (NewClerkClient key)
    /\ Binding.EnvironmentResource_Configure r_client
         (Binding.ClerkClientPtr <$> Provider.ResourceData resp') diags = (Some l, diags)
    /\ Binding.OrganizationDataSource_Configure o_client
         (Binding.ClerkClientPtr <$> Provider.DataSourceData resp') diags = (Some l, diags)
    /\ Binding.ApplicationDataSource_Configure a_client
         (Binding.ClerkClientPtr <$> Provider.DataSourceData resp') diags = (Some l, diags).
Proof.
  intros key resp' heap'. subst resp' heap'. unfold Provider.Configure.
  cbv zeta. rewrite Hdecoded.
  assert (Hresolved :
    (if negb (IsNull (Provider.m_PlatformAPIKey (Provider.Config req)))
        && negb (IsUnknown (Provider.m_PlatformAPIKey (Provider.Config req)))
     then ValueString (Provider.m_PlatformAPIKey (Provider.Config req))
     else Provider.Getenv environ "CLERK_PLATFORM_API_KEY") = key).
  { subst key. unfold resolvedKey, Provider.Getenv.
    destruct (Provider.m_PlatformAPIKey (Provider.Config req)); reflexivity. }
  rewrite Hresolved. rewrite bool_decide_eq_false_2 by exact Hkey.
  destruct (alloc_fresh heap (NewClerkClient key)) as [Hfresh Hheap].
  destruct (Provider.alloc heap (NewClerkClient key)) as [l heap1] eqn:Halloc.
  simpl in *. exists l. subst heap1. repeat split; [done|]. apply lookup_insert_eq.
Qed.

Lemma consumers_bind_the_provider_client_witness :
  let req := Provider.mkConfigureRequest (Provider.mkClerkProviderModel (Value "from-config")) [] in
  let resp := Provider.mkConfigureResponse [] None None in
  exists l : nat,
    (Provider.Configure ∅ ∅ req resp).2 !! l = Some (NewClerkClient "from-config")
    /\ Binding.EnvironmentResource_Configure None
         (Binding.ClerkClientPtr <$> Provider.ResourceData (Provider.Configure ∅ ∅ req resp).1)
         [] = (Some l, []).
Proof.
  intros req resp.
  destruct (consumers_bind_the_provider_client ∅ ∅ req resp None None None [] eq_refl)
    as (l & _ & Hheap & Hres & _).
  - discriminate.
  - exists l. split; assumption.
Defined.

(** X10: a consumer's Configure never loses a client it already holds and
    never reports an error for a missing provider value. With nil
    ProviderData (the provider is not configured yet) the client and the
    diagnostics are left as they are; with a value of another type the
    client is kept and one error naming that type is added; only a client
    pointer replaces the client. The three Configure methods agree on
    the client they end with. *)
Theorem consumer_configure_keeps_client (client0 : option nat)
  (providerData : option Binding.ProviderData) (diags : Diagnostics) :
  let resource := Binding.EnvironmentResource_Configure client0 providerData diags in
  let organization := Binding.OrganizationDataSource_Configure client0 providerData diags in
  let application := Binding.ApplicationDataSource_Configure client0 providerData diags in
  organization.1 = resource.1 /\ application.1 = resource.1
  /\ application.2 = organization.2
  /\ (resource.1 = client0 \/ exists l, providerData = Some (Binding.ClerkClientPtr l)
                                        /\ resource.1 = Some l)
  /\ (providerData = None -> resource.2 = diags /\ organization.2 = diags)
  /\ (forall l, providerData = Some (Binding.ClerkClientPtr l) ->
        resource.2 = diags /\ organization.2 = diags)
  /\ (forall typeName, providerData = Some (Binding.OtherValue typeName) ->
        HasError resource.2 = true /\ HasError organization.2 = true
        /\ mkDiagnostic SeverityError "Unexpected Resource Configure Type"
             ("Expected *client.ClerkClient, got: " +:+ typeName) ∈ resource.2
        /\ mkDiagnostic SeverityError "Unexpected Data Source Configure Type"
             ("Expected *client.ClerkClient, got: " +:+ typeName) ∈ organization.2).
Proof.
  destruct providerData as [[l|typeName]|]; cbn.
  - repeat split; try done. right. by exists l.
  - split; [done|]. split; [done|]. split; [done|]. split; [by left|].
    split; [done|]. split; [done|]. intros ? [= <-].
    repeat split; first [apply HasError_AddError | apply elem_of_AddError].
  - repeat split; try done. by left.
Qed.

(** ** The environment resource: pushing the settings *)

Lemma boolPtr_known (x : attr bool) : Environment.boolPtr x = known x.
Proof. by destruct x. Qed.

Lemma stringPtr_known (x : attr string) : Environment.stringPtr x = known x.
Proof. by destruct x. Qed.

Lemma int64Ptr_known (x : attr Z) : Environment.int64Ptr x = known x.
Proof. by destruct x. Qed.

Lemma AddError_prefix (diags : Diagnostics) (summary detail : string) :
  diags `prefix_of` AddError diags summary detail.
Proof.
  unfold AddError, Append, Append1. simpl. case_bool_decide; [done|]. by apply prefix_app_r.
Qed.

(** X11: applyInstanceSettings contacts Clerk only when the plan sets one
    of the seven instance settings. With none set it returns at once, the
    registry not even being consulted. With one set and the instance
    registered it sends exactly one update carrying the known values and
    nothing for the null and unknown ones, and adds an error exactly when
    that call fails; with one set and no registry entry it adds the
    registry error and sends nothing. *)
Theorem instance_settings_sent_only_when_set `{Runtime} (r : Environment.EnvironmentResource)
  (appID env : string) (plan : Environment.EnvironmentResourceModel)
  (diags : Diagnostics) (log : list Event) :
  let params :=
    {| TestMode := known (Environment.TestMode plan);
       HIBP := known (Environment.HIBP plan);
       EnhancedEmailDeliverability := known (Environment.EnhancedEmailDeliverability plan);
       SupportEmail := known (Environment.SupportEmail plan);
       ClerkJSVersion := known (Environment.ClerkJSVersion plan);
       URLBasedSessionSyncing := known (Environment.URLBasedSessionSyncing plan);
       DevelopmentOrigin := known (Environment.DevelopmentOrigin plan) |} in
  (configuresInstance plan = false ->
     Environment.applyInstanceSettings r appID env plan diags log = (diags, log))
  /\ (configuresInstance plan = true ->
        (forall config, GetBackendConfig (Environment.client r) appID env = Ok config ->
           Environment.applyInstanceSettings r appID env plan diags log
           = (match sdk_instancesettings_Update log config params with
              | Some err => AddError diags "Error updating instance settings" (Error err)
              | None => diags
              end,
              log ++ [BackendHTTP config (InstanceUpdate params)]))
        /\ (backendClients (Environment.client r) !! backendClientKey appID env = None ->
            Environment.applyInstanceSettings r appID env plan diags log
            = (AddError diags "Error updating instance settings"
                 (Error (resolveError appID env (registryMiss appID env))),
               log))).
Proof.
  intros params. subst params. unfold Environment.applyInstanceSettings. cbv zeta.
  rewrite !boolPtr_known, !stringPtr_known. unfold configuresInstance.
  split; [intros ->; reflexivity|]. intros ->. cbn [negb]. unfold mbind, M_bind.
  split.
  - intros config Hreg. rewrite (UpdateInstanceSettings_registered _ _ _ _ _ _ Hreg).
    by destruct (sdk_instancesettings_Update log config _).
  - intros Hmiss. unfold UpdateInstanceSettings.
    by rewrite (GetInstanceSettingsClient_miss _ _ _ Hmiss).
Qed.

(** X12: applying a known restrictions block on a registered instance
    sends one update carrying the known attributes of the block. When it
    succeeds the block written to the state is the answer of the API, all
    five attributes known, whatever the plan said or left unknown, and no
    other attribute of the plan changes; when it fails the plan is left as
    it was and the error is reported. *)
Theorem restrictions_state_comes_from_answer `{Runtime} (r : Environment.EnvironmentResource)
  (appID env : string) (plan : Environment.EnvironmentResourceModel)
  (diags : Diagnostics) (log : list Event)
  (restrictions : Environment.RestrictionsModel) (config : ClientConfig)
  (Hplan : Environment.Restrictions plan = Value restrictions)
  (Hclean : HasError diags = false)
  (Hreg : GetBackendConfig (Environment.client r) appID env = Ok config) :
  let params :=
    {| Allowlist := known (Environment.Allowlist restrictions);
       Blocklist := known (Environment.Blocklist restrictions);
       BlockEmailSubaddresses := known (Environment.BlockEmailSubaddresses restrictions);
       BlockDisposableEmailDomains :=
         known (Environment.BlockDisposableEmailDomains restrictions);
       IgnoreDotsForGmailAddresses :=
         known (Environment.IgnoreDotsForGmailAddresses restrictions) |} in
  let out := value (Environment.applyRestrictions r appID env plan diags) log in
  trace (Environment.applyRestrictions r appID env plan diags) log
  = log ++ [BackendHTTP config (InstanceUpdateRestrictions params)]
  /\ match sdk_instancesettings_UpdateRestrictions log config params with
     | Ok result =>
         out.2 = diags
         /\ sameScalars plan out.1
         /\ Environment.OrganizationSettings out.1 = Environment.OrganizationSettings plan
         /\ exists stored : Environment.RestrictionsModel,
              Environment.Restrictions out.1 = Value stored
              /\ restrictionsKnown stored = true
              /\ Environment.Allowlist stored = Value (r_Allowlist result)
              /\ Environment.Blocklist stored = Value (r_Blocklist result)
              /\ Environment.BlockEmailSubaddresses stored
                 = Value (r_BlockEmailSubaddresses result)
              /\ Environment.BlockDisposableEmailDomains stored
                 = Value (r_BlockDisposableEmailDomains result)
              /\ Environment.IgnoreDotsForGmailAddresses stored
                 = Value (r_IgnoreDotsForGmailAddresses result)
     | Err err =>
         out = (plan, AddError diags "Error updating instance restrictions" (Error err))
     end.
Proof.
  intros params out. subst params out.
  unfold trace, value, Environment.applyRestrictions. rewrite Hplan, Hclean.
  cbv zeta. rewrite !boolPtr_known. unfold mbind, M_bind.
  rewrite (UpdateInstanceRestrictions_registered _ _ _ _ _ _ Hreg).
  destruct (sdk_instancesettings_UpdateRestrictions log config _) as [result|err].
  - cbn. repeat split. eexists. repeat split.
  - by cbn.
Qed.

Lemma restrictions_state_comes_from_answer_witness :
  let R := Demo.runtime 200 "{}" in
  exists stored : Environment.RestrictionsModel,
    Environment.Restrictions
      (value (Environment.applyRestrictions (Environment.mkEnvironmentResource Demo.client)
                "app_1" "development" testModePlan []) []).1
    = Value stored
    /\ restrictionsKnown stored = true
    /\ Environment.Allowlist stored = Value false.
Proof.
  intros R.
  pose proof (@restrictions_state_comes_from_answer R
                (Environment.mkEnvironmentResource Demo.client) "app_1" "development"
                testModePlan [] [] _ _ eq_refl eq_refl eq_refl) as Hout.
  cbv zeta in Hout. destruct Hout as [_ Hout]. cbn in Hout.
  destruct Hout as (_ & _ & _ & stored & Hstored & Hknown & Hallow & _).
  exists stored. repeat split; assumption.
Defined.

(** X13: what applyOrganizationSettings does with the attributes other
    than enabled and the membership cap. The update carries the known
    role ids, flags and enrollment modes of the block. When it succeeds,
    the two flags and the enrollment modes written to the state are those
    of the answer (a missing list becomes null), but the two role ids are
    the configured ones, not the role keys of the answer, so a role id the
    plan left null or unknown stays so; when it fails the plan is left as
    it was and the error is reported. *)
Theorem organization_settings_keep_configured_roles `{Runtime}
  (r : Environment.EnvironmentResource) (appID env : string)
  (plan : Environment.EnvironmentResourceModel) (diags : Diagnostics) (log : list Event)
  (orgSettings : Environment.OrganizationSettingsModel) (config : ClientConfig)
  (Hplan : Environment.OrganizationSettings plan = Value orgSettings)
  (Hclean : HasError diags = false)
  (Hreg : GetBackendConfig (Environment.client r) appID env = Ok config) :
  let out := value (Environment.applyOrganizationSettings r appID env plan diags) log in
  exists params : UpdateOrganizationSettingsParams,
    trace (Environment.applyOrganizationSettings r appID env plan diags) log
    = log ++ [BackendHTTP config (InstanceUpdateOrganizationSettings params)]
    /\ CreatorRoleID params = known (Environment.CreatorRoleID orgSettings)
    /\ DomainsDefaultRoleID params = known (Environment.DomainsDefaultRoleID orgSettings)
    /\ AdminDeleteEnabled params = known (Environment.AdminDeleteEnabled orgSettings)
    /\ DomainsEnabled params = known (Environment.DomainsEnabled orgSettings)
    /\ DomainsEnrollmentModes params = known (Environment.DomainsEnrollmentModes orgSettings)
    /\ match sdk_instancesettings_UpdateOrganizationSettings log config params with
       | Ok result =>
           out.2 = diags
           /\ sameScalars plan out.1
           /\ Environment.Restrictions out.1 = Environment.Restrictions plan
           /\ exists stored : Environment.OrganizationSettingsModel,
                Environment.OrganizationSettings out.1 = Value stored
                /\ Environment.CreatorRoleID stored = Environment.CreatorRoleID orgSettings
                /\ Environment.DomainsDefaultRoleID stored
                   = Environment.DomainsDefaultRoleID orgSettings
                /\ Environment.AdminDeleteEnabled stored = Value (s_AdminDeleteEnabled result)
                /\ Environment.DomainsEnabled stored = Value (s_DomainsEnabled result)
                /\ Environment.DomainsEnrollmentModes stored
                   = match s_DomainsEnrollmentModes result with
                     | Some modes => Value modes
                     | None => Null
                     end
       | Err err =>
           out = (plan, AddError diags "Error updating organization settings" (Error err))
       end.
Proof.
  intros out. subst out.
  unfold trace, value, Environment.applyOrganizationSettings. rewrite Hplan, Hclean.
  rewrite andb_false_r. cbv zeta. unfold mbind, M_bind.
  match goal with
  | |- context [UpdateOrganizationSettings _ _ _ ?p] => exists p; set (params := p)
  end.
  rewrite (UpdateOrganizationSettings_registered _ _ _ _ _ _ Hreg).
  assert (Hparams :
    CreatorRoleID params = known (Environment.CreatorRoleID orgSettings)
    /\ DomainsDefaultRoleID params = known (Environment.DomainsDefaultRoleID orgSettings)
    /\ AdminDeleteEnabled params = known (Environment.AdminDeleteEnabled orgSettings)
    /\ DomainsEnabled params = known (Environment.DomainsEnabled orgSettings)
    /\ DomainsEnrollmentModes params
       = known (Environment.DomainsEnrollmentModes orgSettings)).
  { subst params. cbn [CreatorRoleID DomainsDefaultRoleID AdminDeleteEnabled
      DomainsEnabled DomainsEnrollmentModes].
    rewrite !boolPtr_known, !stringPtr_known. by repeat split. }
  destruct Hparams as (? & ? & ? & ? & ?).
  destruct (sdk_instancesettings_UpdateOrganizationSettings log config params)
    as [result|err].
  - cbn. repeat split; try assumption.
    eexists. repeat split.
  - cbn. repeat split; assumption.
Qed.

Lemma organization_settings_keep_configured_roles_witness :
  let R := Demo.runtime 200 "{}" in
  exists stored : Environment.OrganizationSettingsModel,
    Environment.OrganizationSettings
      (value (Environment.applyOrganizationSettings
                (Environment.mkEnvironmentResource Demo.client)
                "app_1" "development" Demo.state []) []).1
    = Value stored
    /\ Environment.CreatorRoleID stored = Null
    /\ Environment.DomainsDefaultRoleID stored = Null.
Proof.
  intros R.
  pose proof (@organization_settings_keep_configured_roles R
                (Environment.mkEnvironmentResource Demo.client) "app_1" "development"
                Demo.state [] [] _ _ eq_refl eq_refl eq_refl) as Hout.
  cbv zeta in Hout. destruct Hout as (params & _ & _ & _ & _ & _ & _ & Hout).
  cbn in Hout. destruct Hout as (_ & _ & _ & stored & Hstored & Hcreator & Hdefault & _).
  exists stored. repeat split; assumption.
Defined.

Section SettingsInvariants.
Context `{Runtime}.

Lemma sameScalars_refl (plan : Environment.EnvironmentResourceModel) :
  sameScalars plan plan.
Proof. by repeat split. Qed.

Lemma sameScalars_trans (a b c : Environment.EnvironmentResourceModel) :
  sameScalars a b -> sameScalars b c -> sameScalars a c.
Proof. unfold sameScalars. intuition congruence. Qed.

Lemma GetInstanceSettingsClient_cases (c : ClerkClient) (appID env : string) :
  (exists config, GetBackendConfig c appID env = Ok config
                  /\ GetInstanceSettingsClient c appID env = Ok config)
  \/ (exists err, GetInstanceSettingsClient c appID env = Err err).
Proof.
  unfold GetInstanceSettingsClient.
  destruct (GetBackendConfig c appID env) as [config|err]; [left|right]; by eexists.
Qed.

Lemma applyInstanceSettings_inv (r : Environment.EnvironmentResource) (appID env : string)
  (plan : Environment.EnvironmentResourceModel) (diags : Diagnostics) (log : list Event) :
  exists diags' evs,
    Environment.applyInstanceSettings r appID env plan diags log = (diags', log ++ evs)
    /\ diags `prefix_of` diags' /\ oneCall r appID env evs.
Proof.
  unfold Environment.applyInstanceSettings. cbv zeta.
  match goal with |- context [negb ?b] => destruct b end; cbn [negb].
  - unfold mbind, M_bind, UpdateInstanceSettings.
    destruct (GetInstanceSettingsClient_cases (Environment.client r) appID env)
      as [(config & Hreg & ->)|(err & ->)].
    + unfold sdkCall.
      match goal with |- context [sdk_instancesettings_Update ?l ?c ?p] =>
        destruct (sdk_instancesettings_Update l c p) as [err|] end.
      * eexists _, _. split; [reflexivity|]. split; [apply AddError_prefix|].
        right. by eexists _, _.
      * eexists _, _. split; [reflexivity|]. split; [done|]. right. by eexists _, _.
    + exists (AddError diags "Error updating instance settings" (Error err)), [].
      rewrite app_nil_r. split; [reflexivity|]. split; [apply AddError_prefix|by left].
  - exists diags, []. rewrite app_nil_r. split; [reflexivity|]. split; [done|by left].
Qed.

Lemma applyRestrictions_inv (r : Environment.EnvironmentResource) (appID env : string)
  (plan : Environment.EnvironmentResourceModel) (diags : Diagnostics) (log : list Event) :
  exists plan' diags' evs,
    Environment.applyRestrictions r appID env plan diags log = ((plan', diags'), log ++ evs)
    /\ sameScalars plan plan'
    /\ Environment.OrganizationSettings plan' = Environment.OrganizationSettings plan
    /\ diags `prefix_of` diags' /\ oneCall r appID env evs.
Proof.
  assert (Hstay : exists plan' diags' evs,
            ((plan, diags), log) = ((plan', diags'), log ++ evs)
            /\ sameScalars plan plan'
            /\ Environment.OrganizationSettings plan' = Environment.OrganizationSettings plan
            /\ diags `prefix_of` diags' /\ oneCall r appID env evs).
  { exists plan, diags, []. rewrite app_nil_r. split; [reflexivity|].
    split; [apply sameScalars_refl|]. split; [reflexivity|]. split; [done|by left]. }
  unfold Environment.applyRestrictions.
  destruct (Environment.Restrictions plan) as [| |restrictions]; [exact Hstay..|].
  destruct (HasError diags); [exact Hstay|]. cbv zeta.
  unfold mbind, M_bind, UpdateInstanceRestrictions.
  destruct (GetInstanceSettingsClient_cases (Environment.client r) appID env)
    as [(config & Hreg & ->)|(err & ->)].
  - unfold sdkCall.
    match goal with |- context [sdk_instancesettings_UpdateRestrictions ?l ?c ?p] =>
      destruct (sdk_instancesettings_UpdateRestrictions l c p) as [result|err] end.
    + eexists _, _, _. split; [reflexivity|]. split; [by repeat split|].
      split; [reflexivity|]. split; [done|]. right. by eexists _, _.
    + eexists _, _, _. split; [reflexivity|]. split; [apply sameScalars_refl|].
      split; [reflexivity|]. split; [apply AddError_prefix|]. right. by eexists _, _.
  - exists plan, (AddError diags "Error updating instance restrictions" (Error err)), [].
    rewrite app_nil_r. split; [reflexivity|]. split; [apply sameScalars_refl|].
    split; [reflexivity|]. split; [apply AddError_prefix|by left].
Qed.

Lemma applyOrganizationSettings_inv (r : Environment.EnvironmentResource)
  (appID env : string) (plan : Environment.EnvironmentResourceModel)
  (diags : Diagnostics) (log : list Event) :
  exists plan' diags' evs,
    Environment.applyOrganizationSettings r appID env plan diags log
    = ((plan', diags'), log ++ evs)
    /\ sameScalars plan plan'
    /\ Environment.Restrictions plan' = Environment.Restrictions plan
    /\ diags `prefix_of` diags' /\ oneCall r appID env evs.
Proof.
  assert (Hstay : exists plan' diags' evs,
            ((plan, diags), log) = ((plan', diags'), log ++ evs)
            /\ sameScalars plan plan'
            /\ Environment.Restrictions plan' = Environment.Restrictions plan
            /\ diags `prefix_of` diags' /\ oneCall r appID env evs).
  { exists plan, diags, []. rewrite app_nil_r. split; [reflexivity|].
    split; [apply sameScalars_refl|]. split; [reflexivity|]. split; [done|by left]. }
  unfold Environment.applyOrganizationSettings.
  destruct (Environment.OrganizationSettings plan) as [| |orgSettings]; [exact Hstay..|].
  destruct (HasError diags) eqn:Hclean; [exact Hstay|]. rewrite andb_false_r. cbv zeta.
  unfold mbind, M_bind, UpdateOrganizationSettings.
  destruct (GetInstanceSettingsClient_cases (Environment.client r) appID env)
    as [(config & Hreg & ->)|(err & ->)].
  - unfold sdkCall.
    match goal with |- context [sdk_instancesettings_UpdateOrganizationSettings ?l ?c ?p] =>
      destruct (sdk_instancesettings_UpdateOrganizationSettings l c p) as [result|err] end.
    + eexists _, _, _. split; [reflexivity|]. split; [by repeat split|].
      split; [reflexivity|]. split; [done|]. right. by eexists _, _.
    + eexists _, _, _. split; [reflexivity|]. split; [apply sameScalars_refl|].
      split; [reflexivity|]. split; [apply AddError_prefix|]. right. by eexists _, _.
  - exists plan, (AddError diags "Error updating organization settings" (Error err)), [].
    rewrite app_nil_r. split; [reflexivity|]. split; [apply sameScalars_refl|].
    split; [reflexivity|]. split; [apply AddError_prefix|by left].
Qed.

(** The invariant of applySettings, in the form the theorems below use. *)
Lemma applySettings_inv (r : Environment.EnvironmentResource)
  (plan : Environment.EnvironmentResourceModel) (diags : Diagnostics) (log : list Event) :
  let appID := ValueString (Environment.ApplicationID plan) in
  let env := ValueString (Environment.Environment plan) in
  exists plan' diags' evs,
    Environment.applySettings r plan diags log = ((plan', diags'), log ++ evs)
    /\ sameScalars plan plan'
    /\ diags `prefix_of` diags'
    /\ (length evs <= 3)%nat
    /\ (forall e, e ∈ evs ->
          exists config call,
            e = BackendHTTP config call
            /\ GetBackendConfig (Environment.client r) appID env = Ok config).
Proof.
  intros appID env. unfold Environment.applySettings. cbv zeta. fold appID env.
  unfold mbind, M_bind.
  assert (Hcalls : forall evs, oneCall r appID env evs ->
            (length evs <= 1)%nat
            /\ forall e, e ∈ evs ->
                 exists config call,
                   e = BackendHTTP config call
                   /\ GetBackendConfig (Environment.client r) appID env = Ok config).
  { intros evs [-> | (config & call & -> & Hreg)].
    - split; [simpl; lia|]. intros e He. by apply elem_of_nil in He.
    - split; [simpl; lia|]. intros e ->%list_elem_of_singleton. by eexists _, _. }
  destruct (applyInstanceSettings_inv r appID env plan diags log)
    as (diags1 & evs1 & -> & Hpre1 & [Hlen1 Hevs1]%Hcalls).
  destruct (HasError diags1).
  { exists plan, diags1, evs1. split; [reflexivity|]. split; [apply sameScalars_refl|].
    split; [done|]. split; [lia|done]. }
  destruct (applyRestrictions_inv r appID env plan diags1 (log ++ evs1))
    as (plan2 & diags2 & evs2 & -> & Hsame2 & _ & Hpre2 & [Hlen2 Hevs2]%Hcalls).
  destruct (HasError diags2).
  { exists plan2, diags2, (evs1 ++ evs2). rewrite app_assoc. split; [reflexivity|].
    split; [done|]. split; [by etrans|]. split; [rewrite length_app; lia|].
    intros e [He|He]%elem_of_app; auto. }
  destruct (applyOrganizationSettings_inv r appID env plan2 diags2 ((log ++ evs1) ++ evs2))
    as (plan3 & diags3 & evs3 & -> & Hsame3 & _ & Hpre3 & [Hlen3 Hevs3]%Hcalls).
  exists plan3, diags3, (evs1 ++ evs2 ++ evs3). rewrite !app_assoc. split; [reflexivity|].
  split; [by eapply sameScalars_trans|]. split; [by do 2 etrans|].
  split; [rewrite !length_app; lia|].
  intros e [[He|He]%elem_of_app|He]%elem_of_app; auto.
Qed.

End SettingsInvariants.

Section SettingsWithoutCalls.
Context `{Runtime}.

Lemma applyInstanceSettings_unset (r : Environment.EnvironmentResource) (appID env : string)
  (plan : Environment.EnvironmentResourceModel) (diags : Diagnostics) (log : list Event) :
  configuresInstance plan = false ->
  Environment.applyInstanceSettings r appID env plan diags log = (diags, log).
Proof.
  unfold Environment.applyInstanceSettings, configuresInstance. cbv zeta. by intros ->.
Qed.

Lemma applyInstanceSettings_miss (r : Environment.EnvironmentResource) (appID env : string)
  (plan : Environment.EnvironmentResourceModel) (diags : Diagnostics) (log : list Event) :
  configuresInstance plan = true ->
  backendClients (Environment.client r) !! backendClientKey appID env = None ->
  Environment.applyInstanceSettings r appID env plan diags log
  = (AddError diags "Error updating instance settings"
       (Error (resolveError appID env (registryMiss appID env))), log).
Proof.
  unfold Environment.applyInstanceSettings, configuresInstance. cbv zeta.
  intros -> Hmiss. cbn [negb]. unfold mbind, M_bind, UpdateInstanceSettings.
  by rewrite (GetInstanceSettingsClient_miss _ _ _ Hmiss).
Qed.

Lemma applyRestrictions_unset (r : Environment.EnvironmentResource) (appID env : string)
  (plan : Environment.EnvironmentResourceModel) (diags : Diagnostics) (log : list Event) :
  (forall m, Environment.Restrictions plan <> Value m) ->
  Environment.applyRestrictions r appID env plan diags log = ((plan, diags), log).
Proof.
  intros Hunset. unfold Environment.applyRestrictions.
  destruct (Environment.Restrictions plan) as [| |m]; [done..|]. by destruct (Hunset m).
Qed.

Lemma applyRestrictions_miss (r : Environment.EnvironmentResource) (appID env : string)
  (plan : Environment.EnvironmentResourceModel) (diags : Diagnostics) (log : list Event)
  (m : Environment.RestrictionsModel) :
  Environment.Restrictions plan = Value m -> HasError diags = false ->
  backendClients (Environment.client r) !! backendClientKey appID env = None ->
  Environment.applyRestrictions r appID env plan diags log
  = ((plan, AddError diags "Error updating instance restrictions"
              (Error (resolveError appID env (registryMiss appID env)))), log).
Proof.
  intros Hplan Hclean Hmiss. unfold Environment.applyRestrictions.
  rewrite Hplan, Hclean. cbv zeta. unfold mbind, M_bind, UpdateInstanceRestrictions.
  by rewrite (GetInstanceSettingsClient_miss _ _ _ Hmiss).
Qed.

Lemma applyOrganizationSettings_unset (r : Environment.EnvironmentResource)
  (appID env : string) (plan : Environment.EnvironmentResourceModel)
  (diags : Diagnostics) (log : list Event) :
  (forall m, Environment.OrganizationSettings plan <> Value m) ->
  Environment.applyOrganizationSettings r appID env plan diags log = ((plan, diags), log).
Proof.
  intros Hunset. unfold Environment.applyOrganizationSettings.
  destruct (Environment.OrganizationSettings plan) as [| |m]; [done..|].
  by destruct (Hunset m).
Qed.

Lemma applyOrganizationSettings_miss (r : Environment.EnvironmentResource)
  (appID env : string) (plan : Environment.EnvironmentResourceModel)
  (diags : Diagnostics) (log : list Event) (m : Environment.OrganizationSettingsModel) :
  Environment.OrganizationSettings plan = Value m -> HasError diags = false ->
  backendClients (Environment.client r) !! backendClientKey appID env = None ->
  Environment.applyOrganizationSettings r appID env plan diags log
  = ((plan, AddError diags "Error updating organization settings"
              (Error (resolveError appID env (registryMiss appID env)))), log).
Proof.
  intros Hplan Hclean Hmiss. unfold Environment.applyOrganizationSettings.
  rewrite Hplan, Hclean. rewrite andb_false_r. cbv zeta.
  unfold mbind, M_bind, UpdateOrganizationSettings.
  by rewrite (GetInstanceSettingsClient_miss _ _ _ Hmiss).
Qed.

(** A plan that configures nothing passes through applySettings with no
    call, no diagnostic and no change, on any client. *)
Lemma applySettings_nothing (r : Environment.EnvironmentResource)
  (plan : Environment.EnvironmentResourceModel) (diags : Diagnostics) (log : list Event) :
  configuresNothing plan -> HasError diags = false ->
  Environment.applySettings r plan diags log = ((plan, diags), log).
Proof.
  intros (Hinstance & Hrestrictions & Horg) Hclean.
  unfold Environment.applySettings. cbv zeta. unfold mbind, M_bind.
  rewrite (applyInstanceSettings_unset _ _ _ _ _ _ Hinstance), Hclean.
  rewrite (applyRestrictions_unset _ _ _ _ _ _ Hrestrictions), Hclean.
  by rewrite (applyOrganizationSettings_unset _ _ _ _ _ _ Horg).
Qed.

End SettingsWithoutCalls.



(** X15: on an instance that was never registered applySettings sends
    nothing and returns the plan unchanged. It reports an error exactly
    when the plan configures something: a plan with no instance setting
    and neither block gets the diagnostics back as they were. *)
Theorem unregistered_instance_gets_no_traffic `{Runtime}
  (r : Environment.EnvironmentResource) (plan : Environment.EnvironmentResourceModel)
  (diags : Diagnostics) (log : list Event)
  (Hmiss : backendClients (Environment.client r)
             !! backendClientKey (ValueString (Environment.ApplicationID plan))
                  (ValueString (Environment.Environment plan)) = None)
  (Hclean : HasError diags = false) :
  let out := Environment.applySettings r plan diags log in
  out.2 = log /\ out.1.1 = plan
  /\ (configuresNothing plan -> out.1.2 = diags)
  /\ (~ configuresNothing plan -> HasError out.1.2 = true).
Proof.
  intros out. subst out.
  assert (Hcases : exists diags',
            Environment.applySettings r plan diags log = ((plan, diags'), log)
            /\ (configuresNothing plan -> diags' = diags)
            /\ (~ configuresNothing plan -> HasError diags' = true)).
  { destruct (configuresInstance plan) eqn:Hinstance.
    { eexists. split.
      - unfold Environment.applySettings. cbv zeta. unfold mbind, M_bind.
        rewrite (applyInstanceSettings_miss _ _ _ _ _ _ Hinstance Hmiss), HasError_AddError.
        reflexivity.
      - split; [intros (Hnone & _); congruence | intros _; apply HasError_AddError]. }
    destruct (Environment.Restrictions plan) as [| |m] eqn:Hrestrictions.
    3: { eexists. split.
         - unfold Environment.applySettings. cbv zeta. unfold mbind, M_bind.
           rewrite (applyInstanceSettings_unset _ _ _ _ _ _ Hinstance), Hclean.
           rewrite (applyRestrictions_miss _ _ _ _ _ _ _ Hrestrictions Hclean Hmiss).
           rewrite HasError_AddError. reflexivity.
         - split; [|intros _; apply HasError_AddError].
           intros (_ & Hnone & _). by destruct (Hnone m). }
    all: destruct (Environment.OrganizationSettings plan) as [| |o] eqn:Horg.
    all: try (exists diags; split;
              [apply applySettings_nothing;
               [split; [exact Hinstance|split; intros ?; congruence]|exact Hclean]
              |split; [done|];
               intros Hsome; destruct Hsome;
               split; [exact Hinstance|split; intros ?; congruence]]).
    all: eexists; split;
      [unfold Environment.applySettings; cbv zeta; unfold mbind, M_bind;
       rewrite (applyInstanceSettings_unset _ _ _ _ _ _ Hinstance), Hclean;
       rewrite applyRestrictions_unset by (intros ?; congruence); rewrite Hclean;
       rewrite (applyOrganizationSettings_miss _ _ _ _ _ _ _ Horg Hclean Hmiss);
       reflexivity
      |split; [|intros _; apply HasError_AddError];
       intros (_ & _ & Hnone); by destruct (Hnone o)]. }
  destruct Hcases as (diags' & -> & Hnothing & Hsomething). cbn [fst snd].
  split; [reflexivity|]. split; [reflexivity|]. split; assumption.
Qed.

Lemma unregistered_instance_gets_no_traffic_witness :
  let R := Demo.runtime 200 "{}" in
  let r := Environment.mkEnvironmentResource (NewClerkClient "platform-key") in
  (Environment.applySettings r testModePlan [] []).2 = []
  /\ (Environment.applySettings r testModePlan [] []).1.1 = testModePlan.
Proof.
  intros R r.
  pose proof (@unregistered_instance_gets_no_traffic R r testModePlan [] []
                eq_refl eq_refl) as Hout.
  cbv zeta in Hout. destruct Hout as (Hlog & Hplan & _). split; assumption.
Defined.

(** X16: what applySettings never does, on any client and whatever the
    API answers. It changes no attribute of the plan outside the two
    nested blocks (an unknown instance setting is still unknown
    afterwards), it removes no diagnostic, and it sends at most three
    requests, each of them a Backend API call made with the configuration
    registered for the plan's application and environment. *)
Theorem apply_settings_preserves_scalars `{Runtime} (r : Environment.EnvironmentResource)
  (plan : Environment.EnvironmentResourceModel) (diags : Diagnostics) (log : list Event) :
  let out := Environment.applySettings r plan diags log in
  sameScalars plan out.1.1
  /\ diags `prefix_of` out.1.2
  /\ exists evs : list Event,
       out.2 = log ++ evs /\ (length evs <= 3)%nat
       /\ forall e, e ∈ evs ->
            exists config call,
              e = BackendHTTP config call
              /\ GetBackendConfig (Environment.client r)
                   (ValueString (Environment.ApplicationID plan))
                   (ValueString (Environment.Environment plan)) = Ok config.
Proof.
  intros out. subst out.
  destruct (applySettings_inv r plan diags log)
    as (plan' & diags' & evs & -> & Hsame & Hpre & Hlen & Hevs).
  cbn. split; [exact Hsame|]. split; [exact Hpre|]. by exists evs.
Qed.

(** ** The environment resource: Create and Update *)

Section CreateAndUpdate.
Context `{Runtime}.

Lemma Create_inv (r : Environment.EnvironmentResource) (req_Plan : Environment.Decoded)
  (resp : Environment.Response) (log : list Event) :
  let plan := Environment.got req_Plan in
  let id := backendClientKey (ValueString (Environment.ApplicationID plan))
              (ValueString (Environment.Environment plan)) in
  let created := value (Environment.Create r req_Plan resp) log in
  (HasError (Environment.resp_Diagnostics created) = true ->
     Environment.resp_State created = Environment.resp_State resp)
  /\ (HasError (Environment.resp_Diagnostics created) = false ->
        exists state,
          Environment.resp_State created = Some state
          /\ sameScalars (Environment.set_ID (Value id) plan) state).
Proof.
  intros plan id created. subst created. unfold value, Environment.Create. cbv zeta.
  cbn [Environment.resp_Diagnostics Environment.with_Diagnostics].
  destruct (HasError (Append (Environment.resp_Diagnostics resp)
                        (Environment.got_diags req_Plan))) eqn:Hdecoded.
  { unfold mret, M_ret.
    cbn [fst Environment.resp_Diagnostics Environment.resp_State
           Environment.with_Diagnostics].
    rewrite Hdecoded. split; [done|discriminate]. }
  unfold mbind, M_bind. fold plan. fold (backendClientKey
    (ValueString (Environment.ApplicationID plan))
    (ValueString (Environment.Environment plan))). fold id.
  destruct (applySettings_inv r (Environment.set_ID (Value id) plan)
              (Append (Environment.resp_Diagnostics resp) (Environment.got_diags req_Plan))
              log) as (plan' & diags' & evs & -> & Hsame & _).
  cbn [Environment.resp_Diagnostics Environment.with_Diagnostics Environment.resp_State].
  destruct (HasError diags') eqn:Herr; unfold mret, M_ret;
    cbn [fst Environment.resp_Diagnostics Environment.resp_State
           Environment.with_Diagnostics]; rewrite Herr.
  - split; [done|discriminate].
  - split; [discriminate|]. intros _. by exists plan'.
Qed.

Lemma Update_inv (r : Environment.EnvironmentResource) (req_Plan : Environment.Decoded)
  (resp : Environment.Response) (log : list Event) :
  let plan := Environment.got req_Plan in
  let updated := value (Environment.Update r req_Plan resp) log in
  (HasError (Environment.resp_Diagnostics updated) = true ->
     Environment.resp_State updated = Environment.resp_State resp)
  /\ (HasError (Environment.resp_Diagnostics updated) = false ->
        exists state,
          Environment.resp_State updated = Some state /\ sameScalars plan state).
Proof.
  intros plan updated. subst updated. unfold value, Environment.Update. cbv zeta.
  cbn [Environment.resp_Diagnostics Environment.with_Diagnostics].
  destruct (HasError (Append (Environment.resp_Diagnostics resp)
                        (Environment.got_diags req_Plan))) eqn:Hdecoded.
  { unfold mret, M_ret.
    cbn [fst Environment.resp_Diagnostics Environment.resp_State
           Environment.with_Diagnostics].
    rewrite Hdecoded. split; [done|discriminate]. }
  unfold mbind, M_bind. fold plan.
  destruct (applySettings_inv r plan
              (Append (Environment.resp_Diagnostics resp) (Environment.got_diags req_Plan))
              log) as (plan' & diags' & evs & -> & Hsame & _).
  cbn [Environment.resp_Diagnostics Environment.with_Diagnostics Environment.resp_State].
  destruct (HasError diags') eqn:Herr; unfold mret, M_ret;
    cbn [fst Environment.resp_Diagnostics Environment.resp_State
           Environment.with_Diagnostics]; rewrite Herr.
  - split; [done|discriminate].
  - split; [discriminate|]. intros _. by exists plan'.
Qed.

End CreateAndUpdate.

(** X17: Create and Update write the state only when they end without an
    error; otherwise the state of the response is left as it was. The
    state Create writes has the identifier application_id/environment,
    the key under which the registry files the instance, and otherwise
    the plan's attributes outside the two blocks; the state Update writes
    keeps the plan's identifier and those attributes. *)
Theorem create_stores_composite_id `{Runtime} (r : Environment.EnvironmentResource)
  (req_Plan : Environment.Decoded) (resp : Environment.Response) (log : list Event) :
  let plan := Environment.got req_Plan in
  let created := value (Environment.Create r req_Plan resp) log in
  let updated := value (Environment.Update r req_Plan resp) log in
  (HasError (Environment.resp_Diagnostics created) = true ->
     Environment.resp_State created = Environment.resp_State resp)
  /\ (HasError (Environment.resp_Diagnostics created) = false ->
        exists state,
          Environment.resp_State created = Some state
          /\ Environment.ID state
             = Value (backendClientKey (ValueString (Environment.ApplicationID plan))
                        (ValueString (Environment.Environment plan)))
          /\ sameScalars (Environment.set_ID (Environment.ID state) plan) state)
  /\ (HasError (Environment.resp_Diagnostics updated) = true ->
        Environment.resp_State updated = Environment.resp_State resp)
  /\ (HasError (Environment.resp_Diagnostics updated) = false ->
        exists state,
          Environment.resp_State updated = Some state /\ sameScalars plan state).
Proof.
  intros plan created updated. subst plan created updated.
  destruct (Create_inv r req_Plan resp log) as [Hfailed Hcreated].
  destruct (Update_inv r req_Plan resp log) as [Hfailed' Hupdated].
  cbv zeta in *. split; [exact Hfailed|]. split; [|split; assumption].
  intros Hok. destruct (Hcreated Hok) as (state & Hstate & Hsame).
  exists state. split; [exact Hstate|].
  destruct Hsame as (Hid & Hrest). cbn [Environment.set_ID Environment.ID] in Hid.
  split; [by rewrite <- Hid|]. rewrite <- Hid. by split.
Qed.

(** X18: the identifier Create stores can be imported. For a plan whose
    application id is not empty and has no slash and whose environment is
    development or production, importing the identifier of the state a
    successful Create wrote is accepted without a diagnostic, and the
    application_id and environment it sets are those of that state. *)
Theorem created_id_imports_back `{Runtime} (r : Environment.EnvironmentResource)
  (req_Plan : Environment.Decoded) (resp : Environment.Response) (log : list Event)
  (state : Environment.EnvironmentResourceModel)
  (iresp : Environment.ImportStateResponse) (a e : string)
  (Happ : Environment.ApplicationID (Environment.got req_Plan) = Value a)
  (Ha : a <> EmptyString) (Hslash : hasSlash a = false)
  (Henv : Environment.Environment (Environment.got req_Plan) = Value e)
  (He : e = "development" \/ e = "production")
  (Hok : HasError (Environment.resp_Diagnostics
                     (value (Environment.Create r req_Plan resp) log)) = false)
  (Hstate : Environment.resp_State (value (Environment.Create r req_Plan resp) log)
            = Some state) :
  Environment.ImportState r (ValueString (Environment.ID state)) iresp
  = Environment.SetAttribute
      (Environment.SetAttribute
         (Environment.SetAttribute iresp "id" (ValueString (Environment.ID state)))
         "application_id" (ValueString (Environment.ApplicationID state)))
      "environment" (ValueString (Environment.Environment state)).
Proof.
  destruct (Create_inv r req_Plan resp log) as [_ Hcreated]. cbv zeta in Hcreated.
  destruct (Hcreated Hok) as (state' & Hstate' & Hid & Happ' & Henv' & _).
  rewrite Hstate in Hstate'. injection Hstate' as <-.
  cbn [Environment.set_ID Environment.ID Environment.ApplicationID
         Environment.Environment] in Hid, Happ', Henv'.
  rewrite <- Hid, <- Happ', <- Henv', Happ, Henv. cbn [ValueString].
  unfold backendClientKey. change (a +:+ "/" +:+ e) with (a +:+ String "/"%char e).
  unfold Environment.ImportState. cbn [SplitN]. rewrite (cut_append a e Hslash).
  destruct (hasSlash_environment e He) as [_ Hne].
  rewrite (bool_decide_eq_false_2 _ Ha), (bool_decide_eq_false_2 _ Hne). cbn [orb].
  by rewrite (proj2 (validEnvironment_spec e) He).
Qed.

Lemma created_id_imports_back_witness :
  let R := Demo.runtime 200 "{}" in
  let r := Environment.mkEnvironmentResource Demo.client in
  let iresp := Environment.mkImportStateResponse [] ∅ in
  Environment.import_State (Environment.ImportState r "app_1/development" iresp)
  = <["environment" := "development"]>
      (<["application_id" := "app_1"]> (<["id" := "app_1/development"]> ∅)).
Proof.
  intros R r iresp.
  assert (Ha : "app_1" <> EmptyString) by discriminate.
  exact (f_equal Environment.import_State
           (@created_id_imports_back R r (Environment.mkDecoded testModePlan [])
              (Environment.mkResponse [] None) [] _ iresp "app_1" "development"
              eq_refl Ha eq_refl eq_refl (or_introl eq_refl) eq_refl eq_refl)).
Defined.

(** X19: a plan that configures nothing (no instance setting and neither
    block) is created and updated without contacting Clerk, on any
    client, registered or not: no request is sent and no diagnostic is
    added. The state Create stores has the identifier
    application_id/environment and every other attribute as the plan has
    it; the state Update stores is the plan as it is. *)
Theorem empty_plan_needs_no_instance `{Runtime} (r : Environment.EnvironmentResource)
  (req_Plan : Environment.Decoded) (resp : Environment.Response) (log : list Event)
  (Hdecoded : HasError (Append (Environment.resp_Diagnostics resp)
                          (Environment.got_diags req_Plan)) = false)
  (Hnothing : configuresNothing (Environment.got req_Plan)) :
  let plan := Environment.got req_Plan in
  let diags := Append (Environment.resp_Diagnostics resp) (Environment.got_diags req_Plan) in
  let created := Environment.Create r req_Plan resp log in
  created.2 = log
  /\ Environment.resp_Diagnostics created.1 = diags
  /\ (exists state,
        Environment.resp_State created.1 = Some state
        /\ Environment.ID state
           = Value (ValueString (Environment.ApplicationID plan) +:+ "/"
                    +:+ ValueString (Environment.Environment plan))
        /\ Environment.ApplicationID state = Environment.ApplicationID plan
        /\ Environment.Environment state = Environment.Environment plan
        /\ Environment.TestMode state = Environment.TestMode plan
        /\ Environment.HIBP state = Environment.HIBP plan
        /\ Environment.EnhancedEmailDeliverability state
           = Environment.EnhancedEmailDeliverability plan
        /\ Environment.SupportEmail state = Environment.SupportEmail plan
        /\ Environment.ClerkJSVersion state = Environment.ClerkJSVersion plan
        /\ Environment.URLBasedSessionSyncing state = Environment.URLBasedSessionSyncing plan
        /\ Environment.DevelopmentOrigin state = Environment.DevelopmentOrigin plan
        /\ Environment.Restrictions state = Environment.Restrictions plan
        /\ Environment.OrganizationSettings state = Environment.OrganizationSettings plan)
  /\ Environment.Update r req_Plan resp log
     = ({| Environment.resp_Diagnostics := diags; Environment.resp_State := Some plan |},
        log).
Proof.
  intros plan diags created. subst plan diags created.
  unfold Environment.Create, Environment.Update. cbv zeta.
  cbn [Environment.resp_Diagnostics Environment.with_Diagnostics]. rewrite Hdecoded.
  unfold mbind, M_bind. rewrite !applySettings_nothing; try assumption.
  cbn [Environment.resp_Diagnostics Environment.with_Diagnostics]. rewrite Hdecoded.
  unfold mret, M_ret. cbn [fst snd Environment.resp_Diagnostics Environment.resp_State].
  split; [reflexivity|]. split; [reflexivity|]. split; [|reflexivity].
  eexists. split; [reflexivity|]. by repeat split.
Qed.

Lemma empty_plan_needs_no_instance_witness :
  let R := offline in
  let r := Environment.mkEnvironmentResource (NewClerkClient "platform-key") in
  let created :=
    Environment.Create r (Environment.mkDecoded emptyPlan [])
      (Environment.mkResponse [] None) [] in
  created.2 = []
  /\ Environment.resp_Diagnostics created.1 = []
  /\ exists state,
       Environment.resp_State created.1 = Some state
       /\ Environment.ID state = Value "app_1/development"
       /\ Environment.ApplicationID state = Value "app_1"
       /\ Environment.Environment state = Value "development".
Proof.
  intros R r created.
  assert (Hnothing : configuresNothing emptyPlan) by (by repeat split).
  destruct (@empty_plan_needs_no_instance R r (Environment.mkDecoded emptyPlan [])
              (Environment.mkResponse [] None) [] eq_refl Hnothing)
    as (Hlog & Hdiags & (state & Hstate & Hid & Happ & Henv & _) & _).
  split; [exact Hlog|]. split; [exact Hdiags|].
  exists state. repeat split; assumption.
Defined.

(** ** The data sources *)

(** X20: the organization data source looks the organization up by its id
    when that is a known, non-empty string and by its slug otherwise.
    When the configuration decodes and the instance is registered, Read
    makes exactly that one Get call with the instance's configuration. On
    an answer it stores the six attributes of the answer and keeps the
    configured application_id and environment; on any error, a 404
    included, it adds an error diagnostic with the error's text and leaves
    the state as it was. For an unregistered instance nothing is sent. *)
Theorem organization_lookup_prefers_id `{Runtime} (d_client : ClerkClient)
  (req_Config : OrganizationDataSource.Decoded) (resp : OrganizationDataSource.Response)
  (log : list Event)
  (Hdecoded : HasError (Append (OrganizationDataSource.resp_Diagnostics resp)
                          (OrganizationDataSource.got_diags req_Config)) = false) :
  let data := OrganizationDataSource.got req_Config in
  let diags := Append (OrganizationDataSource.resp_Diagnostics resp)
                 (OrganizationDataSource.got_diags req_Config) in
  let appID := ValueString (OrganizationDataSource.ApplicationID data) in
  let env := ValueString (OrganizationDataSource.Environment data) in
  let lookupKey :=
    match OrganizationDataSource.ID data with
    | Value (String c id) => String c id
    | _ => ValueString (OrganizationDataSource.Slug data)
    end in
  let out := OrganizationDataSource.Read d_client req_Config resp log in
  (forall config, GetBackendConfig d_client appID env = Ok config ->
     out.2 = log ++ [BackendHTTP config (OrganizationGet lookupKey)]
     /\ match sdk_organization_Get log config lookupKey with
        | Ok org =>
            out.1
            = {| OrganizationDataSource.resp_Diagnostics := diags;
                 OrganizationDataSource.resp_State :=
                   Some {| OrganizationDataSource.ApplicationID :=
                             OrganizationDataSource.ApplicationID data;
                           OrganizationDataSource.Environment :=
                             OrganizationDataSource.Environment data;
                           OrganizationDataSource.ID := Value (o_ID org);
                           OrganizationDataSource.Slug := Value (o_Slug org);
                           OrganizationDataSource.Name := Value (o_Name org);
                           OrganizationDataSource.MaxAllowedMemberships :=
                             Value (o_MaxAllowedMemberships org);
                           OrganizationDataSource.AdminDeleteEnabled :=
                             Value (o_AdminDeleteEnabled org);
                           OrganizationDataSource.CreatedAt := Value (o_CreatedAt org) |} |}
        | Err err =>
            out.1
            = {| OrganizationDataSource.resp_Diagnostics :=
                   AddError diags "Error reading Clerk organization" (Error err);
                 OrganizationDataSource.resp_State :=
                   OrganizationDataSource.resp_State resp |}
        end)
  /\ (backendClients d_client !! backendClientKey appID env = None ->
      out = ({| OrganizationDataSource.resp_Diagnostics :=
                  AddError diags "Error reading Clerk organization"
                    (Error (resolveError appID env (registryMiss appID env)));
                OrganizationDataSource.resp_State :=
                  OrganizationDataSource.resp_State resp |}, log)).
Proof.
  intros data diags appID env lookupKey out. subst out.
  unfold OrganizationDataSource.Read. cbv zeta.
  cbn [OrganizationDataSource.resp_Diagnostics OrganizationDataSource.resp_State].
  rewrite Hdecoded. fold data diags appID env.
  assert (Hkey : (if bool_decide (ValueString (OrganizationDataSource.ID data) = EmptyString)
                  then ValueString (OrganizationDataSource.Slug data)
                  else ValueString (OrganizationDataSource.ID data)) = lookupKey).
  { subst lookupKey. by destruct (OrganizationDataSource.ID data) as [| |[|c id]]. }
  rewrite Hkey. unfold mbind, M_bind, GetOrganization. split.
  - intros config ->. unfold sdkCall, NewClient. cbn [fst snd].
    split; [by destruct (sdk_organization_Get log config lookupKey)|].
    by destruct (sdk_organization_Get log config lookupKey).
  - intros Hmiss. by rewrite (GetBackendConfig_miss _ _ _ Hmiss).
Qed.

Lemma organization_lookup_prefers_id_witness :
  let R := Demo.runtime 404 "not found" in
  let data :=
    OrganizationDataSource.mkOrganizationDataSourceModel
      (Value "app_1") (Value "development") Null (Value "acme") Unknown Unknown Unknown
      Unknown in
  (OrganizationDataSource.Read Demo.client (OrganizationDataSource.mkDecoded data [])
     (OrganizationDataSource.mkResponse [] None) []).2
  = [BackendHTTP {| Key := Some "sk_test_dev"; URL := None |} (OrganizationGet "acme")].
Proof.
  intros R data.
  exact (proj1 (proj1 (@organization_lookup_prefers_id R Demo.client
                         (OrganizationDataSource.mkDecoded data [])
                         (OrganizationDataSource.mkResponse [] None) [] eq_refl)
                  _ eq_refl)).
Defined.

Section ApplicationInstances.
Import ApplicationDataSource.

Lemma foldl_setInstance_ID (insts : list PlatformApplicationInstance)
  (data : ApplicationDataSourceModel) :
  ApplicationDataSource.ID (foldl setInstance data insts) = ApplicationDataSource.ID data.
Proof.
  revert data. induction insts as [|inst insts IH]; intros data; [done|].
  cbn [foldl]. rewrite IH. unfold setInstance. by repeat case_bool_decide.
Qed.

Lemma foldl_setInstance_dev (insts : list PlatformApplicationInstance)
  (data : ApplicationDataSourceModel) :
  Forall (fun inst => EnvironmentType inst <> "development") insts ->
  DevInstanceID (foldl setInstance data insts) = DevInstanceID data
  /\ DevSecretKey (foldl setInstance data insts) = DevSecretKey data
  /\ DevPublishableKey (foldl setInstance data insts) = DevPublishableKey data.
Proof.
  revert data. induction insts as [|inst insts IH]; intros data Hother; [done|].
  apply Forall_cons in Hother as [Hinst Hother]. cbn [foldl].
  destruct (IH (setInstance data inst) Hother) as (-> & -> & ->).
  unfold setInstance. rewrite (bool_decide_eq_false_2 _ Hinst).
  by case_bool_decide.
Qed.

Lemma foldl_setInstance_prod (insts : list PlatformApplicationInstance)
  (data : ApplicationDataSourceModel) :
  Forall (fun inst => EnvironmentType inst <> "production") insts ->
  ProdInstanceID (foldl setInstance data insts) = ProdInstanceID data
  /\ ProdSecretKey (foldl setInstance data insts) = ProdSecretKey data
  /\ ProdPublishableKey (foldl setInstance data insts) = ProdPublishableKey data.
Proof.
  revert data. induction insts as [|inst insts IH]; intros data Hother; [done|].
  apply Forall_cons in Hother as [Hinst Hother]. cbn [foldl].
  destruct (IH (setInstance data inst) Hother) as (-> & -> & ->).
  unfold setInstance. rewrite (bool_decide_eq_false_2 (_ = "production") Hinst).
  by case_bool_decide.
Qed.

Lemma foldl_setInstance_secrets (insts : list PlatformApplicationInstance)
  (data : ApplicationDataSourceModel) :
  Forall (fun inst => SecretKey inst = EmptyString) insts ->
  DevSecretKey (foldl setInstance data insts) = DevSecretKey data
  /\ ProdSecretKey (foldl setInstance data insts) = ProdSecretKey data.
Proof.
  revert data. induction insts as [|inst insts IH]; intros data Hempty; [done|].
  apply Forall_cons in Hempty as [Hinst Hempty]. cbn [foldl].
  destruct (IH (setInstance data inst) Hempty) as (-> & ->).
  unfold setInstance. rewrite (bool_decide_eq_true_2 _ Hinst).
  by repeat case_bool_decide.
Qed.

End ApplicationInstances.

(** X21: how the application data source fills its attributes from the
    instances of the answer, taken in order. The id is never overwritten.
    The development attributes change only through instances of type
    development and the production ones only through instances of type
    production; instances of any other type are ignored. The last
    development instance of the list decides the development instance id
    and publishable key, and the development secret key too when its
    secret key is not empty. An instance with an empty secret key leaves
    the secret key attribute as it was. *)
Theorem instances_fill_their_own_environment
  (data : ApplicationDataSource.ApplicationDataSourceModel)
  (insts : list PlatformApplicationInstance) :
  let out := foldl ApplicationDataSource.setInstance data insts in
  ApplicationDataSource.ID out = ApplicationDataSource.ID data
  /\ (Forall (fun inst => EnvironmentType inst <> "development") insts ->
        ApplicationDataSource.DevInstanceID out = ApplicationDataSource.DevInstanceID data
        /\ ApplicationDataSource.DevSecretKey out = ApplicationDataSource.DevSecretKey data
        /\ ApplicationDataSource.DevPublishableKey out
           = ApplicationDataSource.DevPublishableKey data)
  /\ (Forall (fun inst => EnvironmentType inst <> "production") insts ->
        ApplicationDataSource.ProdInstanceID out = ApplicationDataSource.ProdInstanceID data
        /\ ApplicationDataSource.ProdSecretKey out = ApplicationDataSource.ProdSecretKey data
        /\ ApplicationDataSource.ProdPublishableKey out
           = ApplicationDataSource.ProdPublishableKey data)
  /\ (Forall (fun inst => SecretKey inst = EmptyString) insts ->
        ApplicationDataSource.DevSecretKey out = ApplicationDataSource.DevSecretKey data
        /\ ApplicationDataSource.ProdSecretKey out = ApplicationDataSource.ProdSecretKey data)
  /\ (forall before inst after,
        insts = before ++ inst :: after ->
        EnvironmentType inst = "development" ->
        Forall (fun inst' => EnvironmentType inst' <> "development") after ->
        ApplicationDataSource.DevInstanceID out = Value (InstanceID inst)
        /\ ApplicationDataSource.DevPublishableKey out = Value (PublishableKey inst)
        /\ (SecretKey inst <> EmptyString ->
            ApplicationDataSource.DevSecretKey out = Value (SecretKey inst))).
Proof.
  intros out. subst out.
  split; [apply foldl_setInstance_ID|]. split; [apply foldl_setInstance_dev|].
  split; [apply foldl_setInstance_prod|]. split; [apply foldl_setInstance_secrets|].
  intros before inst after -> Hdev Hafter. rewrite foldl_app. cbn [foldl].
  destruct (foldl_setInstance_dev after
              (ApplicationDataSource.setInstance
                 (foldl ApplicationDataSource.setInstance data before) inst) Hafter)
    as (-> & -> & ->).
  unfold ApplicationDataSource.setInstance. rewrite (bool_decide_eq_true_2 _ Hdev).
  cbn. split; [reflexivity|]. split; [reflexivity|].
  intros Hsecret. by rewrite (bool_decide_eq_false_2 _ Hsecret).
Qed.



(** ** Registry and environment resource together *)

(** X23: the secret key registered for an instance is the one its
    settings are pushed with. On a client on which the plan's application
    and environment were registered with a secret key (last), every
    request applySettings sends is a Backend API call configured with
    exactly that key and no URL override. *)
Theorem settings_are_pushed_with_registered_key `{Runtime} (c : ClerkClient)
  (secretKey : string) (plan : Environment.EnvironmentResourceModel)
  (diags : Diagnostics) (log : list Event) :
  let appID := ValueString (Environment.ApplicationID plan) in
  let env := ValueString (Environment.Environment plan) in
  let r := Environment.mkEnvironmentResource (RegisterBackendClient c appID env secretKey) in
  exists evs : list Event,
    trace (Environment.applySettings r plan diags) log = log ++ evs
    /\ forall e, e ∈ evs ->
         exists call, e = BackendHTTP {| Key := Some secretKey; URL := None |} call.
Proof.
  intros appID env r.
  destruct (applySettings_inv r plan diags log)
    as (plan' & diags' & evs & Hrun & _ & _ & _ & Hevs).
  exists evs. unfold trace. rewrite Hrun. split; [reflexivity|].
  intros e He. destruct (Hevs e He) as (config & call & -> & Hreg).
  exists call. subst r. cbn [Environment.client] in Hreg.
  rewrite GetBackendConfig_after_register in Hreg. by injection Hreg as <-.
Qed.
